(** * aki-nav: the admin session gate of the bookmark worker and the
      open endpoints of the cloud notes worker.

    The development embeds, from [workers_v1.01.09.js], the protected-route
    matcher of [api.handleRequest] and the routing below it, the cookie
    parser shared by [admin.checkAuth] and [admin.handleLogout], the three
    session operations, [admin.handleRequest], the worker's [fetch],
    [api.reorderConfig], [api.getSettings] and [api.updateSettings]; and,
    from [nav-kv/v1.0.1/worker.js], the [fetch] handler of the notes worker.

    Conventions.
    - A JavaScript string is a [string]; its characters stand for code units
      below 256 (URL paths and cookie headers are byte strings).
    - An [async] function is a computation in the monad [M]: it threads the
      [world] (the hosted stores and the trace of calls made to them) and
      may throw.  One request is handled at a time.
    - The hosted stores are external.  A key-value namespace is a finite map
      whose calls may be made to fail by an arbitrary [fault] oracle; the
      relational store is an abstract state with an abstract batch
      primitive. *)

From Stdlib Require Import String Ascii ZArith List Bool DecimalString.
From stdpp Require Import base option gmap strings.

Local Open Scope string_scope.
Local Open Scope list_scope.

(** ** JavaScript string primitives *)

Module JS.

(** [s.split(c)] for a one-character separator. *)
Fixpoint split (sep : ascii) (s : string) : list string :=
  match s with
  | EmptyString => [EmptyString]
  | String c s' =>
      if Ascii.eqb c sep then EmptyString :: split sep s'
      else match split sep s' with
           | [] => [String c EmptyString]
           | w :: ws => String c w :: ws
           end
  end.

(** White space as [String.prototype.trim] sees it, among code units
    below 256: TAB, LF, VT, FF, CR, SPACE and NBSP. *)
Definition is_white (c : ascii) : bool :=
  let n := nat_of_ascii c in
  (Nat.leb 9 n && Nat.leb n 13) || Nat.eqb n 32 || Nat.eqb n 160.

Fixpoint trimStart (s : string) : string :=
  match s with
  | EmptyString => EmptyString
  | String c s' => if is_white c then trimStart s' else s
  end.

Fixpoint trimEnd (s : string) : string :=
  match s with
  | EmptyString => EmptyString
  | String c s' =>
      match trimEnd s' with
      | EmptyString => if is_white c then EmptyString else String c EmptyString
      | t => String c t
      end
  end.

Definition trim (s : string) : string := trimEnd (trimStart s).

(** [s.includes(sub)] *)
Fixpoint includes (sub s : string) : bool :=
  String.prefix sub s ||
  match s with
  | EmptyString => false
  | String _ s' => includes sub s'
  end.

(** [s.replace(/needle/g, rep)] for a literal, non-empty needle: [skip]
    counts the characters of a needle just replaced that are still to be
    passed over. *)
Fixpoint replace_go (needle rep : string) (skip : nat) (s : string) : string :=
  match s with
  | EmptyString => EmptyString
  | String c s' =>
      match skip with
      | S k => replace_go needle rep k s'
      | O =>
          if String.prefix needle s
          then rep +:+ replace_go needle rep (String.length needle - 1) s'
          else String c (replace_go needle rep 0 s')
      end
  end.

Definition replaceAll (needle rep s : string) : string :=
  replace_go needle rep 0 s.

(** [s.replace(needle, rep)] with a string needle: the first occurrence
    only. *)
Fixpoint drop (n : nat) (s : string) : string :=
  match n, s with
  | S k, String _ s' => drop k s'
  | _, _ => s
  end.

Fixpoint replaceFirst (needle rep s : string) : string :=
  if String.prefix needle s then rep +:+ drop (String.length needle) s
  else match s with
       | EmptyString => EmptyString
       | String c s' => String c (replaceFirst needle rep s')
       end.

(** [xs.join(sep)] on an array of strings. *)
Fixpoint join (sep : string) (xs : list string) : string :=
  match xs with
  | [] => EmptyString
  | [x] => x
  | x :: rest => x +:+ sep +:+ join sep rest
  end.

(** [xs.pop()] on a fresh array: its last element. *)
Definition pop (xs : list string) : option string := last xs.

(** Decimal rendering of a non-negative integer, as a template literal
    renders a small integer Number. *)
Definition decimal (n : N) : string := NilEmpty.string_of_uint (N.to_uint n).

End JS.

(** ** The fragment of [RegExp] the route table uses *)

Module Regex.

Inductive cclass : Type :=
| CChar (c : ascii)   (* a literal character, possibly written escaped *)
| CDigit.             (* \d : the ten ASCII digits *)

Record atom : Type := Atom { cls : cclass; plus : bool }.

Definition is_digit (c : ascii) : bool :=
  let n := nat_of_ascii c in Nat.leb 48 n && Nat.leb n 57.

Definition cls_accepts (k : cclass) (c : ascii) : bool :=
  match k with
  | CChar d => Ascii.eqb c d
  | CDigit => is_digit c
  end.

(** Characters with a syntactic role in a pattern; the parser below gives
    a meaning to backslash, [+], and the two anchors only. *)
Definition is_meta (c : ascii) : bool :=
  existsb (Ascii.eqb c)
    (list_ascii_of_string "\^$.*+?()[]{}|").

(** The body of a pattern, between the anchors.  [prev] is the atom just
    read, still waiting for a possible [+]. *)
Fixpoint parse_body (prev : option atom) (src : string) : option (list atom) :=
  let flush := match prev with Some a => [a] | None => [] end in
  match src with
  | EmptyString => Some flush
  | String "\" (String "d" rest) =>
      option_map (app flush) (parse_body (Some (Atom CDigit false)) rest)
  | String "\" (String "/" rest) =>
      option_map (app flush) (parse_body (Some (Atom (CChar "/") false)) rest)
  | String "+" rest =>
      match prev with
      | Some (Atom k false) => option_map (cons (Atom k true)) (parse_body None rest)
      | _ => None
      end
  | String c rest =>
      if is_meta c then None
      else option_map (app flush) (parse_body (Some (Atom (CChar c) false)) rest)
  end.

(** [new RegExp(src)] for a source of the shape [^body$]; [None] stands
    for a source outside the modelled fragment. *)
Definition RegExp (src : string) : option (list atom) :=
  match src with
  | String "^" rest =>
      match String.rev rest with
      | String "$" ydob => parse_body None (String.rev ydob)
      | _ => None
      end
  | _ => None
  end.

(** [re.test(s)] for an anchored pattern: does the whole of [s] match? *)
Fixpoint test (re : list atom) (s : string) {struct re} : bool :=
  match re with
  | [] => match s with EmptyString => true | _ => false end
  | a :: re' =>
      if plus a then
        (fix many (s : string) : bool :=
           match s with
           | EmptyString => false
           | String c s' => cls_accepts (cls a) c && (many s' || test re' s')
           end) s
      else
        match s with
        | EmptyString => false
        | String c s' => cls_accepts (cls a) c && test re' s'
        end
  end.

(** The atoms a text without special characters parses to. *)
Definition literal (s : string) : list atom :=
  map (fun c => Atom (CChar c) false) (list_ascii_of_string s).

End Regex.

(** ** Values, requests and responses *)

#[local] Set Warnings "-register-all".

(** A parsed JSON document.  [JNum z] is the Number whose value is the
    integer [z]; integers are all the modelled handlers produce or
    inspect, and a document with a fraction in it is outside the model. *)
Inductive json : Type :=
| JNull
| JBool (b : bool)
| JNum (z : Z)
| JStr (s : string)
| JArr (items : list json)
| JObj (fields : list (string * json)).

(** A thrown value: only its [message] is ever read. *)
Inductive exn : Type := Error (message : string).

Definition message (e : exn) : string := match e with Error m => m end.

Inductive outcome (A : Type) : Type :=
| Ret (a : A)
| Throw (e : exn).
Arguments Ret {A} a.
Arguments Throw {A} e.

(** The body handed to [new Response]: a text, or the JSON text of a value
    ([JSON.stringify(v)]). *)
Inductive body : Type :=
| Text (s : string)
| Json (v : json).

Record response : Type := Response {
  status : N;
  resp_headers : list (string * string);
  resp_body : body
}.

Record request : Type := Request {
  method : string;
  pathname : string;                       (* new URL(request.url).pathname *)
  searchParams : list (string * string);
  headers : list (string * string);
  json_body : string + json                (* request.json(): rejects with a message, or resolves *)
}.

Module Value.

(** ToBoolean on a value read from a parsed body ([None]: undefined). *)
Definition truthy (v : option json) : bool :=
  match v with
  | None | Some JNull => false
  | Some (JBool b) => b
  | Some (JNum z) => negb (Z.eqb z 0)
  | Some (JStr s) => negb (String.eqb s "")
  | Some (JArr _) | Some (JObj _) => true
  end.

(** [v === stored] where [stored] is what a key-value [get] resolved to:
    a string, or null ([None]). *)
Definition strict_eq (v : option json) (stored : option string) : bool :=
  match v, stored with
  | Some (JStr a), Some b => String.eqb a b
  | Some JNull, None => true
  | _, _ => false
  end.

(** The own property [k] of a parsed object; the last of duplicate
    members wins, as in [JSON.parse]. *)
Fixpoint field (k : string) (fields : list (string * json)) : option json :=
  match fields with
  | [] => None
  | (k', v) :: rest =>
      match field k rest with
      | Some w => Some w
      | None => if String.eqb k' k then Some v else None
      end
  end.

(** [const { k } = v]: destructuring null throws; any other primitive or
    an array has none of the property names the handlers read. *)
Definition destructurable (v : json) : bool :=
  match v with JNull => false | _ => true end.

Definition prop (k : string) (v : json) : option json :=
  match v with
  | JObj fields => field k fields
  | _ => None
  end.

Definition isArray (v : option json) : option (list json) :=
  match v with
  | Some (JArr items) => Some items
  | _ => None
  end.

(** ToString on a value read from a parsed body ([None]: undefined).
    [JNum z] is the Number whose value is the integer [z].  A safe
    integer prints in decimal.  Any other Number prints as the engine
    prints the double ([Number_toString]: the fewest digits that read
    back as the same double, and an exponent from 1e21 on; 10^21 prints
    as 1e+21). *)
Definition Z_to_string (z : Z) : string :=
  match z with
  | Zneg p => "-" +:+ JS.decimal (Npos p)
  | _ => JS.decimal (Z.to_N z)
  end.

Definition MAX_SAFE_INTEGER : Z := 9007199254740991.

(** [Number.isSafeInteger(z)] *)
Definition isSafeInteger (z : Z) : bool := Z.leb (Z.abs z) MAX_SAFE_INTEGER.

Section ToString.

(** The text of a Number that is not a safe integer. *)
Variable Number_toString : Z -> string.

Definition number_to_string (z : Z) : string :=
  if isSafeInteger z then Z_to_string z else Number_toString z.

Fixpoint json_to_string (v : json) : string :=
  match v with
  | JNull => "null"
  | JBool true => "true"
  | JBool false => "false"
  | JNum z => number_to_string z
  | JStr s => s
  | JArr items =>
      JS.join ","
        (map (fun x => match x with JNull => EmptyString | _ => json_to_string x end) items)
  | JObj _ => "[object Object]"
  end.

Definition to_string (v : option json) : string :=
  match v with
  | None => "undefined"
  | Some x => json_to_string x
  end.

End ToString.

(** ToString on a string or null. *)
Definition or_null (v : option string) : string := default "null" v.

End Value.

Module Http.

Definition lower (c : ascii) : ascii :=
  let n := nat_of_ascii c in
  if Nat.leb 65 n && Nat.leb n 90 then ascii_of_nat (n + 32) else c.

Fixpoint lowercase (s : string) : string :=
  match s with
  | EmptyString => EmptyString
  | String c s' => String (lower c) (lowercase s')
  end.

(** [headers.get(name)]: names compare without case, several values are
    combined with ", ", an absent header gives null. *)
Definition headers_get (name : string) (hs : list (string * string)) : option string :=
  match filter (fun h => String.eqb (lowercase (fst h)) (lowercase name)) hs with
  | [] => None
  | found => Some (JS.join ", " (map snd found))
  end.

(** [url.searchParams.get(name)] *)
Fixpoint params_get (name : string) (ps : list (string * string)) : option string :=
  match ps with
  | [] => None
  | (k, v) :: rest => if String.eqb k name then Some v else params_get name rest
  end.

Definition json_headers : list (string * string) :=
  [("Content-Type", "application/json")].

End Http.

(** ** Asynchronous code as state passing with exceptions *)

Module Eff.

Section Monad.
Context {W : Type}.

Definition M (A : Type) : Type := W -> outcome A * W.

Definition ret {A} (a : A) : M A := fun w => (Ret a, w).

Definition throw {A} (e : exn) : M A := fun w => (Throw e, w).

Definition bind {A B} (m : M A) (k : A -> M B) : M B :=
  fun w =>
    match m w with
    | (Ret a, w') => k a w'
    | (Throw e, w') => (Throw e, w')
    end.

(** [try { m } catch (e) { h e }] *)
Definition try_catch {A} (m : M A) (h : exn -> M A) : M A :=
  fun w =>
    match m w with
    | (Ret a, w') => (Ret a, w')
    | (Throw e, w') => h e w'
    end.
(** [await request.json()] *)
Definition request_json (req : request) : M json :=
  match json_body req with
  | inl msg => throw (Error msg)
  | inr v => ret v
  end.

(** [const { ... } = v]: a TypeError on null. *)
Definition destructure (v : json) : M json :=
  if Value.destructurable v then ret v
  else throw (Error "Cannot destructure 'null' as it is null.").
End Monad.

Arguments M : clear implicits.

End Eff.

Declare Scope js_scope.
Delimit Scope js_scope with js.
Notation "'let*' x := m 'in' k" := (Eff.bind m (fun x => k))
  (at level 10, x name, m at level 100, k at level 200) : js_scope.
Notation "m ;;; k" := (Eff.bind m (fun _ => k))
  (at level 100, k at level 200, right associativity) : js_scope.

(** ** Hosted key-value namespaces *)

Module KV.

(** A stored value with the [expirationTtl] (seconds) it was written
    with, if any. *)
Record entry : Type := Entry { value : string; expirationTtl : option N }.

(** A call on a namespace, as the store receives it. *)
Inductive call : Type :=
| Get (key : string)
| Put (key val : string) (ttl : option N)
| Delete (key : string).

Definition is_read (c : call) : bool :=
  match c with Get _ => true | _ => false end.

(** What a call that does not fail answers and leaves behind. *)
Definition get (key : string) (m : gmap string entry) : option string :=
  value <$> (m !! key).

Definition put (key val : string) (ttl : option N) (m : gmap string entry)
  : gmap string entry :=
  <[key := Entry val ttl]> m.

Definition remove (key : string) (m : gmap string entry) : gmap string entry :=
  delete key m.

End KV.

(** ** The bookmark worker, [workers_v1.01.09.js] *)

Module Nav.

(** The entity handlers of [api]: [h_f] names the method [api.f]. *)
Inductive handler : Type :=
| h_getSettings | h_updateSettings
| h_getCatalogs | h_createCatalog | h_updateCatalog | h_deleteCatalog
| h_reorderCatalogs | h_migrateCatalogs | h_toggleCatalogPrivacy
| h_getConfig | h_createConfig | h_reorderConfig | h_deleteAllConfigs | h_submitConfig
| h_updateConfig | h_deleteConfig | h_toggleSitePrivacy
| h_approvePendingConfig | h_rejectPendingConfig
| h_importConfig | h_exportConfig | h_getPendingConfig | h_getPrivateConfig
| h_exportCategory | h_importCategory.

(** [env.NAV_DB.prepare(sql).bind(...args)] *)
Record statement : Type := Statement { sql : string; bound : list json }.

(** What the worker asks of its surroundings, in order. *)
Inductive event : Type :=
| Auth (c : KV.call)               (* a call on env.NAV_AUTH *)
| RandomUUID (id : string)         (* crypto.randomUUID() and its answer *)
| Batch (stmts : list statement)   (* env.NAV_DB.batch(stmts) *)
| Invoke (h : handler)             (* an entity handler is entered *)
| ConsoleError (label msg : string).

(** *** The protected routes ([api.handleRequest], first half) *)

(** Format: 'METHOD /path' or 'METHOD /path_regex'. *)
Definition protectedRoutes : list string :=
  [ "POST /settings";
    "POST /catalogs";
    "PUT /catalogs";
    "DELETE /catalogs";
    "POST /catalogs/reorder";
    "POST /catalogs/migrate";
    "PUT /catalogs/\d+/toggle_privacy";
    "POST /config";
    "POST /config/reorder";
    "DELETE /config/all";
    "PUT /config/\d+";
    "DELETE /config/\d+";
    "PUT /config/\d+/toggle_privacy";
    "PUT /pending/\d+";
    "DELETE /pending/\d+";
    "POST /config/import";
    "GET /config/export";
    "GET /pending";
    "GET /catalogs/export";
    "POST /catalogs/import";
    "GET /private" ].

(** The text handed to [new RegExp] for a route path. *)
Definition route_regex_source (routePath : string) : string :=
  "^" +:+ JS.replaceAll "\d+" "\d+" (JS.replaceAll "/" "\/" routePath) +:+ "$".

Definition regex_test (src s : string) : bool :=
  match Regex.RegExp src with
  | Some re => Regex.test re s
  | None => false
  end.

(** The callback of [protectedRoutes.some].  Every entry of the table has
    its space, so the second piece of the split is always there. *)
Definition route_matches (method path route : string) : bool :=
  match JS.split " " route with
  | routeMethod :: routePath :: _ =>
      if negb (String.eqb routeMethod method) then false
      else if JS.includes "\d+" routePath
           then regex_test (route_regex_source routePath) path
           else String.eqb routePath path
  | _ => false
  end.

Definition isProtected (method path : string) : bool :=
  existsb (route_matches method path) protectedRoutes.

(** *** Cookies ([admin.checkAuth] and [admin.handleLogout]) *)

(** The [reduce] over [cookieHeader.split(';')].  A piece without ['=']
    assigns undefined ([None]); assigning a string or undefined to
    [__proto__] leaves the object as it was. *)
Definition parse_cookies (cookieHeader : string) : gmap string (option string) :=
  fold_left
    (fun acc cookie =>
       match JS.split "=" (JS.trim cookie) with
       | key :: rest =>
           if String.eqb key "__proto__" then acc else <[key := head rest]> acc
       | [] => acc
       end)
    (JS.split ";" cookieHeader) ∅.

(** [cookies['sessionId']], when it is truthy. *)
Definition cookie_sessionId (cookieHeader : string) : option string :=
  match parse_cookies cookieHeader !! "sessionId" with
  | Some (Some (String c s)) => Some (String c s)
  | _ => None
  end.

Definition session_key (sessionId : string) : string := "session:" +:+ sessionId.

Definition errorResponse (msg : string) (code : N) : response :=
  Response code Http.json_headers
    (Json (JObj [("code", JNum (Z.of_N code)); ("message", JStr msg)])).

Fixpoint sequence {A} (xs : list (outcome A)) : outcome (list A) :=
  match xs with
  | [] => Ret []
  | Throw e :: _ => Throw e
  | Ret a :: rest =>
      match sequence rest with
      | Ret l => Ret (a :: l)
      | Throw e => Throw e
      end
  end.

Section Worker.

(** The state of the relational store [NAV_DB] and of the settings
    namespace [NAV_SETTINGS]; no code path other than the three session
    operations below names [NAV_AUTH]. *)
Variable Backend : Type.

(** [prepare(..).bind(.., v)]: whether the driver refuses the value [v],
    and with what message. *)
Variable bind_fault : json -> option string.

(** [NAV_DB.batch]: rejects with a message, or applies the statements. *)
Variable db_batch : list statement -> Backend -> string + Backend.

(** Whether a call on [NAV_AUTH] rejects, and with what message, given
    everything that happened before it. *)
Variable fault : list event -> KV.call -> option string.

(** [crypto.randomUUID()], given everything that happened before. *)
Variable randomUUID : list event -> string.

(** The entity handlers other than [api.reorderConfig], the page renderers
    and the static file server: they see the request and the backend. *)
Variable crud : handler -> request -> list string -> Backend -> outcome response * Backend.
Variable handleStatic : request -> response.
Variable renderAdminPage renderLoginPage : response.
Variable publicPage : request -> Backend -> outcome response * Backend.

Record world : Type := World {
  NAV_AUTH : gmap string KV.entry;
  backend : Backend;
  trace : list event       (* most recent last *)
}.

Local Abbreviation M := (Eff.M world).

Definition emit (e : event) : M unit :=
  fun w => (Ret tt, World (NAV_AUTH w) (backend w) (trace w ++ [e])).

(** A call on [env.NAV_AUTH]: recorded, then failed or served. *)
Definition auth_get (key : string) : M (option string) :=
  fun w =>
    let w' := World (NAV_AUTH w) (backend w) (trace w ++ [Auth (KV.Get key)]) in
    match fault (trace w) (KV.Get key) with
    | Some msg => (Throw (Error msg), w')
    | None => (Ret (KV.get key (NAV_AUTH w)), w')
    end.

Definition auth_put (key val : string) (ttl : option N) : M unit :=
  fun w =>
    let ev := Auth (KV.Put key val ttl) in
    match fault (trace w) (KV.Put key val ttl) with
    | Some msg => (Throw (Error msg), World (NAV_AUTH w) (backend w) (trace w ++ [ev]))
    | None => (Ret tt, World (KV.put key val ttl (NAV_AUTH w)) (backend w) (trace w ++ [ev]))
    end.

Definition auth_delete (key : string) : M unit :=
  fun w =>
    let ev := Auth (KV.Delete key) in
    match fault (trace w) (KV.Delete key) with
    | Some msg => (Throw (Error msg), World (NAV_AUTH w) (backend w) (trace w ++ [ev]))
    | None => (Ret tt, World (KV.remove key (NAV_AUTH w)) (backend w) (trace w ++ [ev]))
    end.

Definition random_uuid : M string :=
  fun w =>
    let id := randomUUID (trace w) in
    (Ret id, World (NAV_AUTH w) (backend w) (trace w ++ [RandomUUID id])).

Definition batch (stmts : list statement) : M unit :=
  fun w =>
    let t := trace w ++ [Batch stmts] in
    match db_batch stmts (backend w) with
    | inl msg => (Throw (Error msg), World (NAV_AUTH w) (backend w) t)
    | inr b => (Ret tt, World (NAV_AUTH w) b t)
    end.

(** Code that sees the backend only. *)
Definition on_backend {A} (f : Backend -> outcome A * Backend) : M A :=
  fun w =>
    let (r, b) := f (backend w) in (r, World (NAV_AUTH w) b (trace w)).

Local Open Scope js_scope.

(** *** [admin.checkAuth] *)
Definition checkAuth (req : request) : M bool :=
  Eff.try_catch
    (match Http.headers_get "Cookie" (headers req) with
     | None | Some EmptyString => Eff.ret false
     | Some cookieHeader =>
         match cookie_sessionId cookieHeader with
         | None => Eff.ret false
         | Some sessionId =>
             let* session := auth_get (session_key sessionId) in
             Eff.ret (bool_decide (session = Some "valid"))
         end
     end)
    (fun e => emit (ConsoleError "Auth check failed:" (message e)) ;;; Eff.ret false).

(** *** [admin.handleLogin] *)
Definition login_cookie (sessionId : string) (maxAge : N) : string :=
  "sessionId=" +:+ sessionId +:+ "; HttpOnly; Secure; Path=/; Max-Age=" +:+ JS.decimal maxAge.

Definition handleLogin (req : request) : M response :=
  Eff.try_catch
    (let* v := Eff.request_json req in
     let* v := Eff.destructure v in
     let username := Value.prop "username" v in
     let password := Value.prop "password" v in
     let remember := Value.prop "remember" v in
     let* storedUsername := auth_get "admin_username" in
     let* storedPassword := auth_get "admin_password" in
     if Value.strict_eq username storedUsername && Value.strict_eq password storedPassword
     then
       let* sessionId := random_uuid in
       let maxAge := (if Value.truthy remember then 30 * 86400 else 86400)%N in
       auth_put (session_key sessionId) "valid" (Some maxAge) ;;;
       Eff.ret (Response 200
                  [("Content-Type", "application/json");
                   ("Set-Cookie", login_cookie sessionId maxAge)]
                  (Json (JObj [("success", JBool true); ("message", JStr "Login successful")])))
     else
       Eff.ret (Response 401 Http.json_headers
                  (Json (JObj [("success", JBool false);
                               ("message", JStr "Invalid username or password")]))))
    (fun e =>
       Eff.ret (Response 500 Http.json_headers
                  (Json (JObj [("success", JBool false); ("message", JStr (message e))])))).

(** *** [admin.handleLogout] *)
Definition clearing_cookie : string :=
  "sessionId=; HttpOnly; Secure; Path=/; Max-Age=0".

Definition handleLogout (req : request) : M response :=
  Eff.try_catch
    (match Http.headers_get "Cookie" (headers req) with
     | None | Some EmptyString => Eff.ret tt
     | Some cookieHeader =>
         match cookie_sessionId cookieHeader with
         | None => Eff.ret tt
         | Some sessionId => auth_delete (session_key sessionId)
         end
     end ;;;
     Eff.ret (Response 200
                [("Content-Type", "application/json"); ("Set-Cookie", clearing_cookie)]
                (Json (JObj [("success", JBool true); ("message", JStr "Logged out")]))))
    (fun e =>
       Eff.ret (Response 500 Http.json_headers
                  (Json (JObj [("success", JBool false); ("message", JStr (message e))])))).

(** *** [api.reorderConfig] *)
Definition update_sort_order : string := "UPDATE sites SET sort_order = ? WHERE id = ?".

Definition bind_position (index : nat) (id : json) : outcome statement :=
  match bind_fault id with
  | Some msg => Throw (Error msg)
  | None => Ret (Statement update_sort_order [JNum (Z.of_nat index + 1); id])
  end.

Definition ok_response (code : N) (msg : string) : response :=
  Response code Http.json_headers
    (Json (JObj [("code", JNum (Z.of_N code)); ("message", JStr msg)])).

Definition reorderConfig (req : request) : M response :=
  Eff.try_catch
    (let* v := Eff.request_json req in
     let* v := Eff.destructure v in
     match Value.isArray (Value.prop "orderedIds" v) with
     | None =>
         Eff.ret (errorResponse "Invalid data format, expected an array of IDs." 400)
     | Some orderedIds =>
         match sequence (imap bind_position orderedIds) with
         | Throw e => Eff.throw e
         | Ret statements =>
             batch statements ;;;
             Eff.ret (ok_response 200 "Reordered successfully")
         end
     end)
    (fun e => Eff.ret (errorResponse ("Failed to reorder configs: " +:+ message e) 500)).

(** *** [api.handleRequest] *)

(** Entering the entity handler [api.h]. *)
Definition run (h : handler) (req : request) (args : list string) : M response :=
  emit (Invoke h) ;;;
  match h with
  | h_reorderConfig => reorderConfig req
  | _ => on_backend (crud h req args)
  end.

Definition method_not_allowed : M response :=
  Eff.ret (errorResponse "Method Not Allowed" 405).

(** [path.split('/')[2]] *)
Definition segment2 (path : string) : list string :=
  match JS.split "/" path !! 2%nat with
  | Some seg => [seg]
  | None => []
  end.

(** The routing inside the [try] block. *)
Definition dispatch (method path id : string) (req : request) : M response :=
  let verb m := String.eqb method m in
  let on p := String.eqb path p in
  if on "/settings" then
    if verb "GET" then run h_getSettings req []
    else if verb "POST" then run h_updateSettings req []
    else method_not_allowed
  else if on "/catalogs" then
    if verb "GET" then run h_getCatalogs req []
    else if verb "POST" then run h_createCatalog req []
    else if verb "PUT" then run h_updateCatalog req []
    else if verb "DELETE" then run h_deleteCatalog req []
    else method_not_allowed
  else if on "/catalogs/reorder" && verb "POST" then run h_reorderCatalogs req []
  else if on "/catalogs/migrate" && verb "POST" then run h_migrateCatalogs req []
  else if regex_test "^\/catalogs\/\d+\/toggle_privacy$" path && verb "PUT"
  then run h_toggleCatalogPrivacy req (segment2 path)
  else if on "/config" then
    if verb "GET" then run h_getConfig req []
    else if verb "POST" then run h_createConfig req []
    else method_not_allowed
  else if on "/config/reorder" && verb "POST" then run h_reorderConfig req []
  else if on "/config/all" && verb "DELETE" then run h_deleteAllConfigs req []
  else if on "/config/submit" && verb "POST" then run h_submitConfig req []
  else if on ("/config/" +:+ id) && regex_test "^\d+$" id then
    if verb "PUT" then run h_updateConfig req [id]
    else if verb "DELETE" then run h_deleteConfig req [id]
    else method_not_allowed
  else if regex_test "^\/config\/\d+\/toggle_privacy$" path && verb "PUT"
  then run h_toggleSitePrivacy req (segment2 path)
  else if on ("/pending/" +:+ id) && regex_test "^\d+$" id then
    if verb "PUT" then run h_approvePendingConfig req [id]
    else if verb "DELETE" then run h_rejectPendingConfig req [id]
    else method_not_allowed
  else if on "/config/import" && verb "POST" then run h_importConfig req []
  else if on "/config/export" && verb "GET" then run h_exportConfig req []
  else if on "/pending" && verb "GET" then run h_getPendingConfig req []
  else if on "/private" && verb "GET" then run h_getPrivateConfig req []
  else if on "/catalogs/export" && verb "GET" then run h_exportCategory req []
  else if on "/catalogs/import" && verb "POST" then run h_importCategory req []
  else Eff.ret (errorResponse "Not Found" 404).

Definition api_path (req : request) : string :=
  JS.replaceFirst "/api" "" (pathname req).

Definition api_handleRequest (req : request) : M response :=
  let path := api_path req in
  let method := method req in
  let id := default EmptyString (JS.pop (JS.split "/" (pathname req))) in
  let* isAuthenticated :=
    (if isProtected method path then checkAuth req else Eff.ret true) in
  if negb isAuthenticated then Eff.ret (errorResponse "Unauthorized" 401)
  else
    Eff.try_catch (dispatch method path id req)
      (fun error =>
         Eff.ret (errorResponse ("Internal Server Error: " +:+ message error) 500)).

(** *** [admin.handleRequest] and the worker's [fetch] *)
Definition admin_handleRequest (req : request) : M response :=
  let path := pathname req in
  let method := method req in
  if String.prefix "/static" path then Eff.ret (handleStatic req)
  else if String.eqb path "/admin/login" && String.eqb method "POST" then handleLogin req
  else if String.eqb path "/admin/logout" && String.eqb method "POST" then handleLogout req
  else if String.eqb path "/admin" then
    let* isAuthenticated := checkAuth req in
    if isAuthenticated then Eff.ret renderAdminPage else Eff.ret renderLoginPage
  else Eff.ret (Response 404 [] (Text "页面不存在")).

Definition fetch (req : request) : M response :=
  if String.prefix "/api" (pathname req) then api_handleRequest req
  else if String.prefix "/admin" (pathname req) || String.prefix "/static" (pathname req)
  then admin_handleRequest req
  else on_backend (publicPage req).

(** The store dropping an entry whose time to live has run out. *)
Definition expire (key : string) (w : world) : world :=
  match NAV_AUTH w !! key with
  | Some (KV.Entry _ (Some _)) => World (KV.remove key (NAV_AUTH w)) (backend w) (trace w)
  | _ => w
  end.

End Worker.

Arguments World {Backend}.
Arguments NAV_AUTH {Backend}.
Arguments backend {Backend}.
Arguments trace {Backend}.
Arguments emit {Backend}.
Arguments auth_get {Backend}.
Arguments auth_put {Backend}.
Arguments auth_delete {Backend}.
Arguments random_uuid {Backend}.
Arguments batch {Backend}.
Arguments on_backend {Backend A}.
Arguments checkAuth {Backend}.
Arguments handleLogin {Backend}.
Arguments handleLogout {Backend}.
Arguments reorderConfig {Backend}.
Arguments run {Backend}.
Arguments method_not_allowed {Backend}.
Arguments dispatch {Backend}.
Arguments api_handleRequest {Backend}.
Arguments admin_handleRequest {Backend}.
Arguments fetch {Backend}.
Arguments expire {Backend}.

End Nav.

(** ** The cloud notes worker, [nav-kv/v1.0.1/worker.js] *)

Module Notes.

(** A call on [env.AA], as the store receives it. *)
Inductive event : Type := Store (c : KV.call).

Section Worker.

(** [env.BB], the shared admin password; [None] when the binding is
    not set. *)
Variable BB : option string.

(** The page served at [/] and [/admin]. *)
Variable HTML_CONTENT : string.

(** The text of [JSON.stringify(v)] as it reaches the store. *)
Variable JSON_stringify : option json -> string.

(** The text of a Number that is not a safe integer, where one is made
    a key. *)
Variable Number_toString : Z -> string.

(** Whether a call on [env.AA] rejects, and with what message, given
    everything that happened before it. *)
Variable fault : list event -> KV.call -> option string.

Record world : Type := World {
  AA : gmap string KV.entry;
  trace : list event
}.

Local Abbreviation M := (Eff.M world).
Local Open Scope js_scope.

Definition aa_get (key : string) : M (option string) :=
  fun w =>
    let w' := World (AA w) (trace w ++ [Store (KV.Get key)]) in
    match fault (trace w) (KV.Get key) with
    | Some msg => (Throw (Error msg), w')
    | None => (Ret (KV.get key (AA w)), w')
    end.

Definition aa_put (key val : string) : M unit :=
  fun w =>
    let t := trace w ++ [Store (KV.Put key val None)] in
    match fault (trace w) (KV.Put key val None) with
    | Some msg => (Throw (Error msg), World (AA w) t)
    | None => (Ret tt, World (KV.put key val None (AA w)) t)
    end.

(** [stored || JSON.stringify(fallback)] as a response body. *)
Definition stored_or (stored : option string) (fallback : json) : body :=
  match stored with
  | Some (String c s) => Text (String c s)
  | _ => Json fallback
  end.

(** [password === env.BB] *)
Definition password_matches (password : option json) : bool :=
  match password, BB with
  | Some (JStr p), Some secret => String.eqb p secret
  | None, None => true
  | _, _ => false
  end.

Definition success : response :=
  Response 200 [] (Json (JObj [("success", JBool true)])).

(** The [fetch] handler.  Nothing is caught: a rejected call or a
    failed destructuring leaves the handler as a thrown value. *)
Definition fetch (req : request) : M response :=
  let path := pathname req in
  let post := String.eqb (method req) "POST" in
  if String.eqb path "/" || String.eqb path "/admin" then
    Eff.ret (Response 200 [("Content-Type", "text/html")] (Text HTML_CONTENT))
  else if String.eqb path "/api/getNotes" then
    let userId := Http.params_get "userId" (searchParams req) in
    let* notes := aa_get (Value.or_null userId) in
    Eff.ret (Response 200 [] (stored_or notes (JArr [])))
  else if String.eqb path "/api/saveNotes" && post then
    let* v := Eff.request_json req in
    let* v := Eff.destructure v in
    let userId := Value.prop "userId" v in
    let notes := Value.prop "notes" v in
    aa_put (Value.to_string Number_toString userId) (JSON_stringify notes) ;;;
    Eff.ret success
  else if String.eqb path "/api/verifyPassword" && post then
    let* v := Eff.request_json req in
    let* v := Eff.destructure v in
    let isValid := password_matches (Value.prop "password" v) in
    Eff.ret (Response (if isValid then 200 else 403) Http.json_headers
               (Json (JObj [("valid", JBool isValid)])))
  else if String.eqb path "/api/getStyles" then
    let userId := Http.params_get "userId" (searchParams req) in
    let type := Http.params_get "type" (searchParams req) in
    let* styles := aa_get (Value.or_null userId +:+ "_" +:+ Value.or_null type) in
    Eff.ret (Response 200 [] (stored_or styles (JObj [])))
  else if String.eqb path "/api/saveStyles" && post then
    let* v := Eff.request_json req in
    let* v := Eff.destructure v in
    let userId := Value.prop "userId" v in
    let type := Value.prop "type" v in
    let styles := Value.prop "styles" v in
    aa_put (Value.to_string Number_toString userId +:+ "_"
              +:+ Value.to_string Number_toString type) (JSON_stringify styles) ;;;
    Eff.ret success
  else Eff.ret (Response 404 [] (Text "未找到")).

End Worker.

End Notes.

(** ** The route matcher as the specification words it *)

Module RouteSpec.

(** A path pattern: a literal path, or a path with one numeric-id
    segment between a fixed prefix and a fixed suffix. *)
Inductive path_pattern : Type :=
| Exact (path : string)
| WithNumericId (before after : string).

Record rule : Type := Rule { rule_method : string; rule_path : path_pattern }.

Definition ascii_digit (c : ascii) : Prop :=
  (48 <= nat_of_ascii c <= 57)%nat.

(** One or more ASCII digits. *)
Definition numeric_id (ds : string) : Prop :=
  ds <> EmptyString /\ Forall ascii_digit (list_ascii_of_string ds).

(** The whole path is the pattern, the placeholder standing for one
    numeric id. *)
Definition accepts (p : path_pattern) (path : string) : Prop :=
  match p with
  | Exact q => path = q
  | WithNumericId before after =>
      exists ds, numeric_id ds /\ path = before +:+ ds +:+ after
  end.

Definition protected_rules : list rule :=
  [ Rule "POST" (Exact "/settings");
    Rule "POST" (Exact "/catalogs");
    Rule "PUT" (Exact "/catalogs");
    Rule "DELETE" (Exact "/catalogs");
    Rule "POST" (Exact "/catalogs/reorder");
    Rule "POST" (Exact "/catalogs/migrate");
    Rule "PUT" (WithNumericId "/catalogs/" "/toggle_privacy");
    Rule "POST" (Exact "/config");
    Rule "POST" (Exact "/config/reorder");
    Rule "DELETE" (Exact "/config/all");
    Rule "PUT" (WithNumericId "/config/" "");
    Rule "DELETE" (WithNumericId "/config/" "");
    Rule "PUT" (WithNumericId "/config/" "/toggle_privacy");
    Rule "PUT" (WithNumericId "/pending/" "");
    Rule "DELETE" (WithNumericId "/pending/" "");
    Rule "POST" (Exact "/config/import");
    Rule "GET" (Exact "/config/export");
    Rule "GET" (Exact "/pending");
    Rule "GET" (Exact "/catalogs/export");
    Rule "POST" (Exact "/catalogs/import");
    Rule "GET" (Exact "/private") ].

(** A rule written back as an entry of the worker's route table. *)
Definition rule_text (r : rule) : string :=
  rule_method r +:+ " " +:+
  match rule_path r with
  | Exact q => q
  | WithNumericId before after => before +:+ "\d+" +:+ after
  end.

Definition protected (method path : string) : Prop :=
  exists r, In r protected_rules /\ rule_method r = method /\ accepts (rule_path r) path.

End RouteSpec.

(** ** The route callback in two stages

    What [Nav.route_matches] does with a table entry before it looks at
    the request, and what it then does with the request. *)

Module RouteStages.

Inductive matcher : Type :=
| ByEquality (routePath : string)
| ByPattern (re : option (list Regex.atom)).

Definition prepare (route : string) : option (string * matcher) :=
  match JS.split " " route with
  | routeMethod :: routePath :: _ =>
      Some (routeMethod,
            if JS.includes "\d+" routePath
            then ByPattern (Regex.RegExp (Nav.route_regex_source routePath))
            else ByEquality routePath)
  | _ => None
  end.

Definition decide_path (m : matcher) (path : string) : bool :=
  match m with
  | ByEquality routePath => String.eqb routePath path
  | ByPattern (Some re) => Regex.test re path
  | ByPattern None => false
  end.

(** The matcher a typed rule stands for. *)
Definition of_pattern (p : RouteSpec.path_pattern) : matcher :=
  match p with
  | RouteSpec.Exact q => ByEquality q
  | RouteSpec.WithNumericId before after =>
      ByPattern
        (Some (Regex.literal before ++ Regex.Atom Regex.CDigit true :: Regex.literal after))
  end.

End RouteStages.

(** ** A cookie pair as the specification words it *)

Module CookieSpec.

(** The value of a [name=value] pair when the pair is split on its first
    ['='] only: everything after that ['=']. *)
Fixpoint after_first_eq (pair : string) : option string :=
  match pair with
  | EmptyString => None
  | String c rest => if Ascii.eqb c "=" then Some rest else after_first_eq rest
  end.

End CookieSpec.

(** ** Reading the trace *)

Module Trace.

(** A call that leaves every store as it is: a read of [NAV_AUTH], or a
    line on the console. *)
Definition read_only (e : Nav.event) : Prop :=
  match e with
  | Nav.Auth (KV.Get _) | Nav.ConsoleError _ _ => True
  | _ => False
  end.

(** A step of an entity handler: entering it, or a batch on [NAV_DB]. *)
Definition handler_step (e : Nav.event) : Prop :=
  match e with
  | Nav.Invoke _ | Nav.Batch _ => True
  | _ => False
  end.

(** The session identifier a request's Cookie header names, if any. *)
Definition named_session (req : request) : option string :=
  match Http.headers_get "Cookie" (headers req) with
  | Some cookieHeader => Nav.cookie_sessionId cookieHeader
  | None => None
  end.

(** The answer of a logout that went through. *)
Definition logged_out : response :=
  Response 200
    [("Content-Type", "application/json");
     ("Set-Cookie", "sessionId=; HttpOnly; Secure; Path=/; Max-Age=0")]
    (Json (JObj [("success", JBool true); ("message", JStr "Logged out")])).

(** The answer of a login or logout that caught [Error msg]. *)
Definition caught (msg : string) : response :=
  Response 500 Http.json_headers
    (Json (JObj [("success", JBool false); ("message", JStr msg)])).

(** One update per identifier, giving it its 1-based position. *)
Definition position_updates (orderedIds : list json) : list Nav.statement :=
  imap (fun index id =>
          Nav.Statement "UPDATE sites SET sort_order = ? WHERE id = ?"
            [JNum (Z.of_nat index + 1); id])
       orderedIds.

(** The answer to a protected request that is not authenticated. *)
Definition unauthorized : response :=
  Response 401 [("Content-Type", "application/json")]
    (Json (JObj [("code", JNum 401); ("message", JStr "Unauthorized")])).

(** The two reads every login starts with. *)
Definition login_reads : list Nav.event :=
  [Nav.Auth (KV.Get "admin_username"); Nav.Auth (KV.Get "admin_password")].

End Trace.

(** ** The life of a session *)

Module Session.

(** The characters of a [crypto.randomUUID()] result: lower-case
    hexadecimal digits and hyphens, 36 of them. *)
Definition uuid_char (c : ascii) : bool :=
  let n := nat_of_ascii c in
  (Nat.leb 48 n && Nat.leb n 57) || (Nat.leb 97 n && Nat.leb n 102) || Nat.eqb n 45.

Definition uuid_shaped (s : string) : Prop :=
  String.length s = 36%nat
  /\ Forall (fun c => uuid_char c = true) (list_ascii_of_string s).

(** The two states of a session identifier. *)
Inductive state : Type := Absent | Valid.

(** The state the store gives a session identifier; [None] when the
    store holds something other than ["valid"] for it. *)
Definition state_of (store : gmap string KV.entry) (sessionId : string) : option state :=
  match KV.get (Nav.session_key sessionId) store with
  | None => Some Absent
  | Some v => if String.eqb v "valid" then Some Valid else None
  end.

(** A computation that leaves [NAV_AUTH] as it finds it. *)
Definition keeps_auth {Backend A} (m : Eff.M (Nav.world Backend) A) : Prop :=
  forall w, Nav.NAV_AUTH (snd (m w)) = Nav.NAV_AUTH w.

(** What can happen to the worker's world: a request comes in, or the
    store drops an entry whose time to live has run out. *)
Inductive action : Type :=
| Fetch (req : request)
| Expire (key : string).

Section Worker.

Variable Backend : Type.
Variable bind_fault : json -> option string.
Variable db_batch : list Nav.statement -> Backend -> string + Backend.
Variable fault : list Nav.event -> KV.call -> option string.
Variable randomUUID : list Nav.event -> string.
Variable crud : Nav.handler -> request -> list string -> Backend -> outcome response * Backend.
Variable handleStatic : request -> response.
Variable renderAdminPage renderLoginPage : response.
Variable publicPage : request -> Backend -> outcome response * Backend.

Definition serve (req : request) : Eff.M (Nav.world Backend) response :=
  Nav.fetch bind_fault db_batch fault randomUUID crud handleStatic
    renderAdminPage renderLoginPage publicPage req.

Definition step (a : action) (w : Nav.world Backend) : Nav.world Backend :=
  match a with
  | Fetch req => snd (serve req w)
  | Expire key => Nav.expire key w
  end.

(** A world in which no session has been opened yet. *)
Definition fresh (w : Nav.world Backend) : Prop :=
  forall sessionId, Nav.NAV_AUTH w !! Nav.session_key sessionId = None.

Inductive reachable : Nav.world Backend -> Prop :=
| reachable_fresh w : fresh w -> reachable w
| reachable_step a w : reachable w -> reachable (step a w).

(** Every session entry was written by a login. *)
Definition well_formed (w : Nav.world Backend) : Prop :=
  forall sessionId e,
    Nav.NAV_AUTH w !! Nav.session_key sessionId = Some e ->
    uuid_shaped sessionId /\ KV.value e = "valid" /\ is_Some (KV.expirationTtl e).

End Worker.

(** Every session entry holds ["valid"] and one of the two lifetimes a
    login gives. *)
Definition expiring {Backend} (w : Nav.world Backend) : Prop :=
  forall sessionId e,
    Nav.NAV_AUTH w !! Nav.session_key sessionId = Some e ->
    KV.value e = "valid"
    /\ (KV.expirationTtl e = Some 86400%N \/ KV.expirationTtl e = Some 2592000%N).

Arguments serve {Backend}.
Arguments step {Backend}.
Arguments fresh {Backend}.
Arguments reachable {Backend}.
Arguments well_formed {Backend}.

End Session.

(** ** Requests that differ in credentials only *)

Module Credentials.

(** The members of a body the notes worker's store endpoints read. *)
Definition payload (v : json) : list (option json) :=
  map (fun k => Value.prop k v) ["userId"; "notes"; "type"; "styles"].

(** Two bodies carrying the same payload: both fail to parse with the
    same message, or both parse, to null or not alike, with the same
    payload members.  Any other member, a password or a token among
    them, is free. *)
Definition same_payload (b1 b2 : string + json) : Prop :=
  match b1, b2 with
  | inl m1, inl m2 => m1 = m2
  | inr v1, inr v2 =>
      Value.destructurable v1 = Value.destructurable v2 /\ payload v1 = payload v2
  | _, _ => False
  end.

(** Two requests for the same thing: same method, path, query and
    payload.  Their headers, the Cookie and Authorization headers among
    them, are free. *)
Definition same_but_credentials (r1 r2 : request) : Prop :=
  method r1 = method r2
  /\ pathname r1 = pathname r2
  /\ searchParams r1 = searchParams r2
  /\ same_payload (json_body r1) (json_body r2).

End Credentials.

(** ** A small deployment to run the worker on *)

Module Sample.

(** A store that serves every call. *)
Definition served : list Nav.event -> KV.call -> option string :=
  fun _ _ => None.

(** A store that refuses to delete. *)
Definition delete_refused : list Nav.event -> KV.call -> option string :=
  fun _ c =>
    match c with
    | KV.Delete _ => Some "KV DELETE failed: 503 Service Unavailable"
    | _ => None
    end.

Definition uuid : list Nav.event -> string :=
  fun _ => "3f2b8c1e-5d4a-4e6f-9a7b-0c1d2e3f4a5b".

Definition secrets : gmap string KV.entry :=
  <["admin_username" := KV.Entry "admin" None]>
    (<["admin_password" := KV.Entry "s3cret" None]> ∅).

(** The backend is of no interest here. *)
Definition world0 : Nav.world unit := Nav.World secrets tt [].

Definition one_session : Nav.world unit :=
  Nav.World (<["session:abc" := KV.Entry "valid" (Some 86400%N)]> secrets) tt [].

Definition login (username password : string) (remember : bool) : request :=
  Request "POST" "/admin/login" [] []
    (inr (JObj [("username", JStr username);
                ("password", JStr password);
                ("remember", JBool remember)])).

Definition no_body : string + json := inl "Unexpected end of JSON input".

Definition with_cookie (method path cookie : string) : request :=
  Request method path [] [("Cookie", cookie)] no_body.

Definition bare (method path : string) : request :=
  Request method path [] [] no_body.

Definition reorder (ids : list json) : request :=
  Request "POST" "/api/config/reorder" [] [] (inr (JObj [("orderedIds", JArr ids)])).

Definition page : response := Response 200 [] (Text "").

Definition crud : Nav.handler -> request -> list string -> unit -> outcome response * unit :=
  fun _ _ _ b => (Ret page, b).

Definition publicPage : request -> unit -> outcome response * unit :=
  fun _ b => (Ret page, b).

Definition batch_ok : list Nav.statement -> unit -> string + unit :=
  fun _ b => inr b.

Definition bind_ok : json -> option string := fun _ => None.

(** The bookmark worker on this deployment. *)
Definition step : Session.action -> Nav.world unit -> Nav.world unit :=
  Session.step bind_ok batch_ok served uuid crud (fun _ => page) page page publicPage.

End Sample.

(** ** Which handlers stand behind the gate *)

Module Gate.

(** The handlers [api.handleRequest] marks as public in its routing. *)
Definition public_handler (h : Nav.handler) : bool :=
  match h with
  | Nav.h_getSettings | Nav.h_getCatalogs | Nav.h_getConfig | Nav.h_submitConfig => true
  | _ => false
  end.

(** [url.pathname.split('/').pop()] *)
Definition last_segment (pathname : string) : string :=
  default EmptyString (JS.pop (JS.split "/" pathname)).

(** The handler entered by an event, if it is the entry of one. *)
Definition entered (e : Nav.event) : option Nav.handler :=
  match e with
  | Nav.Invoke h => Some h
  | _ => None
  end.

(** The handler each protected rule is routed to, in the order of the
    table. *)
Definition targets : list (RouteSpec.rule * Nav.handler) :=
  [ (RouteSpec.Rule "POST" (RouteSpec.Exact "/settings"), Nav.h_updateSettings);
    (RouteSpec.Rule "POST" (RouteSpec.Exact "/catalogs"), Nav.h_createCatalog);
    (RouteSpec.Rule "PUT" (RouteSpec.Exact "/catalogs"), Nav.h_updateCatalog);
    (RouteSpec.Rule "DELETE" (RouteSpec.Exact "/catalogs"), Nav.h_deleteCatalog);
    (RouteSpec.Rule "POST" (RouteSpec.Exact "/catalogs/reorder"), Nav.h_reorderCatalogs);
    (RouteSpec.Rule "POST" (RouteSpec.Exact "/catalogs/migrate"), Nav.h_migrateCatalogs);
    (RouteSpec.Rule "PUT" (RouteSpec.WithNumericId "/catalogs/" "/toggle_privacy"),
     Nav.h_toggleCatalogPrivacy);
    (RouteSpec.Rule "POST" (RouteSpec.Exact "/config"), Nav.h_createConfig);
    (RouteSpec.Rule "POST" (RouteSpec.Exact "/config/reorder"), Nav.h_reorderConfig);
    (RouteSpec.Rule "DELETE" (RouteSpec.Exact "/config/all"), Nav.h_deleteAllConfigs);
    (RouteSpec.Rule "PUT" (RouteSpec.WithNumericId "/config/" ""), Nav.h_updateConfig);
    (RouteSpec.Rule "DELETE" (RouteSpec.WithNumericId "/config/" ""), Nav.h_deleteConfig);
    (RouteSpec.Rule "PUT" (RouteSpec.WithNumericId "/config/" "/toggle_privacy"),
     Nav.h_toggleSitePrivacy);
    (RouteSpec.Rule "PUT" (RouteSpec.WithNumericId "/pending/" ""), Nav.h_approvePendingConfig);
    (RouteSpec.Rule "DELETE" (RouteSpec.WithNumericId "/pending/" ""),
     Nav.h_rejectPendingConfig);
    (RouteSpec.Rule "POST" (RouteSpec.Exact "/config/import"), Nav.h_importConfig);
    (RouteSpec.Rule "GET" (RouteSpec.Exact "/config/export"), Nav.h_exportConfig);
    (RouteSpec.Rule "GET" (RouteSpec.Exact "/pending"), Nav.h_getPendingConfig);
    (RouteSpec.Rule "GET" (RouteSpec.Exact "/catalogs/export"), Nav.h_exportCategory);
    (RouteSpec.Rule "POST" (RouteSpec.Exact "/catalogs/import"), Nav.h_importCategory);
    (RouteSpec.Rule "GET" (RouteSpec.Exact "/private"), Nav.h_getPrivateConfig) ].

(** An event that is not the entry of a handler. *)
Definition quiet (e : Nav.event) : Prop := entered e = None.

(** A computation all of whose calls satisfy [P]. *)
Definition emits {Backend A} (P : Nav.event -> Prop)
    (m : Eff.M (Nav.world Backend) A) : Prop :=
  forall w, exists calls,
    Nav.trace (snd (m w)) = Nav.trace w ++ calls /\ Forall P calls.

Section Routing.

Variable Backend : Type.
Variable bind_fault : json -> option string.
Variable db_batch : list Nav.statement -> Backend -> string + Backend.
Variable crud : Nav.handler -> request -> list string -> Backend -> outcome response * Backend.

(** What the routing of one request comes down to: an answer of its own
    (404 or 405), or the entry of one handler, public or behind a
    protected route. *)
Definition routed (method path : string) (req : request)
    (m : Eff.M (Nav.world Backend) response) : Prop :=
  (exists resp, m = Eff.ret resp)
  \/ (exists h args,
         m = Nav.run bind_fault db_batch crud h req args
         /\ (public_handler h = true \/ Nav.isProtected method path = true)).

End Routing.

Arguments routed {Backend}.

End Gate.

(** ** The settings handlers of [api] *)

Module Settings.

(** A call on [env.NAV_SETTINGS], as the namespace receives it. *)
Inductive call : Type :=
| Get (key : string)
| Put (key : string) (value : json).

(** What [NAV_SETTINGS.put(key, value)] comes to. *)
Inductive put_result : Type :=
| Stored (text : string)    (* fulfilled; a later [get] reads [text] *)
| Rejected (msg : string)   (* the promise rejects *)
| Thrown (msg : string).    (* the call itself throws *)

(** [settingKeys] as [getSettings] declares it. *)
Definition getSettings_settingKeys : list (string * string) :=
  [ ("bg_image", "frontend_bg_image");
    ("title_size", "frontend_title_size");
    ("title_color", "frontend_title_color");
    ("dark_mode", "frontend_dark_mode");
    ("main_title", "frontend_main_title");
    ("subtitle", "frontend_subtitle");
    ("sidebar_title", "frontend_sidebar_title");
    ("tab_title", "frontend_tab_title");
    ("tab_icon", "frontend_tab_icon");
    ("show_add_button", "frontend_show_add_button");
    ("theme_color", "frontend_theme_color");
    ("card_layout", "frontend_card_layout");
    ("custom_footer", "frontend_custom_footer") ].

Definition defaultSettings : list (string * string) :=
  [ ("bg_image", "");
    ("title_size", "48");
    ("title_color", "#FFFFFF");
    ("dark_mode", "0");
    ("main_title", "aki");
    ("subtitle", "我的個人公開書籤");
    ("sidebar_title", "aki");
    ("tab_title", "aki nav");
    ("tab_icon", "https://img.tool.hidns.vip/file/1749062089225_apple-touch-icon.png");
    ("show_add_button", "1");
    ("theme_color", "#7209b7");
    ("card_layout", "4");
    ("custom_footer", "") ].

(** [settingKeys] as [updateSettings] declares it. *)
Definition updateSettings_settingKeys : list (string * string) :=
  [ ("bg_image", "frontend_bg_image");
    ("title_size", "frontend_title_size");
    ("title_color", "frontend_title_color");
    ("dark_mode", "frontend_dark_mode");
    ("main_title", "frontend_main_title");
    ("subtitle", "frontend_subtitle");
    ("sidebar_title", "frontend_sidebar_title");
    ("tab_title", "frontend_tab_title");
    ("tab_icon", "frontend_tab_icon");
    ("show_add_button", "frontend_show_add_button");
    ("theme_color", "frontend_theme_color");
    ("card_layout", "frontend_card_layout");
    ("custom_footer", "frontend_custom_footer") ].

(** [settings[key] = value] on an object whose values are strings: an
    own key keeps its place, a new one goes last. *)
Fixpoint assign (key value : string) (settings : list (string * string))
  : list (string * string) :=
  match settings with
  | [] => [(key, value)]
  | (k, v) :: rest =>
      if String.eqb k key then (k, value) :: rest
      else (k, v) :: assign key value rest
  end.

(** [JSON.stringify({ code: 200, data: settings })] with its headers. *)
Definition settings_response (settings : list (string * string)) : response :=
  Response 200 Http.json_headers
    (Json (JObj [("code", JNum 200);
                 ("data", JObj (map (fun kv => (fst kv, JStr (snd kv))) settings))])).

Definition unbound : response :=
  Nav.errorResponse "KV namespace for settings is not bound." 500.

Section Worker.

(** The relational store, which the two handlers never name. *)
Variable DB : Type.

(** Whether [NAV_SETTINGS.get(key)] rejects, and with what message,
    given the calls made so far. *)
Variable get_fault : list call -> string -> option string.

(** What [NAV_SETTINGS.put(key, value)] comes to, given the calls made
    so far. *)
Variable put_outcome : list call -> string -> json -> put_result.

(** [Promise.all]: the reason of the promise that rejects first, among
    the reasons of those that reject (in the order of their calls). *)
Variable first_rejection : list string -> string.

(** [env.NAV_SETTINGS] is [None] when the namespace is not bound. *)
Record store : Type := Store {
  NAV_SETTINGS : option (gmap string string);
  calls : list call;
  NAV_DB : DB
}.

Local Abbreviation M := (Eff.M store).
Local Open Scope js_scope.

(** [await env.NAV_SETTINGS.get(key)] *)
Definition kv_get (key : string) : M (option string) :=
  fun s =>
    let s' := Store (NAV_SETTINGS s) (calls s ++ [Get key]) (NAV_DB s) in
    match get_fault (calls s) key with
    | Some msg => (Throw (Error msg), s')
    | None => (Ret (NAV_SETTINGS s ≫= lookup key), s')
    end.

(** [env.NAV_SETTINGS.put(key, value)], not awaited: the answer is the
    reason of the promise if it rejects. *)
Definition kv_put (key : string) (value : json) : M (option string) :=
  fun s =>
    let log := calls s ++ [Put key value] in
    match put_outcome (calls s) key value with
    | Stored text => (Ret None, Store (insert key text <$> NAV_SETTINGS s) log (NAV_DB s))
    | Rejected msg => (Ret (Some msg), Store (NAV_SETTINGS s) log (NAV_DB s))
    | Thrown msg => (Throw (Error msg), Store (NAV_SETTINGS s) log (NAV_DB s))
    end.

(** The [for (const key in settingKeys)] loop of [getSettings]. *)
Fixpoint for_in (keys : list (string * string)) (settings : list (string * string))
  : M (list (string * string)) :=
  match keys with
  | [] => Eff.ret settings
  | (key, kvkey) :: rest =>
      let* value := kv_get kvkey in
      for_in rest (match value with
                   | Some v => assign key v settings
                   | None => settings
                   end)
  end.

(** *** [api.getSettings] *)
Definition getSettings : M response :=
  fun s =>
    match NAV_SETTINGS s with
    | None => (Ret unbound, s)
    | Some _ =>
        Eff.try_catch
          (let* settings := for_in getSettings_settingKeys defaultSettings in
           Eff.ret (settings_response settings))
          (fun e => Eff.ret (Nav.errorResponse ("Failed to get settings: " +:+ message e) 500))
          s
    end.

(** [settings[key]]: reading a member of [null] throws. *)
Definition member (key : string) (settings : json) : M (option json) :=
  match settings with
  | JNull =>
      Eff.throw (Error ("Cannot read properties of null (reading '" +:+ key +:+ "')"))
  | _ => Eff.ret (Value.prop key settings)
  end.

(** [Object.keys(settingKeys).map(key => ...)], answering the reasons
    of the promises that reject. *)
Fixpoint issue (keys : list (string * string)) (settings : json) : M (list string) :=
  match keys with
  | [] => Eff.ret []
  | (key, kvkey) :: rest =>
      let* v := member key settings in
      let* rejection :=
        match v with
        | None => Eff.ret None
        | Some value => kv_put kvkey value
        end in
      let* rejections := issue rest settings in
      Eff.ret (match rejection with
               | Some msg => msg :: rejections
               | None => rejections
               end)
  end.

(** *** [api.updateSettings] *)
Definition updateSettings (req : request) : M response :=
  fun s =>
    match NAV_SETTINGS s with
    | None => (Ret unbound, s)
    | Some _ =>
        Eff.try_catch
          (let* settings := Eff.request_json req in
           let* rejections := issue updateSettings_settingKeys settings in
           match rejections with
           | [] => Eff.ret (Nav.ok_response 200 "Settings updated successfully")
           | _ => Eff.throw (Error (first_rejection rejections))
           end)
          (fun e => Eff.ret (Nav.errorResponse ("Failed to update settings: " +:+ message e) 500))
          s
    end.

(** The entity handlers, with the two above in their places. *)
Definition crud
  (others : Nav.handler -> request -> list string -> store -> outcome response * store)
  (h : Nav.handler) (req : request) (args : list string)
  : store -> outcome response * store :=
  match h with
  | Nav.h_getSettings => getSettings
  | Nav.h_updateSettings => updateSettings req
  | _ => others h req args
  end.

End Worker.

Arguments Store {DB}.
Arguments NAV_SETTINGS {DB}.
Arguments calls {DB}.
Arguments NAV_DB {DB}.
Arguments kv_get {DB}.
Arguments kv_put {DB}.
Arguments for_in {DB}.
Arguments getSettings {DB}.
Arguments issue {DB}.
Arguments member {DB}.
Arguments updateSettings {DB}.
Arguments crud {DB}.

End Settings.

(** ** Sample deployments of the notes worker and of the settings *)

Module Deployed.

(** A notes store that serves every call. *)
Definition notes_served : list Notes.event -> KV.call -> option string :=
  fun _ _ => None.

(** A notes store that refuses every call. *)
Definition notes_down : list Notes.event -> KV.call -> option string :=
  fun _ _ => Some "KV unavailable".

Definition quote : string := String (Ascii.ascii_of_nat 34) EmptyString.

(** [JSON.stringify] on the values the samples use. *)
Definition stringify (v : option json) : string :=
  match v with
  | Some (JStr s) => quote +:+ s +:+ quote
  | Some (JArr []) => "[]"
  | _ => "{}"
  end.

(** The engine's text of the Numbers the samples use beyond the safe
    integers. *)
Definition number_text (z : Z) : string := "1e+21".

Definition notes0 : Notes.world := Notes.World ∅ [].

Definition saveNotes (userId note : string) : request :=
  Request "POST" "/api/saveNotes" [] []
    (inr (JObj [("userId", JStr userId); ("notes", JStr note)])).

Definition getNotes (userId : string) : request :=
  Request "GET" "/api/getNotes" [("userId", userId)] [] (inl "Unexpected end of JSON input").

Definition saveStyles (userId type styles : string) : request :=
  Request "POST" "/api/saveStyles" [] []
    (inr (JObj [("userId", JStr userId); ("type", JStr type); ("styles", JStr styles)])).

Definition getStyles (userId type : string) : request :=
  Request "GET" "/api/getStyles" [("userId", userId); ("type", type)] []
    (inl "Unexpected end of JSON input").

Definition verifyPassword (body : json) : request :=
  Request "POST" "/api/verifyPassword" [] [] (inr body).

(** A settings namespace that serves every read and keeps the strings
    it is given; any other value is refused by the call itself. *)
Definition get_served : list Settings.call -> string -> option string :=
  fun _ _ => None.

Definition put_strings : list Settings.call -> string -> json -> Settings.put_result :=
  fun _ _ v =>
    match v with
    | JStr text => Settings.Stored text
    | _ => Settings.Thrown "KV put() accepts only strings"
    end.

Definition first_of (reasons : list string) : string :=
  default EmptyString (head reasons).

(** A deployment whose main title was set before. *)
Definition stored : gmap string string := <["frontend_main_title" := "Links"]> ∅.

Definition settings0 : Settings.store unit := Settings.Store (Some stored) [] tt.

Definition updateSettings_request : request :=
  Request "POST" "/api/settings" [] [("Cookie", "sessionId=abc")]
    (inr (JObj [("dark_mode", JStr "1"); ("unknown", JNum 7)])).

Definition getSettings_request : request :=
  Request "GET" "/api/settings" [] [] (inl "Unexpected end of JSON input").

(** The bookmark worker over these settings, with one session open. *)
Definition world : Nav.world (Settings.store unit) :=
  Nav.World (<["session:abc" := KV.Entry "valid" (Some 86400%N)]> Sample.secrets) settings0 [].

Definition others
  : Nav.handler -> request -> list string -> Settings.store unit
    -> outcome response * Settings.store unit :=
  fun _ _ _ s => (Ret Sample.page, s).

Definition publicPage : request -> Settings.store unit
                        -> outcome response * Settings.store unit :=
  fun _ s => (Ret Sample.page, s).

Definition batch_ok : list Nav.statement -> Settings.store unit
                      -> string + Settings.store unit :=
  fun _ s => inr s.

End Deployed.

(** * Properties *)

(** ** Strings and patterns *)

Section RegexFacts.
Import Regex.

Lemma append_cons c s t : String c s +:+ t = String c (s +:+ t).
Proof. reflexivity. Qed.

Lemma append_empty_l s : EmptyString +:+ s = s.
Proof. reflexivity. Qed.

Lemma append_empty_r s : s +:+ EmptyString = s.
Proof. induction s as [|c s IH]; [reflexivity|]. now rewrite append_cons, IH. Qed.

Lemma is_digit_spec c : is_digit c = true <-> RouteSpec.ascii_digit c.
Proof.
  unfold is_digit, RouteSpec.ascii_digit.
  rewrite andb_true_iff, !Nat.leb_le. tauto.
Qed.

Lemma test_nil s : test [] s = true <-> s = EmptyString.
Proof. destruct s; simpl; split; intros H; try reflexivity; discriminate H. Qed.

Lemma test_literal_app lit re s :
  test (literal lit ++ re) s = true <->
  exists rest, s = lit +:+ rest /\ test re rest = true.
Proof.
  revert s. induction lit as [|c lit IH]; intros s.
  - simpl. split; [eauto | intros (rest & -> & H); exact H].
  - change (literal (String c lit) ++ re)
      with (Atom (CChar c) false :: (literal lit ++ re)).
    simpl. destruct s as [|d s]; simpl.
    + split; [discriminate | intros (rest & H & _); discriminate].
    + rewrite andb_true_iff, Ascii.eqb_eq, IH. split.
      * intros (-> & rest & -> & H). eauto.
      * intros (rest & H & Ht). injection H as -> ->. eauto.
Qed.

Lemma test_literal lit s : test (literal lit) s = true <-> s = lit.
Proof.
  rewrite <- (app_nil_r (literal lit)), test_literal_app.
  split.
  - intros (rest & -> & H). apply test_nil in H. subst. apply append_empty_r.
  - intros ->. exists EmptyString. split; [|reflexivity].
    symmetry. apply append_empty_r.
Qed.

(** A [\d+] takes a non-empty run of digits and leaves the rest to the
    atoms that follow. *)
Lemma test_digits re s :
  test (Atom CDigit true :: re) s = true <->
  exists ds rest, RouteSpec.numeric_id ds /\ s = ds +:+ rest /\ test re rest = true.
Proof.
  induction s as [|c s IH].
  - simpl. split; [discriminate|].
    intros (ds & rest & (Hne & _) & H & _). destruct ds; [congruence | discriminate].
  - change (test (Atom CDigit true :: re) (String c s))
      with (is_digit c && (test (Atom CDigit true :: re) s || test re s)).
    rewrite andb_true_iff, orb_true_iff, is_digit_spec, IH. split.
    + intros (Hc & [(ds & rest & (Hne & Hall) & -> & Ht) | Ht]).
      * exists (String c ds), rest. repeat split; try easy.
        simpl. constructor; assumption.
      * exists (String c EmptyString), s. repeat split; try easy.
        simpl. constructor; [assumption | constructor].
    + intros (ds & rest & (Hne & Hall) & H & Ht).
      destruct ds as [|d ds]; [congruence|].
      simpl in H. injection H as -> ->.
      simpl in Hall. inversion Hall as [|? ? Hd Hds]; subst.
      split; [assumption|].
      destruct ds as [|e ds].
      * right. exact Ht.
      * left. exists (String e ds), rest. repeat split; try easy.
Qed.

Lemma test_numeric_id before after s :
  test (literal before ++ Atom CDigit true :: literal after) s = true <->
  RouteSpec.accepts (RouteSpec.WithNumericId before after) s.
Proof.
  rewrite test_literal_app. simpl. split.
  - intros (rest & -> & H). apply test_digits in H.
    destruct H as (ds & rest' & Hds & -> & H).
    apply test_literal in H. subst. eauto.
  - intros (ds & Hds & ->). eexists. split; [reflexivity|].
    apply test_digits. exists ds, after. repeat split; try apply Hds.
    apply test_literal. reflexivity.
Qed.

End RegexFacts.

(** ** The route matcher *)

Section RouteFacts.

Lemma route_matches_stages method path route :
  Nav.route_matches method path route =
  match RouteStages.prepare route with
  | Some (routeMethod, m) =>
      String.eqb routeMethod method && RouteStages.decide_path m path
  | None => false
  end.
Proof.
  unfold Nav.route_matches, RouteStages.prepare, Nav.regex_test.
  destruct (JS.split " " route) as [|routeMethod [|routePath rest]]; try reflexivity.
  destruct (String.eqb routeMethod method); simpl; [|reflexivity].
  destruct (JS.includes "\d+" routePath); simpl; reflexivity.
Qed.

(** Every entry of the worker's table prepares to the matcher of the
    typed rule it is the text of. *)
Lemma prepare_rule r :
  In r RouteSpec.protected_rules ->
  RouteStages.prepare (RouteSpec.rule_text r) =
  Some (RouteSpec.rule_method r, RouteStages.of_pattern (RouteSpec.rule_path r)).
Proof.
  intros Hin. unfold RouteSpec.protected_rules in Hin.
  repeat (destruct Hin as [<- | Hin]; [vm_compute; reflexivity |]).
  destruct Hin.
Qed.

Lemma decide_path_spec p path :
  RouteStages.decide_path (RouteStages.of_pattern p) path = true <->
  RouteSpec.accepts p path.
Proof.
  destruct p as [q | before after]; simpl.
  - rewrite String.eqb_eq. split; congruence.
  - apply test_numeric_id.
Qed.

Lemma route_matches_rule method path r :
  In r RouteSpec.protected_rules ->
  Nav.route_matches method path (RouteSpec.rule_text r) = true <->
  RouteSpec.rule_method r = method /\ RouteSpec.accepts (RouteSpec.rule_path r) path.
Proof.
  intros Hin. rewrite route_matches_stages, (prepare_rule r Hin).
  rewrite andb_true_iff, String.eqb_eq, decide_path_spec. reflexivity.
Qed.

Lemma table_is_rules :
  map RouteSpec.rule_text RouteSpec.protected_rules = Nav.protectedRoutes.
Proof. vm_compute. reflexivity. Qed.

Lemma isProtected_spec method path :
  Nav.isProtected method path = true <-> RouteSpec.protected method path.
Proof.
  unfold Nav.isProtected, RouteSpec.protected.
  rewrite <- table_is_rules, existsb_exists. split.
  - intros (route & Hin & Hm). apply in_map_iff in Hin.
    destruct Hin as (r & <- & Hr). exists r. split; [exact Hr|].
    apply route_matches_rule; assumption.
  - intros (r & Hr & Hm). exists (RouteSpec.rule_text r). split.
    + apply in_map. exact Hr.
    + apply route_matches_rule; assumption.
Qed.

End RouteFacts.

(** C1.  The route matcher classifies a request as protected exactly when
    some entry of the protected-route table has the request's method and a
    path pattern that the whole path matches, the numeric-id placeholder
    standing for one or more ASCII digits of a single segment.
    ["/config/42"] matches ["PUT /config/\d+"] and ["/config/abc"] does
    not; ["/config/42/toggle_privacy"] matches the toggle_privacy entry
    and no other; a path with something before or after a full match is
    not matched; and ["GET /config"] is public. *)
Theorem isProtected_classifies :
  (forall method path,
      Nav.isProtected method path = true <-> RouteSpec.protected method path)
  /\ map RouteSpec.rule_text RouteSpec.protected_rules = Nav.protectedRoutes
  /\ Nav.route_matches "PUT" "/config/42" "PUT /config/\d+" = true
  /\ Nav.route_matches "PUT" "/config/abc" "PUT /config/\d+" = false
  /\ Nav.route_matches "PUT" "/config/42/toggle_privacy"
       "PUT /config/\d+/toggle_privacy" = true
  /\ Nav.route_matches "PUT" "/config/42/toggle_privacy" "PUT /config/\d+" = false
  /\ (forall method route,
         In route Nav.protectedRoutes ->
         Nav.route_matches method "/config/42/toggle_privacy" route = true ->
         method = "PUT" /\ route = "PUT /config/\d+/toggle_privacy")
  /\ Nav.isProtected "PUT" "/config/42x" = false
  /\ Nav.isProtected "PUT" "/v1/config/42" = false
  /\ Nav.isProtected "PUT" "/config/42/" = false
  /\ Nav.isProtected "POST" "/config/reorder/now" = false
  /\ Nav.isProtected "POST" "/config/re" = false
  /\ Nav.isProtected "GET" "/config" = false.
Proof.
  split; [exact isProtected_spec|].
  split; [exact table_is_rules|].
  repeat (split; [vm_compute; reflexivity|]).
  split.
  - intros method route Hin Hm.
    rewrite <- table_is_rules in Hin. apply in_map_iff in Hin.
    destruct Hin as (r & <- & Hr).
    rewrite route_matches_stages, (prepare_rule r Hr) in Hm.
    apply andb_true_iff in Hm. destruct Hm as [Hmethod Hpath].
    apply String.eqb_eq in Hmethod.
    unfold RouteSpec.protected_rules in Hr.
    repeat (destruct Hr as [<- | Hr];
            [vm_compute in Hpath; first [discriminate Hpath | split; [symmetry; exact Hmethod | reflexivity]] |]).
    destruct Hr.
  - repeat split; vm_compute; reflexivity.
Qed.

(** ** Splitting and trimming *)

Section StringFacts.

(** No character of [s] is [c]. *)
Local Abbreviation free_of c s := (Forall (fun x => x <> c) (list_ascii_of_string s)).

Lemma split_nonempty sep s : JS.split sep s <> [].
Proof.
  destruct s as [|c s]; simpl; [discriminate|].
  destruct (Ascii.eqb c sep); [discriminate|].
  destruct (JS.split sep s); discriminate.
Qed.

Lemma split_free sep s : free_of sep s -> JS.split sep s = [s].
Proof.
  induction s as [|c s IH]; simpl; intros H; [reflexivity|].
  inversion H as [|? ? Hc Hs]; subst.
  apply Ascii.eqb_neq in Hc. rewrite Hc, (IH Hs). reflexivity.
Qed.

Lemma split_app sep a b :
  JS.split sep (a +:+ String sep b) = JS.split sep a ++ JS.split sep b.
Proof.
  induction a as [|c a IH].
  - rewrite append_empty_l. simpl. rewrite Ascii.eqb_refl. reflexivity.
  - rewrite append_cons. simpl. rewrite IH.
    destruct (Ascii.eqb c sep); [reflexivity|].
    pose proof (split_nonempty sep a) as Hne.
    destruct (JS.split sep a) as [|w ws]; [congruence | reflexivity].
Qed.

Lemma trimEnd_cons c s :
  JS.is_white c = false -> JS.trimEnd (String c s) = String c (JS.trimEnd s).
Proof. intros H. simpl. rewrite H. destruct (JS.trimEnd s); reflexivity. Qed.

Lemma trimEnd_app a c b :
  JS.is_white c = false ->
  JS.trimEnd (a +:+ String c b) = a +:+ String c (JS.trimEnd b).
Proof.
  intros H. induction a as [|d a IH].
  - rewrite !append_empty_l. apply trimEnd_cons, H.
  - rewrite !append_cons. simpl. rewrite IH.
    destruct a; reflexivity.
Qed.

Lemma trimEnd_black s :
  Forall (fun x => JS.is_white x = false) (list_ascii_of_string s) ->
  JS.trimEnd s = s.
Proof.
  induction s as [|c s IH]; simpl; intros H; [reflexivity|].
  inversion H as [|? ? Hc Hs]; subst.
  rewrite (IH Hs), Hc. destruct s; reflexivity.
Qed.

Lemma append_assoc (a b c : string) : (a +:+ b) +:+ c = a +:+ (b +:+ c).
Proof.
  induction a as [|x a IH]; [reflexivity|].
  rewrite !append_cons, IH. reflexivity.
Qed.

Lemma chars_app a b :
  list_ascii_of_string (a +:+ b) = list_ascii_of_string a ++ list_ascii_of_string b.
Proof.
  induction a as [|x a IH]; [reflexivity|].
  rewrite append_cons. simpl. rewrite IH. reflexivity.
Qed.

(** The jar after the last piece of a header holds that piece's pair. *)
Lemma parse_cookies_last before piece key rest :
  JS.split "=" (JS.trim piece) = key :: rest ->
  key <> "__proto__" ->
  free_of ";"%char piece ->
  Nav.parse_cookies (before +:+ String ";" piece) !! key = Some (head rest).
Proof.
  intros Hsplit Hkey Hfree. unfold Nav.parse_cookies.
  rewrite split_app, (split_free _ piece Hfree), fold_left_app. simpl.
  rewrite Hsplit. apply String.eqb_neq in Hkey. rewrite Hkey.
  apply lookup_insert_eq.
Qed.

Lemma parse_cookies_single piece key rest :
  JS.split "=" (JS.trim piece) = key :: rest ->
  key <> "__proto__" ->
  free_of ";"%char piece ->
  Nav.parse_cookies piece !! key = Some (head rest).
Proof.
  intros Hsplit Hkey Hfree. unfold Nav.parse_cookies.
  rewrite (split_free _ piece Hfree). simpl.
  rewrite Hsplit. apply String.eqb_neq in Hkey. rewrite Hkey.
  apply lookup_insert_eq.
Qed.

End StringFacts.

(** ** The session cookie *)

Section CookieFacts.

Local Abbreviation free_of c s := (Forall (fun x => x <> c) (list_ascii_of_string s)).

Lemma split_session_pair v rest :
  free_of "="%char v ->
  JS.split "=" ("sessionId=" +:+ v +:+ String "=" rest) =
  "sessionId" :: v :: JS.split "=" rest.
Proof.
  intros Hv.
  change ("sessionId=" +:+ v +:+ String "=" rest)
    with ("sessionId" +:+ String "=" (v +:+ String "=" rest)).
  rewrite !split_app, (split_free _ v Hv). reflexivity.
Qed.

Lemma trim_session_pair v tail :
  JS.trim (" sessionId=" +:+ v +:+ String "=" tail) =
  "sessionId=" +:+ v +:+ String "=" (JS.trimEnd tail)
  /\ JS.trim ("sessionId=" +:+ v +:+ String "=" tail) =
     "sessionId=" +:+ v +:+ String "=" (JS.trimEnd tail).
Proof.
  assert (H : JS.trimEnd ("sessionId=" +:+ v +:+ String "=" tail) =
              "sessionId=" +:+ v +:+ String "=" (JS.trimEnd tail)).
  { rewrite <- !append_assoc. apply trimEnd_app. reflexivity. }
  split; [|exact H].
  change (JS.trim (" sessionId=" +:+ v +:+ String "=" tail))
    with (JS.trimEnd ("sessionId=" +:+ v +:+ String "=" tail)).
  exact H.
Qed.

Lemma free_of_pair c v tail :
  c <> "="%char -> c <> " "%char ->
  free_of c "sessionId=" -> free_of c v -> free_of c tail ->
  free_of c (" sessionId=" +:+ v +:+ String "=" tail)
  /\ free_of c ("sessionId=" +:+ v +:+ String "=" tail).
Proof.
  intros Heq Hsp Hname Hv Htail.
  assert (H : free_of c ("sessionId=" +:+ v +:+ String "=" tail)).
  { rewrite !chars_app. apply Forall_app. split; [exact Hname|].
    apply Forall_app. split; [exact Hv|]. simpl. constructor; [congruence | assumption]. }
  split; [|exact H].
  change (" sessionId=" +:+ v +:+ String "=" tail)
    with (String " " ("sessionId=" +:+ v +:+ String "=" tail)).
  simpl. constructor; [congruence | exact H].
Qed.

End CookieFacts.




(** ** The session operations *)

Section AuthFacts.

Context {Backend : Type}.
Variable fault : list Nav.event -> KV.call -> option string.

Local Abbreviation checkAuth := (Nav.checkAuth fault).

Lemma cookie_sessionId_empty : Nav.cookie_sessionId EmptyString = None.
Proof. vm_compute. reflexivity. Qed.

(** The three ways [checkAuth] can go, with the world each leaves. *)
Lemma checkAuth_cases req (w : Nav.world Backend) :
  match Http.headers_get "Cookie" (headers req) with
  | None => checkAuth req w = (Ret false, w)
  | Some cookieHeader =>
      match Nav.cookie_sessionId cookieHeader with
      | None => checkAuth req w = (Ret false, w)
      | Some sessionId =>
          let key := Nav.session_key sessionId in
          match fault (Nav.trace w) (KV.Get key) with
          | Some msg =>
              checkAuth req w =
              (Ret false,
               Nav.World (Nav.NAV_AUTH w) (Nav.backend w)
                 ((Nav.trace w ++ [Nav.Auth (KV.Get key)])
                    ++ [Nav.ConsoleError "Auth check failed:" msg]))
          | None =>
              checkAuth req w =
              (Ret (bool_decide (KV.get key (Nav.NAV_AUTH w) = Some "valid")),
               Nav.World (Nav.NAV_AUTH w) (Nav.backend w)
                 (Nav.trace w ++ [Nav.Auth (KV.Get key)]))
          end
      end
  end.
Proof.
  unfold Nav.checkAuth, Eff.try_catch.
  destruct (Http.headers_get "Cookie" (headers req)) as [[|c h]|]; try reflexivity.
  destruct (Nav.cookie_sessionId (String c h)) as [sessionId|]; [|reflexivity].
  unfold Eff.bind, Nav.auth_get, Nav.emit, Eff.ret. simpl.
  destruct (fault (Nav.trace w) (KV.Get (Nav.session_key sessionId)));
    reflexivity.
Qed.

(** C2.  [admin.checkAuth] never throws.  It answers true exactly when
    the request has a Cookie header, the header yields a session
    identifier, the store's read does not fail and the store holds exactly
    ["valid"] under [session:<sessionId>].  A missing header, a missing
    sessionId cookie, any other stored value and a failed read each give
    false.  The check only reads: [NAV_AUTH] and the backend are left as
    they were, and every call it makes is a read or a console line. *)
Theorem checkAuth_decides req (w : Nav.world Backend) :
  let r := checkAuth req w in
  (fst r = Ret true \/ fst r = Ret false)
  /\ (fst r = Ret true <->
      exists cookieHeader sessionId,
        Http.headers_get "Cookie" (headers req) = Some cookieHeader
        /\ Nav.cookie_sessionId cookieHeader = Some sessionId
        /\ fault (Nav.trace w) (KV.Get (Nav.session_key sessionId)) = None
        /\ KV.get (Nav.session_key sessionId) (Nav.NAV_AUTH w) = Some "valid")
  /\ (Http.headers_get "Cookie" (headers req) = None -> r = (Ret false, w))
  /\ (forall cookieHeader,
         Http.headers_get "Cookie" (headers req) = Some cookieHeader ->
         Nav.cookie_sessionId cookieHeader = None -> r = (Ret false, w))
  /\ (forall cookieHeader sessionId,
         Http.headers_get "Cookie" (headers req) = Some cookieHeader ->
         Nav.cookie_sessionId cookieHeader = Some sessionId ->
         KV.get (Nav.session_key sessionId) (Nav.NAV_AUTH w) <> Some "valid" ->
         fst r = Ret false)
  /\ (forall cookieHeader sessionId msg,
         Http.headers_get "Cookie" (headers req) = Some cookieHeader ->
         Nav.cookie_sessionId cookieHeader = Some sessionId ->
         fault (Nav.trace w) (KV.Get (Nav.session_key sessionId)) = Some msg ->
         fst r = Ret false)
  /\ Nav.NAV_AUTH (snd r) = Nav.NAV_AUTH w
  /\ Nav.backend (snd r) = Nav.backend w
  /\ exists calls,
       Nav.trace (snd r) = Nav.trace w ++ calls /\ Forall Trace.read_only calls.
Proof.
  intros r. subst r. pose proof (checkAuth_cases req w) as Hc.
  destruct (Http.headers_get "Cookie" (headers req)) as [cookieHeader|].
  2:{ rewrite Hc. simpl. repeat apply conj; try solve [intros; congruence].
      - right; reflexivity.
      - intros (? & ? & H & _). discriminate H.
      - exists []. rewrite app_nil_r. split; [reflexivity | constructor]. }
  destruct (Nav.cookie_sessionId cookieHeader) as [sessionId|] eqn:Hs.
  2:{ rewrite Hc. simpl. repeat apply conj; try solve [intros; congruence].
      - right; reflexivity.
      - intros (? & ? & H1 & H2 & _). congruence.
      - exists []. rewrite app_nil_r. split; [reflexivity | constructor]. }
  simpl in Hc.
  destruct (fault (Nav.trace w) (KV.Get (Nav.session_key sessionId))) as [msg|] eqn:Hf.
  - rewrite Hc. simpl. repeat apply conj; try solve [intros; congruence].
    + right; reflexivity.
    + intros (? & ? & H1 & H2 & H3 & _). congruence.
    + eexists. rewrite <- app_assoc. split; [reflexivity|].
      repeat constructor.
  - rewrite Hc. simpl.
    destruct (bool_decide_reflect
                (KV.get (Nav.session_key sessionId) (Nav.NAV_AUTH w) = Some "valid"))
      as [Hv | Hv].
    + repeat apply conj; try solve [intros; congruence].
      * left; reflexivity.
      * intros _. exists cookieHeader, sessionId. auto.
      * eexists. split; [reflexivity|]. repeat constructor.
    + repeat apply conj; try solve [intros; congruence].
      * right; reflexivity.
      * intros (c' & s' & H1 & H2 & H3 & H4). congruence.
      * eexists. split; [reflexivity|]. repeat constructor.
Qed.

End AuthFacts.

Section LoginFacts.

Context {Backend : Type}.
Variable fault : list Nav.event -> KV.call -> option string.
Variable randomUUID : list Nav.event -> string.

Local Abbreviation handleLogin := (Nav.handleLogin fault randomUUID).

Lemma strict_eq_string v (s : string) :
  Value.strict_eq v (Some s) = true <-> v = Some (JStr s).
Proof.
  destruct v as [[| | |a| |]|]; simpl; try (split; [discriminate | congruence]).
  rewrite String.eqb_eq. split; congruence.
Qed.

Lemma destructure_ok (W : Type) v (w : W) :
  v <> JNull -> Eff.destructure v w = (Ret v, w).
Proof. intros H. destruct v; try reflexivity. congruence. Qed.

(** A login whose body parses and whose store calls are all served. *)
Lemma handleLogin_served req (w : Nav.world Backend) v :
  json_body req = inr v ->
  v <> JNull ->
  (forall calls c, fault (Nav.trace w ++ calls) c = None) ->
  handleLogin req w =
  if Value.strict_eq (Value.prop "username" v) (KV.get "admin_username" (Nav.NAV_AUTH w))
     && Value.strict_eq (Value.prop "password" v) (KV.get "admin_password" (Nav.NAV_AUTH w))
  then
    let sessionId := randomUUID (Nav.trace w ++ Trace.login_reads) in
    let maxAge := (if Value.truthy (Value.prop "remember" v) then 2592000 else 86400)%N in
    (Ret (Response 200
            [("Content-Type", "application/json");
             ("Set-Cookie", Nav.login_cookie sessionId maxAge)]
            (Json (JObj [("success", JBool true); ("message", JStr "Login successful")]))),
     Nav.World
       (<[Nav.session_key sessionId := KV.Entry "valid" (Some maxAge)]> (Nav.NAV_AUTH w))
       (Nav.backend w)
       (Nav.trace w ++ Trace.login_reads
          ++ [Nav.RandomUUID sessionId;
              Nav.Auth (KV.Put (Nav.session_key sessionId) "valid" (Some maxAge))]))
  else
    (Ret (Response 401 Http.json_headers
            (Json (JObj [("success", JBool false);
                         ("message", JStr "Invalid username or password")]))),
     Nav.World (Nav.NAV_AUTH w) (Nav.backend w) (Nav.trace w ++ Trace.login_reads)).
Proof.
  intros Hbody Hv Hserved.
  assert (F0 : forall c, fault (Nav.trace w) c = None).
  { intros c. rewrite <- (app_nil_r (Nav.trace w)). apply Hserved. }
  unfold Nav.handleLogin, Eff.try_catch, Eff.bind at 1, Eff.request_json.
  rewrite Hbody. unfold Eff.ret at 1.
  unfold Eff.bind at 1. rewrite (destructure_ok _ v w Hv).
  unfold Eff.bind at 1, Nav.auth_get at 1. rewrite F0.
  unfold Eff.bind at 1, Nav.auth_get at 1. cbn [Nav.trace Nav.NAV_AUTH Nav.backend].
  rewrite Hserved.
  destruct (Value.strict_eq _ _ && Value.strict_eq _ _).
  - unfold Eff.bind, Nav.random_uuid, Nav.auth_put, Eff.ret.
    cbn [Nav.trace Nav.NAV_AUTH Nav.backend].
    rewrite <- !app_assoc. rewrite Hserved.
    unfold KV.put, Trace.login_reads. cbn [app]. reflexivity.
  - unfold Eff.ret, Trace.login_reads. rewrite <- !app_assoc. reflexivity.
Qed.

(** Whatever the request and the store do, a login answers, leaves the
    backend alone, and either opens one session and answers 200, or
    answers 401 having only read, or answers 500; in the last two cases
    [NAV_AUTH] is as it was. *)
Lemma handleLogin_effect req (w : Nav.world Backend) :
  exists resp calls,
    fst (handleLogin req w) = Ret resp
    /\ Nav.backend (snd (handleLogin req w)) = Nav.backend w
    /\ Nav.trace (snd (handleLogin req w)) = Nav.trace w ++ calls
    /\ ((status resp = 200%N
         /\ exists history maxAge,
             Nav.NAV_AUTH (snd (handleLogin req w)) =
             <[Nav.session_key (randomUUID history) := KV.Entry "valid" (Some maxAge)]>
               (Nav.NAV_AUTH w)
             /\ resp_headers resp =
                [("Content-Type", "application/json");
                 ("Set-Cookie", Nav.login_cookie (randomUUID history) maxAge)])
        \/ (status resp = 401%N
            /\ Nav.NAV_AUTH (snd (handleLogin req w)) = Nav.NAV_AUTH w
            /\ Forall Trace.read_only calls)
        \/ (status resp = 500%N
            /\ Nav.NAV_AUTH (snd (handleLogin req w)) = Nav.NAV_AUTH w)).
Proof.
  destruct (handleLogin req w) as [o w'] eqn:Hr. cbn [fst snd].
  unfold Nav.handleLogin, Eff.try_catch, Eff.bind at 1, Eff.request_json in Hr.
  destruct (json_body req) as [msg | v].
  { unfold Eff.throw, Eff.ret in Hr. injection Hr as <- <-.
    eexists _, []. rewrite app_nil_r.
    refine (conj eq_refl (conj eq_refl (conj eq_refl _))).
    right; right. split; reflexivity. }
  unfold Eff.ret at 1 in Hr. unfold Eff.bind at 1, Eff.destructure in Hr.
  destruct (Value.destructurable v).
  2:{ unfold Eff.throw, Eff.ret in Hr. injection Hr as <- <-.
      eexists _, []. rewrite app_nil_r.
      refine (conj eq_refl (conj eq_refl (conj eq_refl _))).
      right; right. split; reflexivity. }
  unfold Eff.ret at 1 in Hr. unfold Eff.bind at 1, Nav.auth_get at 1 in Hr.
  destruct (fault (Nav.trace w) (KV.Get "admin_username")) as [msg|].
  { unfold Eff.ret in Hr. injection Hr as <- <-. eexists _, _.
    refine (conj eq_refl (conj eq_refl (conj eq_refl _))).
    right; right. split; reflexivity. }
  unfold Eff.bind at 1, Nav.auth_get at 1 in Hr.
  cbn [Nav.trace Nav.NAV_AUTH Nav.backend] in Hr.
  destruct (fault _ (KV.Get "admin_password")) as [msg|].
  { unfold Eff.ret in Hr. injection Hr as <- <-. eexists _, _.
    cbn [Nav.trace Nav.NAV_AUTH Nav.backend]. rewrite <- app_assoc.
    refine (conj eq_refl (conj eq_refl (conj eq_refl _))).
    right; right. split; reflexivity. }
  destruct (Value.strict_eq _ _ && Value.strict_eq _ _).
  - unfold Eff.bind, Nav.random_uuid, Nav.auth_put, Eff.ret in Hr.
    cbn [Nav.trace Nav.NAV_AUTH Nav.backend] in Hr.
    destruct (fault _ (KV.Put _ _ _)) as [msg|].
    + injection Hr as <- <-. eexists _, _.
      cbn [Nav.trace Nav.NAV_AUTH Nav.backend]. rewrite <- !app_assoc.
      refine (conj eq_refl (conj eq_refl (conj eq_refl _))).
      right; right. split; reflexivity.
    + injection Hr as <- <-. eexists _, _.
      cbn [Nav.trace Nav.NAV_AUTH Nav.backend]. rewrite <- !app_assoc.
      refine (conj eq_refl (conj eq_refl (conj eq_refl _))).
      left. split; [reflexivity|]. eexists _, _. split; reflexivity.
  - unfold Eff.ret in Hr. injection Hr as <- <-. eexists _, _.
    cbn [Nav.trace Nav.NAV_AUTH Nav.backend]. rewrite <- !app_assoc.
    refine (conj eq_refl (conj eq_refl (conj eq_refl _))).
    right; left. split; [reflexivity|]. split; [reflexivity|].
    repeat constructor.
Qed.

Lemma prop_some_not_null k v x : Value.prop k v = Some x -> v <> JNull.
Proof. intros H ->. discriminate H. Qed.

(** C3.  A login whose username and password are exactly the configured
    secrets, the store serving its calls, stores the identifier the
    generator has just produced under [session:<id>] with value ["valid"]
    and a time to live of 2592000 seconds (30 x 86400) when [remember] is
    true and 86400 seconds otherwise, and answers 200 with the header
    [Set-Cookie: sessionId=<id>; HttpOnly; Secure; Path=/; Max-Age=<n>],
    [n] being that same time to live. *)
Theorem handleLogin_opens_session req (w : Nav.world Backend) v (u p : string) :
  json_body req = inr v ->
  Value.prop "username" v = Some (JStr u) ->
  Value.prop "password" v = Some (JStr p) ->
  KV.get "admin_username" (Nav.NAV_AUTH w) = Some u ->
  KV.get "admin_password" (Nav.NAV_AUTH w) = Some p ->
  (forall calls c, fault (Nav.trace w ++ calls) c = None) ->
  let sessionId := randomUUID (Nav.trace w ++ Trace.login_reads) in
  let remember := Value.prop "remember" v in
  let maxAge := (if Value.truthy remember then 2592000 else 86400)%N in
  handleLogin req w =
  (Ret (Response 200
          [("Content-Type", "application/json");
           ("Set-Cookie",
            "sessionId=" +:+ sessionId +:+ "; HttpOnly; Secure; Path=/; Max-Age="
              +:+ JS.decimal maxAge)]
          (Json (JObj [("success", JBool true); ("message", JStr "Login successful")]))),
   Nav.World
     (<["session:" +:+ sessionId := KV.Entry "valid" (Some maxAge)]> (Nav.NAV_AUTH w))
     (Nav.backend w)
     (Nav.trace w ++ Trace.login_reads
        ++ [Nav.RandomUUID sessionId;
            Nav.Auth (KV.Put ("session:" +:+ sessionId) "valid" (Some maxAge))]))
  /\ KV.get ("session:" +:+ sessionId) (Nav.NAV_AUTH (snd (handleLogin req w)))
     = Some "valid"
  /\ (remember = Some (JBool true) ->
      maxAge = (30 * 86400)%N /\ JS.decimal maxAge = "2592000")
  /\ (remember = Some (JBool false) \/ remember = None ->
      maxAge = 86400%N /\ JS.decimal maxAge = "86400").
Proof.
  intros Hbody Hu Hp Hsu Hsp Hserved sessionId remember maxAge.
  pose proof (handleLogin_served req w v Hbody (prop_some_not_null _ _ _ Hu) Hserved) as H.
  rewrite Hu, Hp, Hsu, Hsp in H.
  replace (Value.strict_eq (Some (JStr u)) (Some u)) with true in H
    by (symmetry; apply strict_eq_string; reflexivity).
  replace (Value.strict_eq (Some (JStr p)) (Some p)) with true in H
    by (symmetry; apply strict_eq_string; reflexivity).
  cbn [andb] in H. cbv zeta in H.
  split; [exact H|]. split.
  - rewrite H. cbn [snd Nav.NAV_AUTH]. unfold KV.get.
    change (Nav.session_key (randomUUID (Nav.trace w ++ Trace.login_reads)))
      with ("session:" +:+ sessionId).
    rewrite lookup_insert_eq. reflexivity.
  - subst maxAge. split.
    + intros ->. split; reflexivity.
    + intros [-> | ->]; split; reflexivity.
Qed.

(** C7.  A login whose username or password is not the configured secret
    answers 401, having only read the two secrets: no session entry is
    created and [NAV_AUTH] is as it was.  More generally every login that
    does not answer 200 leaves [NAV_AUTH] as it was. *)
Theorem handleLogin_rejects req (w : Nav.world Backend) v (u p : string) :
  json_body req = inr v ->
  v <> JNull ->
  KV.get "admin_username" (Nav.NAV_AUTH w) = Some u ->
  KV.get "admin_password" (Nav.NAV_AUTH w) = Some p ->
  Value.prop "username" v <> Some (JStr u) \/ Value.prop "password" v <> Some (JStr p) ->
  (forall calls c, fault (Nav.trace w ++ calls) c = None) ->
  handleLogin req w =
  (Ret (Response 401 Http.json_headers
          (Json (JObj [("success", JBool false);
                       ("message", JStr "Invalid username or password")]))),
   Nav.World (Nav.NAV_AUTH w) (Nav.backend w) (Nav.trace w ++ Trace.login_reads))
  /\ Nav.NAV_AUTH (snd (handleLogin req w)) = Nav.NAV_AUTH w
  /\ Forall Trace.read_only Trace.login_reads
  /\ (forall req' (w0 : Nav.world Backend) resp,
         fst (handleLogin req' w0) = Ret resp ->
         status resp <> 200%N ->
         Nav.NAV_AUTH (snd (handleLogin req' w0)) = Nav.NAV_AUTH w0).
Proof.
  intros Hbody Hv Hsu Hsp Hbad Hserved.
  pose proof (handleLogin_served req w v Hbody Hv Hserved) as H.
  rewrite Hsu, Hsp in H.
  assert (Hno : Value.strict_eq (Value.prop "username" v) (Some u)
                && Value.strict_eq (Value.prop "password" v) (Some p) = false).
  { apply andb_false_iff.
    destruct Hbad as [Hb | Hb]; [left | right];
      apply not_true_is_false; intros Ht; apply strict_eq_string in Ht; congruence. }
  rewrite Hno in H. split; [exact H|]. split; [rewrite H; reflexivity|].
  split; [repeat constructor|].
  intros req' w0 resp Hresp Hstatus.
  destruct (handleLogin_effect req' w0)
    as (resp' & calls & Hr & _ & _ & [(H200 & _) | [(_ & Hsame & _) | (_ & Hsame)]]).
  - rewrite Hr in Hresp. injection Hresp as <-. congruence.
  - exact Hsame.
  - exact Hsame.
Qed.

End LoginFacts.

Section LogoutFacts.

Context {Backend : Type}.
Variable fault : list Nav.event -> KV.call -> option string.

Local Abbreviation handleLogout := (Nav.handleLogout fault).

(** The three ways a logout can go, with the world each leaves. *)
Lemma handleLogout_cases req (w : Nav.world Backend) :
  match Trace.named_session req with
  | None => handleLogout req w = (Ret Trace.logged_out, w)
  | Some sessionId =>
      let key := Nav.session_key sessionId in
      match fault (Nav.trace w) (KV.Delete key) with
      | Some msg =>
          handleLogout req w =
          (Ret (Trace.caught msg),
           Nav.World (Nav.NAV_AUTH w) (Nav.backend w)
             (Nav.trace w ++ [Nav.Auth (KV.Delete key)]))
      | None =>
          handleLogout req w =
          (Ret Trace.logged_out,
           Nav.World (delete key (Nav.NAV_AUTH w)) (Nav.backend w)
             (Nav.trace w ++ [Nav.Auth (KV.Delete key)]))
      end
  end.
Proof.
  unfold Trace.named_session, Nav.handleLogout, Eff.try_catch, Eff.bind.
  destruct (Http.headers_get "Cookie" (headers req)) as [[|c h]|];
    try (destruct w; reflexivity).
  destruct (Nav.cookie_sessionId (String c h)) as [sessionId|];
    [|destruct w; reflexivity].
  unfold Nav.auth_delete, Eff.ret. cbv zeta.
  destruct (fault (Nav.trace w) (KV.Delete (Nav.session_key sessionId)));
    reflexivity.
Qed.

(** C4, as the worker does it.  A logout whose request names no session,
    or whose delete call the store serves, answers 200 with the header
    [Set-Cookie: sessionId=; HttpOnly; Secure; Path=/; Max-Age=0],
    whether or not the key was there: deleting an absent key changes
    nothing and is no error.  A delete call the store refuses is caught:
    the answer is then 500 with the store's message and no Set-Cookie
    header, and [NAV_AUTH] is as it was. *)
Theorem handleLogout_answers req (w : Nav.world Backend) :
  let r := handleLogout req w in
  (Trace.named_session req = None -> r = (Ret Trace.logged_out, w))
  /\ (forall sessionId,
         Trace.named_session req = Some sessionId ->
         fault (Nav.trace w) (KV.Delete (Nav.session_key sessionId)) = None ->
         fst r = Ret Trace.logged_out
         /\ Nav.NAV_AUTH (snd r) = delete (Nav.session_key sessionId) (Nav.NAV_AUTH w)
         /\ (Nav.NAV_AUTH w !! Nav.session_key sessionId = None ->
             Nav.NAV_AUTH (snd r) = Nav.NAV_AUTH w))
  /\ (forall sessionId msg,
         Trace.named_session req = Some sessionId ->
         fault (Nav.trace w) (KV.Delete (Nav.session_key sessionId)) = Some msg ->
         fst r = Ret (Trace.caught msg)
         /\ Nav.NAV_AUTH (snd r) = Nav.NAV_AUTH w)
  /\ status Trace.logged_out = 200%N
  /\ Http.headers_get "Set-Cookie" (resp_headers Trace.logged_out)
     = Some "sessionId=; HttpOnly; Secure; Path=/; Max-Age=0"
  /\ (forall msg,
         status (Trace.caught msg) = 500%N
         /\ Http.headers_get "Set-Cookie" (resp_headers (Trace.caught msg)) = None).
Proof.
  intros r. subst r. pose proof (handleLogout_cases req w) as Hc.
  repeat apply conj; try reflexivity.
  - intros Hn. rewrite Hn in Hc. exact Hc.
  - intros sessionId Hn Hf. rewrite Hn in Hc. cbv zeta in Hc. rewrite Hf in Hc.
    rewrite Hc. cbn [fst snd Nav.NAV_AUTH]. repeat apply conj; try reflexivity.
    intros Habsent. apply delete_id. exact Habsent.
  - intros sessionId msg Hn Hf. rewrite Hn in Hc. cbv zeta in Hc. rewrite Hf in Hc.
    rewrite Hc. split; reflexivity.
  - intros msg. split; reflexivity.
Qed.

End LogoutFacts.

(** ** What a request can do to [NAV_AUTH] *)

Section Frame.

Context {Backend : Type}.

Local Abbreviation keeps_auth := Session.keeps_auth.

Lemma keeps_ret A (a : A) : Session.keeps_auth (Backend:=Backend) (Eff.ret a).
Proof. intros w. reflexivity. Qed.

Lemma keeps_throw A e : Session.keeps_auth (Backend:=Backend) (@Eff.throw _ A e).
Proof. intros w. reflexivity. Qed.

Lemma keeps_bind A B (m : Eff.M (Nav.world Backend) A) (k : A -> Eff.M _ B) :
  keeps_auth m -> (forall a, keeps_auth (k a)) -> keeps_auth (Eff.bind m k).
Proof.
  intros Hm Hk w. unfold Eff.bind. specialize (Hm w).
  destruct (m w) as [[a | e] w1]; simpl in *; [|exact Hm].
  rewrite (Hk a w1). exact Hm.
Qed.

Lemma keeps_try_catch A (m : Eff.M (Nav.world Backend) A) h :
  keeps_auth m -> (forall e, keeps_auth (h e)) -> keeps_auth (Eff.try_catch m h).
Proof.
  intros Hm Hh w. unfold Eff.try_catch. specialize (Hm w).
  destruct (m w) as [[a | e] w1]; simpl in *; [exact Hm|].
  rewrite (Hh e w1). exact Hm.
Qed.

Lemma keeps_emit e : keeps_auth (Nav.emit (Backend:=Backend) e).
Proof. intros w. reflexivity. Qed.

Lemma keeps_batch db_batch stmts : keeps_auth (Nav.batch (Backend:=Backend) db_batch stmts).
Proof. intros w. unfold Nav.batch. destruct (db_batch stmts _); reflexivity. Qed.

Lemma keeps_on_backend A (f : Backend -> outcome A * Backend) :
  keeps_auth (Nav.on_backend f).
Proof. intros w. unfold Nav.on_backend. destruct (f _). reflexivity. Qed.

Lemma keeps_request_json req : keeps_auth (Eff.request_json (W:=Nav.world Backend) req).
Proof. intros w. unfold Eff.request_json. destruct (json_body req); reflexivity. Qed.

Lemma keeps_destructure v : keeps_auth (Eff.destructure (W:=Nav.world Backend) v).
Proof. intros w. unfold Eff.destructure. destruct (Value.destructurable v); reflexivity. Qed.

Lemma keeps_checkAuth fault req : keeps_auth (Nav.checkAuth (Backend:=Backend) fault req).
Proof.
  intros w. pose proof (checkAuth_cases fault req w) as Hc.
  destruct (Http.headers_get "Cookie" (headers req)) as [cookieHeader|];
    [|rewrite Hc; reflexivity].
  destruct (Nav.cookie_sessionId cookieHeader) as [sessionId|];
    [|rewrite Hc; reflexivity].
  cbv zeta in Hc.
  destruct (fault (Nav.trace w) (KV.Get (Nav.session_key sessionId)));
    rewrite Hc; reflexivity.
Qed.

End Frame.

(** ** Reordering bookmarks *)

Section ReorderFacts.

Context {Backend : Type}.
Variable bind_fault : json -> option string.
Variable db_batch : list Nav.statement -> Backend -> string + Backend.

Local Abbreviation reorderConfig := (Nav.reorderConfig bind_fault db_batch).

Lemma sequence_imap (f : nat -> json -> outcome Nav.statement) g (ids : list json) :
  (forall i id, In id ids -> f i id = Ret (g i id)) ->
  Nav.sequence (imap f ids) = Ret (imap g ids).
Proof.
  revert f g. induction ids as [|id ids IH]; intros f g H; [reflexivity|].
  cbn [imap Nav.sequence]. rewrite (H 0%nat id) by (left; reflexivity).
  rewrite (IH (f ∘ S) (g ∘ S)); [reflexivity|].
  intros i id' Hin. apply H. right. exact Hin.
Qed.

Lemma position_updates_lookup (ids : list json) i id :
  ids !! i = Some id ->
  Trace.position_updates ids !! i =
  Some (Nav.Statement "UPDATE sites SET sort_order = ? WHERE id = ?"
          [JNum (Z.of_nat i + 1); id]).
Proof.
  intros H. unfold Trace.position_updates.
  rewrite list_lookup_imap, H. reflexivity.
Qed.

(** C9.  Given a body whose [orderedIds] is an array of identifiers the
    driver accepts, [api.reorderConfig] issues one batch holding, for
    every identifier of the list and in the list's order, the update that
    sets that site's [sort_order] to the identifier's 1-based position,
    and, the batch being served, answers with code 200.  Given a body
    whose [orderedIds] is not an array it answers 400 and calls no
    store. *)
Theorem reorderConfig_positions :
  (forall req (w : Nav.world Backend) v ids b,
      json_body req = inr v ->
      Value.prop "orderedIds" v = Some (JArr ids) ->
      (forall id, In id ids -> bind_fault id = None) ->
      db_batch (Trace.position_updates ids) (Nav.backend w) = inr b ->
      reorderConfig req w =
      (Ret (Response 200 Http.json_headers
              (Json (JObj [("code", JNum 200);
                           ("message", JStr "Reordered successfully")]))),
       Nav.World (Nav.NAV_AUTH w) b
         (Nav.trace w ++ [Nav.Batch (Trace.position_updates ids)]))
      /\ length (Trace.position_updates ids) = length ids
      /\ (forall i id,
             ids !! i = Some id ->
             Trace.position_updates ids !! i =
             Some (Nav.Statement "UPDATE sites SET sort_order = ? WHERE id = ?"
                     [JNum (Z.of_nat i + 1); id])))
  /\ (forall req (w : Nav.world Backend) v,
         json_body req = inr v ->
         v <> JNull ->
         Value.isArray (Value.prop "orderedIds" v) = None ->
         reorderConfig req w =
         (Ret (Response 400 Http.json_headers
                 (Json (JObj [("code", JNum 400);
                              ("message",
                               JStr "Invalid data format, expected an array of IDs.")]))),
          w)).
Proof.
  split.
  - intros req w v ids b Hbody Hids Hbind Hbatch.
    split; [|split].
    + unfold Nav.reorderConfig, Eff.try_catch, Eff.bind at 1, Eff.request_json.
      rewrite Hbody. unfold Eff.ret at 1. unfold Eff.bind at 1.
      rewrite (destructure_ok _ v w (prop_some_not_null _ _ _ Hids)).
      rewrite Hids. cbn [Value.isArray].
      rewrite (sequence_imap _
                 (fun index id =>
                    Nav.Statement Nav.update_sort_order [JNum (Z.of_nat index + 1); id])).
      2:{ intros i id Hin. unfold Nav.bind_position. rewrite (Hbind id Hin). reflexivity. }
      change (imap _ ids) with (Trace.position_updates ids).
      unfold Eff.bind, Nav.batch, Eff.ret. rewrite Hbatch. reflexivity.
    + unfold Trace.position_updates. apply length_imap.
    + apply position_updates_lookup.
  - intros req w v Hbody Hv Hnot.
    unfold Nav.reorderConfig, Eff.try_catch, Eff.bind at 1, Eff.request_json.
    rewrite Hbody. unfold Eff.ret at 1. unfold Eff.bind at 1.
    rewrite (destructure_ok _ v w Hv), Hnot. reflexivity.
Qed.

Lemma keeps_reorderConfig req :
  Session.keeps_auth (Nav.reorderConfig (Backend:=Backend) bind_fault db_batch req).
Proof.
  unfold Nav.reorderConfig.
  apply keeps_try_catch; [|intros; apply keeps_ret].
  apply keeps_bind; [apply keeps_request_json|]. intros v.
  apply keeps_bind; [apply keeps_destructure|]. intros v'.
  destruct (Value.isArray _); [|apply keeps_ret].
  destruct (Nav.sequence _); [|apply keeps_throw].
  apply keeps_bind; [apply keeps_batch | intros; apply keeps_ret].
Qed.

End ReorderFacts.

(** ** The gate of [api.handleRequest] *)

Section ApiFacts.

Context {Backend : Type}.
Variable bind_fault : json -> option string.
Variable db_batch : list Nav.statement -> Backend -> string + Backend.
Variable fault : list Nav.event -> KV.call -> option string.
Variable crud : Nav.handler -> request -> list string -> Backend -> outcome response * Backend.

Local Abbreviation api_handleRequest :=
  (Nav.api_handleRequest bind_fault db_batch fault crud).

Lemma keeps_run h req args :
  Session.keeps_auth (Nav.run (Backend:=Backend) bind_fault db_batch crud h req args).
Proof.
  unfold Nav.run. apply keeps_bind; [apply keeps_emit|]. intros _.
  destruct h; first [apply keeps_reorderConfig | apply keeps_on_backend].
Qed.

Lemma keeps_dispatch method path id req :
  Session.keeps_auth (Nav.dispatch (Backend:=Backend) bind_fault db_batch crud method path id req).
Proof.
  unfold Nav.dispatch, Nav.method_not_allowed. cbv zeta.
  repeat match goal with
         | |- Session.keeps_auth (if ?b then _ else _) => destruct b
         end;
    first [apply keeps_run | apply keeps_ret].
Qed.

Lemma keeps_api_handleRequest req : Session.keeps_auth (api_handleRequest req).
Proof.
  unfold Nav.api_handleRequest. cbv zeta.
  apply keeps_bind.
  - destruct (Nav.isProtected _ _); [apply keeps_checkAuth | apply keeps_ret].
  - intros b. destruct (negb b); [apply keeps_ret|].
    apply keeps_try_catch; [apply keeps_dispatch | intros; apply keeps_ret].
Qed.

(** C8.  A request to a protected API route that fails the auth check is
    answered 401 with the JSON body [{code:401, message:"Unauthorized"}]
    before any entity handler is entered: whatever the handlers are, the
    backend and [NAV_AUTH] are as they were and the only calls made are
    the reads of the auth check.  With no Cookie header at all, no call is
    made. *)
Theorem api_denies_before_handlers req (w : Nav.world Backend) :
  Nav.isProtected (method req) (Nav.api_path req) = true ->
  (Http.headers_get "Cookie" (headers req) = None ->
   api_handleRequest req w = (Ret Trace.unauthorized, w))
  /\ (fst (Nav.checkAuth fault req w) = Ret false ->
      api_handleRequest req w = (Ret Trace.unauthorized, snd (Nav.checkAuth fault req w))
      /\ Nav.backend (snd (api_handleRequest req w)) = Nav.backend w
      /\ Nav.NAV_AUTH (snd (api_handleRequest req w)) = Nav.NAV_AUTH w
      /\ exists calls,
          Nav.trace (snd (api_handleRequest req w)) = Nav.trace w ++ calls
          /\ Forall Trace.read_only calls
          /\ Forall (fun e => ~ Trace.handler_step e) calls).
Proof.
  intros Hprot.
  assert (Hdeny : fst (Nav.checkAuth fault req w) = Ret false ->
                  api_handleRequest req w =
                  (Ret Trace.unauthorized, snd (Nav.checkAuth fault req w))).
  { intros Hf. unfold Nav.api_handleRequest. cbv zeta. rewrite Hprot.
    unfold Eff.bind. destruct (Nav.checkAuth fault req w) as [o w1].
    simpl in Hf. subst o. reflexivity. }
  pose proof (checkAuth_cases fault req w) as Hc.
  split.
  - intros Hnone. rewrite Hnone in Hc.
    rewrite Hdeny; rewrite Hc; reflexivity.
  - intros Hf. rewrite (Hdeny Hf). split; [reflexivity|]. cbn [snd].
    destruct (Http.headers_get "Cookie" (headers req)) as [cookieHeader|].
    2:{ rewrite Hc. cbn [snd]. repeat apply conj; try reflexivity.
        exists []. rewrite app_nil_r. repeat apply conj; [reflexivity | constructor | constructor]. }
    destruct (Nav.cookie_sessionId cookieHeader) as [sessionId|].
    2:{ rewrite Hc. cbn [snd]. repeat apply conj; try reflexivity.
        exists []. rewrite app_nil_r. repeat apply conj; [reflexivity | constructor | constructor]. }
    cbv zeta in Hc.
    destruct (fault (Nav.trace w) (KV.Get (Nav.session_key sessionId)));
      rewrite Hc; cbn [snd Nav.backend Nav.NAV_AUTH Nav.trace];
      repeat apply conj; try reflexivity.
    + eexists. rewrite <- app_assoc.
      repeat apply conj; [reflexivity | repeat constructor | repeat constructor; simpl; tauto].
    + eexists.
      repeat apply conj; [reflexivity | repeat constructor | repeat constructor; simpl; tauto].
Qed.

End ApiFacts.

(** ** The life of a session *)

Section SessionFacts.

Context {Backend : Type}.
Variable bind_fault : json -> option string.
Variable db_batch : list Nav.statement -> Backend -> string + Backend.
Variable fault : list Nav.event -> KV.call -> option string.
Variable randomUUID : list Nav.event -> string.
Variable crud : Nav.handler -> request -> list string -> Backend -> outcome response * Backend.
Variable handleStatic : request -> response.
Variable renderAdminPage renderLoginPage : response.
Variable publicPage : request -> Backend -> outcome response * Backend.

Local Abbreviation serve :=
  (Session.serve bind_fault db_batch fault randomUUID crud handleStatic
     renderAdminPage renderLoginPage publicPage).
Local Abbreviation step :=
  (Session.step bind_fault db_batch fault randomUUID crud handleStatic
     renderAdminPage renderLoginPage publicPage).
Local Abbreviation reachable :=
  (Session.reachable bind_fault db_batch fault randomUUID crud handleStatic
     renderAdminPage renderLoginPage publicPage).

Lemma session_key_inj a b : Nav.session_key a = Nav.session_key b -> a = b.
Proof. unfold Nav.session_key. apply (inj (String.append "session:")). Qed.

(** A request changes [NAV_AUTH] only by a served login, which adds one
    session, or by a served logout, which removes the one it names. *)
Lemma serve_auth_effect req (w : Nav.world Backend) :
  Nav.NAV_AUTH (snd (serve req w)) = Nav.NAV_AUTH w
  \/ (pathname req = "/admin/login" /\ method req = "POST"
      /\ exists resp history maxAge,
          fst (serve req w) = Ret resp
          /\ status resp = 200%N
          /\ resp_headers resp =
             [("Content-Type", "application/json");
              ("Set-Cookie", Nav.login_cookie (randomUUID history) maxAge)]
          /\ Nav.NAV_AUTH (snd (serve req w)) =
             <[Nav.session_key (randomUUID history) := KV.Entry "valid" (Some maxAge)]>
               (Nav.NAV_AUTH w))
  \/ (pathname req = "/admin/logout" /\ method req = "POST"
      /\ exists sessionId,
          Trace.named_session req = Some sessionId
          /\ Nav.NAV_AUTH (snd (serve req w)) =
             delete (Nav.session_key sessionId) (Nav.NAV_AUTH w)).
Proof.
  unfold Session.serve, Nav.fetch.
  destruct (String.prefix "/api" (pathname req)).
  { left. apply keeps_api_handleRequest. }
  destruct (String.prefix "/admin" (pathname req) || String.prefix "/static" (pathname req)).
  2:{ left. apply keeps_on_backend. }
  unfold Nav.admin_handleRequest. cbv zeta.
  destruct (String.prefix "/static" (pathname req)); [left; reflexivity|].
  destruct (String.eqb (pathname req) "/admin/login" && String.eqb (method req) "POST")
    eqn:Hlogin.
  { apply andb_true_iff in Hlogin. destruct Hlogin as [Hp Hm].
    apply String.eqb_eq in Hp. apply String.eqb_eq in Hm.
    destruct (handleLogin_effect fault randomUUID req w)
      as (resp & calls & Hr & _ & _ &
          [(H200 & history & maxAge & Hstore & Hhead) | [(_ & Hsame & _) | (_ & Hsame)]]).
    - right; left. repeat apply conj; try assumption.
      exists resp, history, maxAge. repeat apply conj; assumption.
    - left. exact Hsame.
    - left. exact Hsame. }
  destruct (String.eqb (pathname req) "/admin/logout" && String.eqb (method req) "POST")
    eqn:Hlogout.
  { apply andb_true_iff in Hlogout. destruct Hlogout as [Hp Hm].
    apply String.eqb_eq in Hp. apply String.eqb_eq in Hm.
    pose proof (handleLogout_cases fault req w) as Hc.
    destruct (Trace.named_session req) as [sessionId|] eqn:Hn.
    2:{ left. rewrite Hc. reflexivity. }
    cbv zeta in Hc.
    destruct (fault (Nav.trace w) (KV.Delete (Nav.session_key sessionId))).
    - left. rewrite Hc. reflexivity.
    - right; right. repeat apply conj; try assumption.
      exists sessionId. split; [reflexivity|]. rewrite Hc. reflexivity. }
  destruct (String.eqb (pathname req) "/admin"); [|left; reflexivity].
  left. apply keeps_bind; [apply keeps_checkAuth|].
  intros b. destruct b; apply keeps_ret.
Qed.

Lemma expire_effect key (w : Nav.world Backend) :
  Nav.NAV_AUTH (Nav.expire key w) = Nav.NAV_AUTH w
  \/ Nav.NAV_AUTH (Nav.expire key w) = delete key (Nav.NAV_AUTH w).
Proof.
  unfold Nav.expire. destruct (Nav.NAV_AUTH w !! key) as [[v [ttl|]]|]; auto.
Qed.

Lemma uuid_char_plain c :
  Session.uuid_char c = true ->
  c <> ";"%char /\ c <> "="%char /\ JS.is_white c = false.
Proof.
  intros H. repeat apply conj; try (intros ->; discriminate H).
  destruct c as [[] [] [] [] [] [] [] []]; try reflexivity; discriminate H.
Qed.

(** A session identifier of the generator's shape comes back from the
    cookie [sessionId=<id>] as it is. *)
Lemma cookie_of_uuid s :
  Session.uuid_shaped s -> Nav.cookie_sessionId ("sessionId=" +:+ s) = Some s.
Proof.
  intros [Hlen Hchars].
  assert (Hsemi : Forall (fun x => x <> ";"%char) (list_ascii_of_string s)).
  { eapply Forall_impl; [exact Hchars|]. intros c Hc. apply uuid_char_plain, Hc. }
  assert (Heq : Forall (fun x => x <> "="%char) (list_ascii_of_string s)).
  { eapply Forall_impl; [exact Hchars|]. intros c Hc. apply uuid_char_plain, Hc. }
  assert (Hblack : Forall (fun x => JS.is_white x = false) (list_ascii_of_string s)).
  { eapply Forall_impl; [exact Hchars|]. intros c Hc. apply uuid_char_plain, Hc. }
  unfold Nav.cookie_sessionId.
  rewrite (parse_cookies_single _ "sessionId" [s]).
  - destruct s; [discriminate Hlen | reflexivity].
  - change (JS.trim ("sessionId=" +:+ s)) with (JS.trimEnd ("sessionId=" +:+ s)).
    rewrite trimEnd_black.
    + change ("sessionId=" +:+ s) with ("sessionId" +:+ String "=" s).
      rewrite split_app, (split_free _ s Heq). reflexivity.
    + rewrite chars_app. apply Forall_app. split; [|exact Hblack].
      repeat constructor.
  - discriminate.
  - rewrite chars_app. apply Forall_app. split; [|exact Hsemi].
    repeat constructor; discriminate.
Qed.

Hypothesis randomUUID_shape : forall history, Session.uuid_shaped (randomUUID history).

Lemma step_well_formed a (w : Nav.world Backend) :
  Session.well_formed w -> Session.well_formed (step a w).
Proof.
  intros Hwf s e Hlook. destruct a as [req | key]; cbn [Session.step] in Hlook.
  - destruct (serve_auth_effect req w)
      as [Hsame | [(_ & _ & resp & history & maxAge & _ & _ & _ & Hstore)
                  | (_ & _ & sid & _ & Hstore)]].
    + rewrite Hsame in Hlook. exact (Hwf s e Hlook).
    + rewrite Hstore in Hlook.
      destruct (decide (randomUUID history = s)) as [<- | Hne].
      * rewrite lookup_insert_eq in Hlook. injection Hlook as <-.
        refine (conj (randomUUID_shape _) (conj eq_refl _)). eexists; reflexivity.
      * rewrite lookup_insert_ne in Hlook
          by (intros Heq; apply Hne, session_key_inj, Heq).
        exact (Hwf s e Hlook).
    + rewrite Hstore in Hlook. apply lookup_delete_Some in Hlook.
      exact (Hwf s e (proj2 Hlook)).
  - destruct (expire_effect key w) as [Hsame | Hdel].
    + rewrite Hsame in Hlook. exact (Hwf s e Hlook).
    + rewrite Hdel in Hlook. apply lookup_delete_Some in Hlook.
      exact (Hwf s e (proj2 Hlook)).
Qed.

Lemma reachable_well_formed (w : Nav.world Backend) :
  reachable w -> Session.well_formed w.
Proof.
  induction 1 as [w Hfresh | a w _ IH].
  - intros s e Hlook. rewrite (Hfresh s) in Hlook. discriminate Hlook.
  - apply step_well_formed, IH.
Qed.

Lemma state_of_absent (m : gmap string KV.entry) s :
  Session.state_of m s = Some Session.Absent <-> m !! Nav.session_key s = None.
Proof.
  unfold Session.state_of, KV.get.
  destruct (m !! Nav.session_key s) as [e|]; simpl.
  - destruct (String.eqb (KV.value e) "valid"); split; discriminate.
  - split; reflexivity.
Qed.

Lemma state_of_valid (m : gmap string KV.entry) s :
  Session.state_of m s = Some Session.Valid <-> KV.get (Nav.session_key s) m = Some "valid".
Proof.
  unfold Session.state_of.
  destruct (KV.get (Nav.session_key s) m) as [v|]; [|split; discriminate].
  destruct (String.eqb v "valid") eqn:E.
  - apply String.eqb_eq in E. subst. split; reflexivity.
  - apply String.eqb_neq in E. split; [discriminate | congruence].
Qed.


End SessionFacts.

(** ** The notes worker *)

Section NotesFacts.

Variable HTML_CONTENT : string.
Variable JSON_stringify : option json -> string.
Variable Number_toString : Z -> string.
Variable fault : list Notes.event -> KV.call -> option string.

Local Abbreviation fetch :=
  (fun BB => Notes.fetch BB HTML_CONTENT JSON_stringify Number_toString fault).

Lemma read_body_same (r1 r2 : request) (w : Notes.world) :
  Credentials.same_payload (json_body r1) (json_body r2) ->
  (exists e, forall A (k : json -> Eff.M Notes.world A),
      Eff.bind (Eff.request_json r1) (fun v => Eff.bind (Eff.destructure v) k) w
      = (Throw e, w)
      /\ Eff.bind (Eff.request_json r2) (fun v => Eff.bind (Eff.destructure v) k) w
         = (Throw e, w))
  \/ (exists v1 v2,
         Credentials.payload v1 = Credentials.payload v2
         /\ forall A (k : json -> Eff.M Notes.world A),
             Eff.bind (Eff.request_json r1) (fun v => Eff.bind (Eff.destructure v) k) w
             = k v1 w
             /\ Eff.bind (Eff.request_json r2) (fun v => Eff.bind (Eff.destructure v) k) w
                = k v2 w).
Proof.
  unfold Credentials.same_payload, Eff.request_json.
  destruct (json_body r1) as [m1 | v1], (json_body r2) as [m2 | v2]; try tauto.
  - intros <-. left. exists (Error m1). intros A k. split; reflexivity.
  - intros [Hd Hp]. unfold Eff.bind, Eff.ret, Eff.destructure. rewrite <- Hd.
    destruct (Value.destructurable v1).
    + right. exists v1, v2. split; [exact Hp|]. intros A k. split; reflexivity.
    + left. eexists. intros A k. split; reflexivity.
Qed.

(** A save that parses: the body is read once and destructured. *)
Lemma save_body (r : request) (w : Notes.world) v A (k : json -> Eff.M Notes.world A) :
  json_body r = inr v -> v <> JNull ->
  Eff.bind (Eff.request_json r) (fun v => Eff.bind (Eff.destructure v) k) w = k v w.
Proof.
  intros Hb Hv. unfold Eff.bind at 1, Eff.request_json. rewrite Hb.
  unfold Eff.ret at 1. unfold Eff.bind. rewrite (destructure_ok _ v w Hv). reflexivity.
Qed.

(** [/api/saveNotes] and [/api/saveStyles] on a body that parses, the
    key being whatever ToString makes of the members. *)
Lemma saveNotes_runs BB r (w : Notes.world) v :
  pathname r = "/api/saveNotes" -> method r = "POST" ->
  json_body r = inr v -> v <> JNull ->
  fetch BB r w
  = Eff.bind (Notes.aa_put fault (Value.to_string Number_toString (Value.prop "userId" v))
                (JSON_stringify (Value.prop "notes" v)))
      (fun _ => Eff.ret Notes.success) w.
Proof.
  intros Hp Hm Hb Hv. unfold Notes.fetch. cbv zeta. rewrite Hp, Hm.
  cbn [String.eqb Ascii.eqb Bool.eqb orb andb].
  rewrite (save_body r w v _ _ Hb Hv). reflexivity.
Qed.

Lemma saveStyles_runs BB r (w : Notes.world) v :
  pathname r = "/api/saveStyles" -> method r = "POST" ->
  json_body r = inr v -> v <> JNull ->
  fetch BB r w
  = Eff.bind (Notes.aa_put fault
                (Value.to_string Number_toString (Value.prop "userId" v) +:+ "_"
                   +:+ Value.to_string Number_toString (Value.prop "type" v))
                (JSON_stringify (Value.prop "styles" v)))
      (fun _ => Eff.ret Notes.success) w.
Proof.
  intros Hp Hm Hb Hv. unfold Notes.fetch. cbv zeta. rewrite Hp, Hm.
  cbn [String.eqb Ascii.eqb Bool.eqb orb andb].
  rewrite (save_body r w v _ _ Hb Hv). reflexivity.
Qed.

(** A served write, answered with [{"success":true}]. *)
Lemma put_served key text (w : Notes.world) :
  fault (Notes.trace w) (KV.Put key text None) = None ->
  Eff.bind (Notes.aa_put fault key text) (fun _ => Eff.ret Notes.success) w
  = (Ret (Response 200 [] (Json (JObj [("success", JBool true)]))),
     Notes.World (<[key := KV.Entry text None]> (Notes.AA w))
       (Notes.trace w ++ [Notes.Store (KV.Put key text None)])).
Proof.
  intros Hf. unfold Eff.bind, Notes.aa_put, Eff.ret. rewrite Hf. reflexivity.
Qed.


End NotesFacts.

(** ** The worker on the sample deployment *)

Lemma isProtected_classifies_witness :
  In "PUT /config/\d+/toggle_privacy" Nav.protectedRoutes
  /\ Nav.route_matches "PUT" "/config/42/toggle_privacy"
       "PUT /config/\d+/toggle_privacy" = true
  /\ "PUT" = "PUT"
  /\ Nav.isProtected "GET" "/config" = false.
Proof.
  assert (Hin : In "PUT /config/\d+/toggle_privacy" Nav.protectedRoutes)
    by (vm_compute; tauto).
  assert (Hm : Nav.route_matches "PUT" "/config/42/toggle_privacy"
                 "PUT /config/\d+/toggle_privacy" = true) by (vm_compute; reflexivity).
  destruct isProtected_classifies as (_ & _ & _ & _ & _ & _ & Honly & _ & _ & _ & _ & _ & Hpublic).
  repeat apply conj; try assumption.
  exact (proj1 (Honly "PUT" "PUT /config/\d+/toggle_privacy" Hin Hm)).
Defined.

Lemma checkAuth_decides_witness :
  Http.headers_get "Cookie" (headers (Sample.with_cookie "GET" "/admin" "sessionId=abc"))
  = Some "sessionId=abc"
  /\ Nav.cookie_sessionId "sessionId=abc" = Some "abc"
  /\ fst (Nav.checkAuth Sample.served (Sample.with_cookie "GET" "/admin" "sessionId=abc")
            Sample.one_session) = Ret true
  /\ fst (Nav.checkAuth Sample.served (Sample.bare "GET" "/admin") Sample.one_session)
     = Ret false.
Proof.
  pose proof (checkAuth_decides Sample.served
                (Sample.with_cookie "GET" "/admin" "sessionId=abc") Sample.one_session)
    as (_ & Hiff & _).
  pose proof (checkAuth_decides Sample.served
                (Sample.bare "GET" "/admin") Sample.one_session)
    as (_ & _ & Hnone & _).
  assert (Hh : Http.headers_get "Cookie"
                 (headers (Sample.with_cookie "GET" "/admin" "sessionId=abc"))
               = Some "sessionId=abc") by reflexivity.
  assert (Hs : Nav.cookie_sessionId "sessionId=abc" = Some "abc")
    by (vm_compute; reflexivity).
  repeat apply conj; try assumption.
  - apply Hiff. exists "sessionId=abc", "abc".
    repeat apply conj; try assumption; [reflexivity | vm_compute; reflexivity].
  - rewrite (Hnone eq_refl). reflexivity.
Defined.

Lemma handleLogin_opens_session_witness :
  let req := Sample.login "admin" "s3cret" true in
  let v := JObj [("username", JStr "admin"); ("password", JStr "s3cret");
                 ("remember", JBool true)] in
  json_body req = inr v
  /\ Value.prop "username" v = Some (JStr "admin")
  /\ Value.prop "password" v = Some (JStr "s3cret")
  /\ KV.get "admin_username" (Nav.NAV_AUTH Sample.world0) = Some "admin"
  /\ KV.get "admin_password" (Nav.NAV_AUTH Sample.world0) = Some "s3cret"
  /\ (forall calls c, Sample.served (Nav.trace Sample.world0 ++ calls) c = None)
  /\ KV.get ("session:" +:+ "3f2b8c1e-5d4a-4e6f-9a7b-0c1d2e3f4a5b")
       (Nav.NAV_AUTH (snd (Nav.handleLogin Sample.served Sample.uuid req Sample.world0)))
     = Some "valid".
Proof.
  intros req v.
  assert (H1 : json_body req = inr v) by reflexivity.
  assert (H2 : Value.prop "username" v = Some (JStr "admin")) by reflexivity.
  assert (H3 : Value.prop "password" v = Some (JStr "s3cret")) by reflexivity.
  assert (H4 : KV.get "admin_username" (Nav.NAV_AUTH Sample.world0) = Some "admin")
    by (vm_compute; reflexivity).
  assert (H5 : KV.get "admin_password" (Nav.NAV_AUTH Sample.world0) = Some "s3cret")
    by (vm_compute; reflexivity).
  assert (H6 : forall calls c, Sample.served (Nav.trace Sample.world0 ++ calls) c = None)
    by reflexivity.
  repeat (split; [assumption|]).
  exact (proj1 (proj2 (handleLogin_opens_session Sample.served Sample.uuid
                         req Sample.world0 v "admin" "s3cret" H1 H2 H3 H4 H5 H6))).
Defined.

Lemma handleLogin_rejects_witness :
  let req := Sample.login "admin" "guess" false in
  let v := JObj [("username", JStr "admin"); ("password", JStr "guess");
                 ("remember", JBool false)] in
  json_body req = inr v
  /\ v <> JNull
  /\ KV.get "admin_username" (Nav.NAV_AUTH Sample.world0) = Some "admin"
  /\ KV.get "admin_password" (Nav.NAV_AUTH Sample.world0) = Some "s3cret"
  /\ (Value.prop "username" v <> Some (JStr "admin")
      \/ Value.prop "password" v <> Some (JStr "s3cret"))
  /\ (forall calls c, Sample.served (Nav.trace Sample.world0 ++ calls) c = None)
  /\ Nav.NAV_AUTH (snd (Nav.handleLogin Sample.served Sample.uuid req Sample.world0))
     = Nav.NAV_AUTH Sample.world0.
Proof.
  intros req v.
  assert (H1 : json_body req = inr v) by reflexivity.
  assert (H2 : v <> JNull) by discriminate.
  assert (H3 : KV.get "admin_username" (Nav.NAV_AUTH Sample.world0) = Some "admin")
    by (vm_compute; reflexivity).
  assert (H4 : KV.get "admin_password" (Nav.NAV_AUTH Sample.world0) = Some "s3cret")
    by (vm_compute; reflexivity).
  assert (H5 : Value.prop "username" v <> Some (JStr "admin")
               \/ Value.prop "password" v <> Some (JStr "s3cret"))
    by (right; discriminate).
  assert (H6 : forall calls c, Sample.served (Nav.trace Sample.world0 ++ calls) c = None)
    by reflexivity.
  repeat (split; [assumption|]).
  exact (proj1 (proj2 (handleLogin_rejects Sample.served Sample.uuid
                         req Sample.world0 v "admin" "s3cret" H1 H2 H3 H4 H5 H6))).
Defined.

Lemma handleLogout_answers_witness :
  let req := Sample.with_cookie "POST" "/admin/logout" "sessionId=abc" in
  Trace.named_session req = Some "abc"
  /\ Sample.served (Nav.trace Sample.one_session) (KV.Delete (Nav.session_key "abc")) = None
  /\ fst (Nav.handleLogout Sample.served req Sample.one_session) = Ret Trace.logged_out
  /\ Trace.named_session (Sample.bare "POST" "/admin/logout") = None
  /\ Nav.handleLogout Sample.served (Sample.bare "POST" "/admin/logout") Sample.world0
     = (Ret Trace.logged_out, Sample.world0).
Proof.
  intros req.
  assert (H1 : Trace.named_session req = Some "abc") by (vm_compute; reflexivity).
  assert (H2 : Sample.served (Nav.trace Sample.one_session)
                 (KV.Delete (Nav.session_key "abc")) = None) by reflexivity.
  assert (H3 : Trace.named_session (Sample.bare "POST" "/admin/logout") = None)
    by reflexivity.
  pose proof (handleLogout_answers Sample.served req Sample.one_session)
    as (_ & Hserved & _).
  pose proof (handleLogout_answers Sample.served
                (Sample.bare "POST" "/admin/logout") Sample.world0)
    as (Hnone & _).
  repeat apply conj; try assumption.
  - exact (proj1 (Hserved "abc" H1 H2)).
  - exact (Hnone H3).
Defined.

(** C4, as claimed, fails: when the store refuses the delete call, the
    logout answers 500 without a Set-Cookie header and the session stays
    valid; so it is not the case that every logout, whatever the store
    does, answers 200 with the cookie-clearing header. *)
Lemma handleLogout_refused_delete :
  let req := Sample.with_cookie "POST" "/admin/logout" "sessionId=abc" in
  let r := Nav.handleLogout Sample.delete_refused req Sample.one_session in
  fst r = Ret (Trace.caught "KV DELETE failed: 503 Service Unavailable")
  /\ status (Trace.caught "KV DELETE failed: 503 Service Unavailable") = 500%N
  /\ Http.headers_get "Set-Cookie"
       (resp_headers (Trace.caught "KV DELETE failed: 503 Service Unavailable")) = None
  /\ KV.get "session:abc" (Nav.NAV_AUTH (snd r)) = Some "valid"
  /\ ~ (forall fault req' (w : Nav.world unit),
           exists resp,
             fst (Nav.handleLogout fault req' w) = Ret resp
             /\ status resp = 200%N
             /\ Http.headers_get "Set-Cookie" (resp_headers resp)
                = Some "sessionId=; HttpOnly; Secure; Path=/; Max-Age=0").
Proof.
  intros req r.
  assert (Hr : fst r = Ret (Trace.caught "KV DELETE failed: 503 Service Unavailable"))
    by (vm_compute; reflexivity).
  split; [exact Hr|]. split; [reflexivity|]. split; [reflexivity|].
  split; [vm_compute; reflexivity|].
  intros Hall.
  destruct (Hall Sample.delete_refused req Sample.one_session) as (resp & Hresp & H200 & _).
  fold r in Hresp. rewrite Hr in Hresp. injection Hresp as <-. discriminate H200.
Qed.

Lemma sample_world_fresh : Session.fresh Sample.world0.
Proof.
  intros sessionId. unfold Sample.world0, Sample.secrets, Nav.session_key.
  cbn [Nav.NAV_AUTH].
  rewrite !lookup_insert_ne; [apply lookup_empty | discriminate | discriminate].
Qed.

Lemma sample_uuid_shape history : Session.uuid_shaped (Sample.uuid history).
Proof. split; [reflexivity | repeat constructor]. Qed.


Lemma api_denies_before_handlers_witness :
  let req := Sample.bare "PUT" "/api/config/42" in
  Nav.isProtected (method req) (Nav.api_path req) = true
  /\ Http.headers_get "Cookie" (headers req) = None
  /\ Nav.api_handleRequest Sample.bind_ok Sample.batch_ok Sample.served Sample.crud
       req Sample.world0
     = (Ret Trace.unauthorized, Sample.world0).
Proof.
  intros req.
  assert (H1 : Nav.isProtected (method req) (Nav.api_path req) = true)
    by (vm_compute; reflexivity).
  assert (H2 : Http.headers_get "Cookie" (headers req) = None) by reflexivity.
  repeat (split; [assumption|]).
  exact (proj1 (api_denies_before_handlers Sample.bind_ok Sample.batch_ok
                  Sample.served Sample.crud req Sample.world0 H1) H2).
Defined.

Lemma reorderConfig_positions_witness :
  let ids := [JNum 7; JNum 3; JNum 9] in
  let req := Sample.reorder ids in
  json_body req = inr (JObj [("orderedIds", JArr ids)])
  /\ Value.prop "orderedIds" (JObj [("orderedIds", JArr ids)]) = Some (JArr ids)
  /\ (forall id, In id ids -> Sample.bind_ok id = None)
  /\ Sample.batch_ok (Trace.position_updates ids) (Nav.backend Sample.world0) = inr tt
  /\ Trace.position_updates ids =
     [Nav.Statement "UPDATE sites SET sort_order = ? WHERE id = ?" [JNum 1; JNum 7];
      Nav.Statement "UPDATE sites SET sort_order = ? WHERE id = ?" [JNum 2; JNum 3];
      Nav.Statement "UPDATE sites SET sort_order = ? WHERE id = ?" [JNum 3; JNum 9]]
  /\ fst (Nav.reorderConfig Sample.bind_ok Sample.batch_ok req Sample.world0)
     = Ret (Response 200 Http.json_headers
              (Json (JObj [("code", JNum 200);
                           ("message", JStr "Reordered successfully")]))).
Proof.
  intros ids req.
  assert (H1 : json_body req = inr (JObj [("orderedIds", JArr ids)])) by reflexivity.
  assert (H2 : Value.prop "orderedIds" (JObj [("orderedIds", JArr ids)]) = Some (JArr ids))
    by reflexivity.
  assert (H3 : forall id, In id ids -> Sample.bind_ok id = None) by reflexivity.
  assert (H4 : Sample.batch_ok (Trace.position_updates ids) (Nav.backend Sample.world0)
               = inr tt) by reflexivity.
  repeat (split; [assumption|]).
  split; [reflexivity|].
  destruct (reorderConfig_positions Sample.bind_ok Sample.batch_ok) as (Hok & _).
  destruct (Hok req Sample.world0 _ ids tt H1 H2 H3 H4) as (Hrun & _).
  rewrite Hrun. reflexivity.
Defined.


(** ** Requests run on the sample deployment *)

(** A public route is served without a cookie: the handler is entered
    and the auth store is not asked. *)
Example public_route_runs :
  let r := Nav.api_handleRequest Sample.bind_ok Sample.batch_ok Sample.served Sample.crud
             (Sample.bare "GET" "/api/config") Sample.world0 in
  fst r = Ret Sample.page /\ Nav.trace (snd r) = [Nav.Invoke Nav.h_getConfig].
Proof. vm_compute. split; reflexivity. Qed.

(** A protected route with a valid session: one read of the auth store,
    then the handler. *)
Example protected_route_runs_when_authenticated :
  let r := Nav.api_handleRequest Sample.bind_ok Sample.batch_ok Sample.served Sample.crud
             (Sample.with_cookie "PUT" "/api/config/42" "theme=dark; sessionId=abc")
             Sample.one_session in
  fst r = Ret Sample.page
  /\ Nav.trace (snd r) =
     [Nav.Auth (KV.Get "session:abc"); Nav.Invoke Nav.h_updateConfig].
Proof. vm_compute. split; reflexivity. Qed.

(** The same request with a session the store does not know. *)
Example protected_route_stops_unknown_session :
  let r := Nav.api_handleRequest Sample.bind_ok Sample.batch_ok Sample.served Sample.crud
             (Sample.with_cookie "PUT" "/api/config/42" "sessionId=nope")
             Sample.one_session in
  fst r = Ret Trace.unauthorized
  /\ Nav.trace (snd r) = [Nav.Auth (KV.Get "session:nope")].
Proof. vm_compute. split; reflexivity. Qed.

(** Reordering through the worker's entry point, authenticated. *)
Example reorder_through_fetch :
  let req := Request "POST" "/api/config/reorder" [] [("cookie", "sessionId=abc")]
               (inr (JObj [("orderedIds", JArr [JNum 5; JNum 2])])) in
  Nav.trace (Sample.step (Session.Fetch req) Sample.one_session) =
  [Nav.Auth (KV.Get "session:abc");
   Nav.Invoke Nav.h_reorderConfig;
   Nav.Batch
     [Nav.Statement "UPDATE sites SET sort_order = ? WHERE id = ?" [JNum 1; JNum 5];
      Nav.Statement "UPDATE sites SET sort_order = ? WHERE id = ?" [JNum 2; JNum 2]]].
Proof. vm_compute. reflexivity. Qed.

(** Cookie headers as the worker reads them. *)
Example cookie_readings :
  Nav.cookie_sessionId "a=1; sessionId=abc; b=2" = Some "abc"
  /\ Nav.cookie_sessionId "sessionId=abc; sessionId=xyz" = Some "xyz"
  /\ Nav.cookie_sessionId "sessionId=abc; sessionId" = None
  /\ Nav.cookie_sessionId "sessionId=" = None
  /\ Nav.cookie_sessionId "sessionId =abc" = None
  /\ Nav.cookie_sessionId "SessionId=abc" = None.
Proof. vm_compute. repeat split; reflexivity. Qed.

(** The login cookies of the two lifetimes. *)
Example login_cookies :
  Nav.login_cookie "u" (30 * 86400) = "sessionId=u; HttpOnly; Secure; Path=/; Max-Age=2592000"
  /\ Nav.login_cookie "u" 86400 = "sessionId=u; HttpOnly; Secure; Path=/; Max-Age=86400".
Proof. vm_compute. split; reflexivity. Qed.

(** ** The gate and the routing agree *)

Section GateFacts.

Context {Backend : Type}.
Variable bind_fault : json -> option string.
Variable db_batch : list Nav.statement -> Backend -> string + Backend.
Variable fault : list Nav.event -> KV.call -> option string.
Variable crud : Nav.handler -> request -> list string -> Backend -> outcome response * Backend.

Lemma protected_rule method p path :
  In (RouteSpec.Rule method p) RouteSpec.protected_rules ->
  RouteSpec.accepts p path ->
  Nav.isProtected method path = true.
Proof.
  intros Hin Hacc. apply isProtected_spec.
  exists (RouteSpec.Rule method p). repeat split; assumption.
Qed.

(** A pattern literal of the routing with one [\d+] decides the typed
    pattern it is written for. *)
Lemma regex_test_numeric src before after path :
  Regex.RegExp src
  = Some (Regex.literal before ++ Regex.Atom Regex.CDigit true :: Regex.literal after) ->
  Nav.regex_test src path = true <->
  RouteSpec.accepts (RouteSpec.WithNumericId before after) path.
Proof. intros H. unfold Nav.regex_test. rewrite H. apply test_numeric_id. Qed.

Lemma regex_test_digits id :
  Nav.regex_test "^\d+$" id = true <-> RouteSpec.numeric_id id.
Proof.
  rewrite (regex_test_numeric _ EmptyString EmptyString) by reflexivity.
  simpl. split.
  - intros (ds & Hds & ->). rewrite append_empty_l, append_empty_r. exact Hds.
  - intros Hds. exists id. rewrite append_empty_l, append_empty_r. auto.
Qed.

Ltac route_facts :=
  repeat match goal with
         | H : (_ && _)%bool = true |- _ => apply andb_true_iff in H; destruct H
         | H : String.eqb _ _ = true |- _ => apply String.eqb_eq in H
         end.

Ltac by_rule p :=
  right; eapply (protected_rule _ p); [vm_compute; tauto |].

Lemma dispatch_routed method path id req :
  Gate.routed bind_fault db_batch crud method path req
    (Nav.dispatch bind_fault db_batch crud method path id req).
Proof.
  unfold Nav.dispatch, Nav.method_not_allowed. cbv zeta.
  repeat match goal with
         | |- Gate.routed _ _ _ _ _ _ (if ?c then _ else _) => destruct c eqn:?
         end;
    try (left; eexists; reflexivity);
    right; eexists _, _; (split; [reflexivity|]);
    try (left; reflexivity);
    route_facts; subst;
    try (right; vm_compute; reflexivity).
  - by_rule (RouteSpec.WithNumericId "/catalogs/" "/toggle_privacy").
    eapply regex_test_numeric; [|eassumption]. reflexivity.
  - by_rule (RouteSpec.WithNumericId "/config/" "").
    exists id. split; [apply regex_test_digits; assumption | now rewrite append_empty_r].
  - by_rule (RouteSpec.WithNumericId "/config/" "").
    exists id. split; [apply regex_test_digits; assumption | now rewrite append_empty_r].
  - by_rule (RouteSpec.WithNumericId "/config/" "/toggle_privacy").
    eapply regex_test_numeric; [|eassumption]. reflexivity.
  - by_rule (RouteSpec.WithNumericId "/pending/" "").
    exists id. split; [apply regex_test_digits; assumption | now rewrite append_empty_r].
  - by_rule (RouteSpec.WithNumericId "/pending/" "").
    exists id. split; [apply regex_test_digits; assumption | now rewrite append_empty_r].
Qed.
End GateFacts.

(** ** The calls a computation makes *)

Section EmitFacts.
Context {Backend : Type}.
Variable P : Nav.event -> Prop.

Lemma emits_ret A (a : A) : Gate.emits (Backend:=Backend) P (Eff.ret a).
Proof. intros w. exists []. rewrite app_nil_r. split; [reflexivity | constructor]. Qed.

Lemma emits_throw A e : Gate.emits (Backend:=Backend) P (@Eff.throw _ A e).
Proof. intros w. exists []. rewrite app_nil_r. split; [reflexivity | constructor]. Qed.

Lemma emits_bind A B (m : Eff.M (Nav.world Backend) A) (k : A -> Eff.M _ B) :
  Gate.emits P m -> (forall a, Gate.emits P (k a)) -> Gate.emits P (Eff.bind m k).
Proof.
  intros Hm Hk w. unfold Eff.bind. destruct (Hm w) as (c1 & H1 & F1).
  destruct (m w) as [[a | e] w1]; cbn [snd] in *.
  - destruct (Hk a w1) as (c2 & H2 & F2). exists (c1 ++ c2).
    rewrite H2, H1, app_assoc. split; [reflexivity | apply Forall_app; auto].
  - exists c1. auto.
Qed.

Lemma emits_try_catch A (m : Eff.M (Nav.world Backend) A) h :
  Gate.emits P m -> (forall e, Gate.emits P (h e)) -> Gate.emits P (Eff.try_catch m h).
Proof.
  intros Hm Hh w. unfold Eff.try_catch. destruct (Hm w) as (c1 & H1 & F1).
  destruct (m w) as [[a | e] w1]; cbn [snd] in *.
  - exists c1. auto.
  - destruct (Hh e w1) as (c2 & H2 & F2). exists (c1 ++ c2).
    rewrite H2, H1, app_assoc. split; [reflexivity | apply Forall_app; auto].
Qed.

Lemma emits_one A (m : Eff.M (Nav.world Backend) A) e :
  P e -> (forall w, Nav.trace (snd (m w)) = Nav.trace w ++ [e]) -> Gate.emits P m.
Proof. intros He Hm w. exists [e]. split; [apply Hm | repeat constructor; exact He]. Qed.

Lemma emits_emit e : P e -> Gate.emits P (Nav.emit (Backend:=Backend) e).
Proof. intros He. apply (emits_one _ _ e He). reflexivity. Qed.

Lemma emits_auth_get fault key :
  P (Nav.Auth (KV.Get key)) -> Gate.emits P (Nav.auth_get (Backend:=Backend) fault key).
Proof.
  intros He. apply (emits_one _ _ _ He). intros w. unfold Nav.auth_get.
  destruct (fault _ _); reflexivity.
Qed.

Lemma emits_auth_put fault key val ttl :
  P (Nav.Auth (KV.Put key val ttl)) ->
  Gate.emits P (Nav.auth_put (Backend:=Backend) fault key val ttl).
Proof.
  intros He. apply (emits_one _ _ _ He). intros w. unfold Nav.auth_put.
  destruct (fault _ _); reflexivity.
Qed.

Lemma emits_auth_delete fault key :
  P (Nav.Auth (KV.Delete key)) ->
  Gate.emits P (Nav.auth_delete (Backend:=Backend) fault key).
Proof.
  intros He. apply (emits_one _ _ _ He). intros w. unfold Nav.auth_delete.
  destruct (fault _ _); reflexivity.
Qed.

Lemma emits_batch db_batch stmts :
  P (Nav.Batch stmts) -> Gate.emits P (Nav.batch (Backend:=Backend) db_batch stmts).
Proof.
  intros He. apply (emits_one _ _ _ He). intros w. unfold Nav.batch.
  destruct (db_batch _ _); reflexivity.
Qed.

Lemma emits_on_backend A (f : Backend -> outcome A * Backend) :
  Gate.emits P (Nav.on_backend f).
Proof.
  intros w. exists []. rewrite app_nil_r. unfold Nav.on_backend.
  destruct (f _). split; [reflexivity | constructor].
Qed.

Lemma emits_request_json req : Gate.emits P (Eff.request_json (W:=Nav.world Backend) req).
Proof. unfold Eff.request_json. destruct (json_body req); [apply emits_throw | apply emits_ret]. Qed.

Lemma emits_destructure v : Gate.emits P (Eff.destructure (W:=Nav.world Backend) v).
Proof. unfold Eff.destructure. destruct (Value.destructurable v); [apply emits_ret | apply emits_throw]. Qed.

End EmitFacts.

Section QuietFacts.
Context {Backend : Type}.
Variable bind_fault : json -> option string.
Variable db_batch : list Nav.statement -> Backend -> string + Backend.
Variable fault : list Nav.event -> KV.call -> option string.
Variable randomUUID : list Nav.event -> string.

Lemma emits_weaken A (P Q : Nav.event -> Prop) (m : Eff.M (Nav.world Backend) A) :
  (forall e, P e -> Q e) -> Gate.emits P m -> Gate.emits Q m.
Proof.
  intros HPQ Hm w. destruct (Hm w) as (c & H & F). exists c. split; [exact H|].
  eapply Forall_impl; [exact F | exact HPQ].
Qed.

Lemma quiet_checkAuth req : Gate.emits Gate.quiet (Nav.checkAuth (Backend:=Backend) fault req).
Proof.
  unfold Nav.checkAuth. apply emits_try_catch.
  - destruct (Http.headers_get _ _) as [[|c h]|]; try apply emits_ret.
    destruct (Nav.cookie_sessionId _); [|apply emits_ret].
    apply emits_bind; [apply emits_auth_get; reflexivity | intros; apply emits_ret].
  - intros e. apply emits_bind; [apply emits_emit; reflexivity | intros; apply emits_ret].
Qed.

Lemma quiet_handleLogin req :
  Gate.emits Gate.quiet (Nav.handleLogin (Backend:=Backend) fault randomUUID req).
Proof.
  unfold Nav.handleLogin.
  apply emits_try_catch; [|intros; apply emits_ret].
  apply emits_bind; [apply emits_request_json|]. intros v.
  apply emits_bind; [apply emits_destructure|]. intros v'.
  apply emits_bind; [apply emits_auth_get; reflexivity|]. intros u.
  apply emits_bind; [apply emits_auth_get; reflexivity|]. intros p.
  destruct (_ && _); [|apply emits_ret].
  apply emits_bind.
  - intros w. exists [Nav.RandomUUID (randomUUID (Nav.trace w))].
    split; [reflexivity | repeat constructor].
  - intros sid. apply emits_bind; [apply emits_auth_put; reflexivity | intros; apply emits_ret].
Qed.

Lemma quiet_handleLogout req :
  Gate.emits Gate.quiet (Nav.handleLogout (Backend:=Backend) fault req).
Proof.
  unfold Nav.handleLogout.
  apply emits_try_catch; [|intros; apply emits_ret].
  apply emits_bind; [|intros; apply emits_ret].
  destruct (Http.headers_get _ _) as [[|c h]|]; try apply emits_ret.
  destruct (Nav.cookie_sessionId _); [|apply emits_ret].
  apply emits_auth_delete. reflexivity.
Qed.

Lemma quiet_reorderConfig req :
  Gate.emits Gate.quiet (Nav.reorderConfig (Backend:=Backend) bind_fault db_batch req).
Proof.
  unfold Nav.reorderConfig.
  apply emits_try_catch; [|intros; apply emits_ret].
  apply emits_bind; [apply emits_request_json|]. intros v.
  apply emits_bind; [apply emits_destructure|]. intros v'.
  destruct (Value.isArray _); [|apply emits_ret].
  destruct (Nav.sequence _); [|apply emits_throw].
  apply emits_bind; [apply emits_batch; reflexivity | intros; apply emits_ret].
Qed.

End QuietFacts.

(** ** No guarded handler without a session *)

Section GuardFacts.
Context {Backend : Type}.
Variable bind_fault : json -> option string.
Variable db_batch : list Nav.statement -> Backend -> string + Backend.
Variable fault : list Nav.event -> KV.call -> option string.
Variable randomUUID : list Nav.event -> string.
Variable crud : Nav.handler -> request -> list string -> Backend -> outcome response * Backend.
Variable handleStatic : request -> response.
Variable renderAdminPage renderLoginPage : response.
Variable publicPage : request -> Backend -> outcome response * Backend.

Local Abbreviation serve :=
  (Session.serve bind_fault db_batch fault randomUUID crud handleStatic
     renderAdminPage renderLoginPage publicPage).

Lemma quiet_not_entered calls h :
  Forall Gate.quiet calls -> ~ In (Nav.Invoke h) calls.
Proof.
  intros F Hin. rewrite Forall_forall in F.
  apply list_elem_of_In in Hin. specialize (F _ Hin). discriminate F.
Qed.

Lemma run_enters h req args :
  Gate.emits (fun e => e = Nav.Invoke h \/ Gate.quiet e)
    (Nav.run (Backend:=Backend) bind_fault db_batch crud h req args).
Proof.
  unfold Nav.run. apply emits_bind; [apply emits_emit; left; reflexivity|]. intros _.
  destruct h; first [apply emits_on_backend
                    | eapply emits_weaken; [|apply quiet_reorderConfig]; intros e He; right; exact He].
Qed.

Lemma quiet_admin req :
  Gate.emits Gate.quiet
    (Nav.admin_handleRequest (Backend:=Backend) fault randomUUID handleStatic
       renderAdminPage renderLoginPage req).
Proof.
  unfold Nav.admin_handleRequest. cbv zeta.
  destruct (String.prefix _ _); [apply emits_ret|].
  destruct (_ && _); [apply quiet_handleLogin|].
  destruct (_ && _); [apply quiet_handleLogout|].
  destruct (String.eqb _ _); [|apply emits_ret].
  apply emits_bind; [apply quiet_checkAuth|]. intros b. destruct b; apply emits_ret.
Qed.

Lemma checkAuth_answers req (w : Nav.world Backend) :
  exists b, fst (Nav.checkAuth fault req w) = Ret b.
Proof.
  pose proof (checkAuth_cases fault req w) as Hc.
  destruct (Http.headers_get "Cookie" (headers req)) as [h|];
    [|rewrite Hc; eexists; reflexivity].
  destruct (Nav.cookie_sessionId h); [|rewrite Hc; eexists; reflexivity].
  cbv zeta in Hc. destruct (fault _ _); rewrite Hc; eexists; reflexivity.
Qed.

Lemma api_guard req (w : Nav.world Backend) :
  exists calls,
    Nav.trace (snd (Nav.api_handleRequest bind_fault db_batch fault crud req w))
    = Nav.trace w ++ calls
    /\ forall h, In (Nav.Invoke h) calls ->
         Gate.public_handler h = true \/ fst (Nav.checkAuth fault req w) = Ret true.
Proof.
  unfold Nav.api_handleRequest. cbv zeta.
  set (path := Nav.api_path req).
  set (id := default EmptyString (JS.pop (JS.split "/" (pathname req)))).
  assert (Hroute : forall (w1 : Nav.world Backend),
             exists calls,
               Nav.trace (snd (Eff.try_catch
                                 (Nav.dispatch bind_fault db_batch crud (method req) path id req)
                                 (fun error =>
                                    Eff.ret (Nav.errorResponse
                                               ("Internal Server Error: " +:+ message error) 500))
                                 w1))
               = Nav.trace w1 ++ calls
               /\ forall h, In (Nav.Invoke h) calls ->
                    Gate.public_handler h = true
                    \/ Nav.isProtected (method req) path = true).
  { intros w1.
    destruct (dispatch_routed bind_fault db_batch crud (method req) path id req)
      as [(resp & ->) | (h & args & -> & Hh)].
    - exists []. rewrite app_nil_r. split; [reflexivity | intros h []].
    - destruct (emits_try_catch _ _ _
                  (fun error =>
                     Eff.ret (Nav.errorResponse
                                ("Internal Server Error: " +:+ message error) 500))
                  (run_enters h req args)
                  (fun e => emits_ret _ _ _) w1) as (calls & Ht & F).
      exists calls. split; [exact Ht|].
      intros h' Hin. rewrite Forall_forall in F.
      apply list_elem_of_In in Hin. destruct (F _ Hin) as [Heq | Hq]; [|discriminate Hq].
      injection Heq as ->. exact Hh. }
  destruct (Nav.isProtected (method req) path) eqn:Hprot.
  - unfold Eff.bind. destruct (quiet_checkAuth fault req w) as (c1 & H1 & F1).
    destruct (checkAuth_answers req w) as (b & Hb).
    destruct (Nav.checkAuth fault req w) as [o w1]. cbn [fst snd] in *. subst o.
    destruct b; cbn [negb].
    + destruct (Hroute w1) as (c2 & H2 & _). exists (c1 ++ c2).
      rewrite H2, H1, app_assoc. split; [reflexivity|]. intros; right; reflexivity.
    + exists c1. split; [exact H1|]. intros h Hin.
      exfalso. exact (quiet_not_entered _ _ F1 Hin).
  - unfold Eff.bind, Eff.ret at 1. cbn [negb].
    destruct (Hroute w) as (c2 & H2 & Hg). exists c2. split; [exact H2|].
    intros h Hin. destruct (Hg h Hin) as [Hp | Hp]; [left; exact Hp | discriminate Hp].
Qed.

(** X1.  No handler behind the gate runs without a session.  Whatever
    the request, the calls the worker makes extend the trace, and an
    entity handler is entered only on a path under [/api], and then only
    if it is one of the four public handlers ([getSettings],
    [getCatalogs], [getConfig], [submitConfig]) or the auth check of
    this request answered true. *)
Theorem guarded_handlers_need_a_session req (w : Nav.world Backend) :
  exists calls,
    Nav.trace (snd (serve req w)) = Nav.trace w ++ calls
    /\ forall h,
        In (Nav.Invoke h) calls ->
        String.prefix "/api" (pathname req) = true
        /\ (Gate.public_handler h = true
            \/ fst (Nav.checkAuth fault req w) = Ret true).
Proof.
  unfold Session.serve, Nav.fetch.
  destruct (String.prefix "/api" (pathname req)).
  - destruct (api_guard req w) as (calls & Ht & Hg). exists calls. split; [exact Ht|].
    intros h Hin. split; [reflexivity | exact (Hg h Hin)].
  - destruct (_ || _).
    + destruct (quiet_admin req w) as (calls & Ht & F). exists calls. split; [exact Ht|].
      intros h Hin. exfalso. exact (quiet_not_entered _ _ F Hin).
    + destruct (emits_on_backend Gate.quiet _ (publicPage req) w) as (calls & Ht & F).
      exists calls. split; [exact Ht|].
      intros h Hin. exfalso. exact (quiet_not_entered _ _ F Hin).
Qed.
End GuardFacts.

(** ** Every protected route has its handler *)

Section TargetFacts.
Context {Backend : Type}.
Variable bind_fault : json -> option string.
Variable db_batch : list Nav.statement -> Backend -> string + Backend.
Variable fault : list Nav.event -> KV.call -> option string.
Variable crud : Nav.handler -> request -> list string -> Backend -> outcome response * Backend.

Local Abbreviation dispatch := (Nav.dispatch bind_fault db_batch crud).
Local Abbreviation run := (Nav.run bind_fault db_batch crud).

Lemma last_segment_app a b :
  Forall (fun x => x <> "/"%char) (list_ascii_of_string b) ->
  Gate.last_segment (a +:+ String "/" b) = b.
Proof.
  intros Hb. unfold Gate.last_segment, JS.pop.
  rewrite split_app, (split_free _ b Hb), last_snoc. reflexivity.
Qed.

Lemma numeric_no_slash ds :
  RouteSpec.numeric_id ds -> Forall (fun x => x <> "/"%char) (list_ascii_of_string ds).
Proof.
  intros [_ Hd]. eapply Forall_impl; [exact Hd|].
  intros c Hc ->. unfold RouteSpec.ascii_digit in Hc.
  change (nat_of_ascii "/") with 47%nat in Hc. lia.
Qed.

Lemma regex_rejects src before after path :
  Regex.RegExp src
  = Some (Regex.literal before ++ Regex.Atom Regex.CDigit true :: Regex.literal after) ->
  ~ RouteSpec.accepts (RouteSpec.WithNumericId before after) path ->
  Nav.regex_test src path = false.
Proof.
  intros Hsrc Hno. apply not_true_is_false. intros Ht. apply Hno.
  apply (regex_test_numeric src before after path Hsrc). exact Ht.
Qed.

Lemma exact_target method q h req :
  In (RouteSpec.Rule method (RouteSpec.Exact q), h) Gate.targets ->
  dispatch method q (Gate.last_segment ("/api" +:+ q)) req = run h req [].
Proof.
  intros Hin. unfold Gate.targets in Hin.
  repeat (destruct Hin as [Heq | Hin];
          [first [discriminate Heq | injection Heq as <- <- <-; vm_compute; reflexivity] |]).
  destruct Hin.
Qed.

Ltac differs := apply String.eqb_neq; let Hx := fresh in intros Hx; discriminate Hx.

Ltac no_pattern before after :=
  apply (regex_rejects _ before after); [reflexivity |];
  let ds' := fresh in let Hx := fresh in
  intros (ds' & _ & Hx); discriminate Hx.

Ltac settle :=
  repeat match goal with
         | |- context [String.eqb ?a ?b] =>
             replace (String.eqb a b) with false by (symmetry; differs)
         end;
  rewrite ?String.eqb_refl;
  cbn [andb]; rewrite ?andb_false_r; cbn [andb].

Lemma digits_are_not_all ds :
  RouteSpec.numeric_id ds -> String.eqb ("/config/" +:+ ds) "/config/all" = false.
Proof.
  intros [_ Hd]. apply String.eqb_neq. intros Hx.
  change "/config/all" with ("/config/" +:+ "all") in Hx.
  apply (inj (String.append "/config/")) in Hx. subst ds.
  inversion Hd as [|? ? Ha _]. unfold RouteSpec.ascii_digit in Ha.
  change (nat_of_ascii "a") with 97%nat in Ha. lia.
Qed.

Lemma numeric_target method before after h ds req :
  In (RouteSpec.Rule method (RouteSpec.WithNumericId before after), h) Gate.targets ->
  RouteSpec.numeric_id ds ->
  exists args,
    dispatch method (before +:+ ds +:+ after)
      (Gate.last_segment ("/api" +:+ before +:+ ds +:+ after)) req
    = run h req args.
Proof.
  intros Hin Hds. unfold Gate.targets in Hin.
  assert (Hid : forall base,
             Gate.last_segment (base +:+ String "/" ds) = ds)
    by (intros; apply last_segment_app, numeric_no_slash, Hds).
  repeat (destruct Hin as [Heq | Hin]; [first [discriminate Heq | injection Heq as <- <- <- <-] |]);
    [ | | | | | | destruct Hin ].
  - (* PUT /catalogs/<id>/toggle_privacy *)
    eexists. unfold Nav.dispatch. cbv zeta.
    replace (Nav.regex_test "^\/catalogs\/\d+\/toggle_privacy$"
               ("/catalogs/" +:+ ds +:+ "/toggle_privacy")) with true
      by (symmetry; apply (regex_test_numeric _ "/catalogs/" "/toggle_privacy");
          [reflexivity | exists ds; auto]).
    settle. reflexivity.
  - (* PUT /config/<id> *)
    eexists. rewrite append_empty_r.
    change ("/api" +:+ "/config/" +:+ ds) with ("/api/config" +:+ String "/" ds).
    rewrite Hid. unfold Nav.dispatch. cbv zeta.
    replace (Nav.regex_test "^\/catalogs\/\d+\/toggle_privacy$" ("/config/" +:+ ds))
      with false by (symmetry; no_pattern "/catalogs/" "/toggle_privacy").
    rewrite (proj2 (regex_test_digits ds) Hds).
    settle. reflexivity.
  - (* DELETE /config/<id> *)
    eexists. rewrite append_empty_r.
    change ("/api" +:+ "/config/" +:+ ds) with ("/api/config" +:+ String "/" ds).
    rewrite Hid. unfold Nav.dispatch. cbv zeta.
    rewrite (digits_are_not_all ds Hds), (proj2 (regex_test_digits ds) Hds).
    settle. reflexivity.
  - (* PUT /config/<id>/toggle_privacy *)
    eexists.
    change ("/api" +:+ "/config/" +:+ ds +:+ "/toggle_privacy")
      with (("/api/config/" +:+ ds) +:+ String "/" "toggle_privacy").
    rewrite last_segment_app by (repeat constructor; discriminate).
    unfold Nav.dispatch. cbv zeta.
    replace (Nav.regex_test "^\/catalogs\/\d+\/toggle_privacy$"
               ("/config/" +:+ ds +:+ "/toggle_privacy"))
      with false by (symmetry; no_pattern "/catalogs/" "/toggle_privacy").
    replace (Nav.regex_test "^\d+$" "toggle_privacy") with false
      by (vm_compute; reflexivity).
    replace (Nav.regex_test "^\/config\/\d+\/toggle_privacy$"
               ("/config/" +:+ ds +:+ "/toggle_privacy")) with true
      by (symmetry; apply (regex_test_numeric _ "/config/" "/toggle_privacy");
          [reflexivity | exists ds; auto]).
    settle. reflexivity.
  - (* PUT /pending/<id> *)
    eexists. rewrite append_empty_r.
    change ("/api" +:+ "/pending/" +:+ ds) with ("/api/pending" +:+ String "/" ds).
    rewrite Hid. unfold Nav.dispatch. cbv zeta.
    replace (Nav.regex_test "^\/catalogs\/\d+\/toggle_privacy$" ("/pending/" +:+ ds))
      with false by (symmetry; no_pattern "/catalogs/" "/toggle_privacy").
    replace (Nav.regex_test "^\/config\/\d+\/toggle_privacy$" ("/pending/" +:+ ds))
      with false by (symmetry; no_pattern "/config/" "/toggle_privacy").
    rewrite (proj2 (regex_test_digits ds) Hds).
    settle. reflexivity.
  - (* DELETE /pending/<id> *)
    eexists. rewrite append_empty_r.
    change ("/api" +:+ "/pending/" +:+ ds) with ("/api/pending" +:+ String "/" ds).
    rewrite Hid. unfold Nav.dispatch. cbv zeta.
    rewrite (proj2 (regex_test_digits ds) Hds).
    settle. reflexivity.
Qed.

Lemma targets_are_rules : map fst Gate.targets = RouteSpec.protected_rules.
Proof. reflexivity. Qed.

Lemma api_path_of path req : pathname req = "/api" +:+ path -> Nav.api_path req = path.
Proof. intros H. unfold Nav.api_path. rewrite H. destruct path; reflexivity. Qed.

(** X2.  The route table and the routing agree.  Each of the 21
    protected routes is paired with the handler the routing enters for
    it: on a request for [/api<path>] whose method and path the route
    accepts and whose auth check answers true, [api.handleRequest] is the
    run of that handler (never a public one) under the 500 catch-all,
    from the world the auth check leaves. *)
Theorem protected_routes_reach_their_handlers req (w : Nav.world Backend) r h path :
  In (r, h) Gate.targets ->
  method req = RouteSpec.rule_method r ->
  RouteSpec.accepts (RouteSpec.rule_path r) path ->
  pathname req = "/api" +:+ path ->
  fst (Nav.checkAuth fault req w) = Ret true ->
  In r RouteSpec.protected_rules
  /\ Gate.public_handler h = false
  /\ exists args,
      Nav.api_handleRequest bind_fault db_batch fault crud req w
      = Eff.try_catch (run h req args)
          (fun error =>
             Eff.ret (Nav.errorResponse ("Internal Server Error: " +:+ message error) 500))
          (snd (Nav.checkAuth fault req w)).
Proof.
  intros Hin Hm Hacc Hp Hauth.
  assert (Hr : In r RouteSpec.protected_rules).
  { rewrite <- targets_are_rules. apply (in_map fst) in Hin. exact Hin. }
  split; [exact Hr|]. split.
  { unfold Gate.targets in Hin.
    repeat (destruct Hin as [Heq | Hin]; [injection Heq as <- <-; reflexivity |]).
    destruct Hin. }
  assert (Hprot : Nav.isProtected (method req) path = true).
  { rewrite Hm. destruct r as [m p]. apply (protected_rule m p); assumption. }
  assert (Hd : exists args,
             dispatch (method req) path (Gate.last_segment (pathname req)) req
             = run h req args).
  { rewrite Hm, Hp. destruct r as [m [q | before after]]; cbn [RouteSpec.rule_method RouteSpec.rule_path RouteSpec.accepts] in *.
    - subst path. exists []. apply exact_target, Hin.
    - destruct Hacc as (ds & Hds & ->). apply numeric_target; assumption. }
  destruct Hd as (args & Hd). exists args.
  unfold Nav.api_handleRequest. cbv zeta.
  rewrite (api_path_of path req Hp), Hprot.
  unfold Eff.bind. destruct (Nav.checkAuth fault req w) as [o w1].
  cbn [fst snd] in *. subst o. cbn [negb].
  unfold Gate.last_segment in Hd. rewrite Hd. reflexivity.
Qed.
End TargetFacts.

(** ** Login, logout and the auth check together *)

Section ComposeFacts.
Context {Backend : Type}.
Variable fault : list Nav.event -> KV.call -> option string.
Variable randomUUID : list Nav.event -> string.

Local Abbreviation handleLogin := (Nav.handleLogin fault randomUUID).
Local Abbreviation handleLogout := (Nav.handleLogout fault).
Local Abbreviation checkAuth := (Nav.checkAuth fault).

(** What a login leaves in [NAV_AUTH]: nothing new, or the one session
    of the identifier drawn after the two reads. *)
Lemma handleLogin_store req (w : Nav.world Backend) :
  Nav.NAV_AUTH (snd (handleLogin req w)) = Nav.NAV_AUTH w
  \/ exists maxAge,
      (maxAge = 2592000%N \/ maxAge = 86400%N)
      /\ Nav.NAV_AUTH (snd (handleLogin req w)) =
         <[Nav.session_key (randomUUID (Nav.trace w ++ Trace.login_reads))
           := KV.Entry "valid" (Some maxAge)]> (Nav.NAV_AUTH w).
Proof.
  destruct (handleLogin req w) as [o w'] eqn:Hr. cbn [snd].
  unfold Nav.handleLogin, Eff.try_catch, Eff.bind at 1, Eff.request_json in Hr.
  destruct (json_body req) as [msg | v].
  { unfold Eff.throw, Eff.ret in Hr. injection Hr as <- <-. left; reflexivity. }
  unfold Eff.ret at 1 in Hr. unfold Eff.bind at 1, Eff.destructure in Hr.
  destruct (Value.destructurable v).
  2:{ unfold Eff.throw, Eff.ret in Hr. injection Hr as <- <-. left; reflexivity. }
  unfold Eff.ret at 1 in Hr. unfold Eff.bind at 1, Nav.auth_get at 1 in Hr.
  destruct (fault (Nav.trace w) (KV.Get "admin_username")) as [msg|].
  { unfold Eff.ret in Hr. injection Hr as <- <-. left; reflexivity. }
  unfold Eff.bind at 1, Nav.auth_get at 1 in Hr.
  cbn [Nav.trace Nav.NAV_AUTH Nav.backend] in Hr.
  destruct (fault _ (KV.Get "admin_password")) as [msg|].
  { unfold Eff.ret in Hr. injection Hr as <- <-. left; reflexivity. }
  destruct (Value.strict_eq _ _ && Value.strict_eq _ _).
  - unfold Eff.bind, Nav.random_uuid, Nav.auth_put, Eff.ret in Hr.
    cbn [Nav.trace Nav.NAV_AUTH Nav.backend] in Hr.
    destruct (fault _ (KV.Put _ _ _)) as [msg|].
    + injection Hr as <- <-. left; reflexivity.
    + injection Hr as <- <-. right. cbn [Nav.NAV_AUTH].
      rewrite <- app_assoc. cbn [app].
      eexists. split; [|reflexivity].
      destruct (Value.truthy _); [left | right]; reflexivity.
  - unfold Eff.ret in Hr. injection Hr as <- <-. left; reflexivity.
Qed.

Lemma handleLogout_store req (w : Nav.world Backend) :
  Nav.NAV_AUTH (snd (handleLogout req w)) = Nav.NAV_AUTH w
  \/ exists s,
      Trace.named_session req = Some s
      /\ Nav.NAV_AUTH (snd (handleLogout req w)) = delete (Nav.session_key s) (Nav.NAV_AUTH w).
Proof.
  pose proof (handleLogout_cases fault req w) as Hc.
  destruct (Trace.named_session req) as [s|]; [|left; rewrite Hc; reflexivity].
  cbv zeta in Hc. destruct (fault _ _); rewrite Hc; [left; reflexivity|].
  right. exists s. split; reflexivity.
Qed.

(** X3.  The cookie a login sets authenticates: after a served login
    with the configured credentials, a request whose Cookie header is the
    [sessionId=<id>] pair of the Set-Cookie header passes the auth
    check. *)
Theorem login_cookie_authenticates req (w : Nav.world Backend) v (u p : string) :
  json_body req = inr v ->
  Value.prop "username" v = Some (JStr u) ->
  Value.prop "password" v = Some (JStr p) ->
  KV.get "admin_username" (Nav.NAV_AUTH w) = Some u ->
  KV.get "admin_password" (Nav.NAV_AUTH w) = Some p ->
  (forall calls c, fault (Nav.trace w ++ calls) c = None) ->
  Session.uuid_shaped (randomUUID (Nav.trace w ++ Trace.login_reads)) ->
  exists resp sessionId maxAge,
    fst (handleLogin req w) = Ret resp
    /\ Http.headers_get "Set-Cookie" (resp_headers resp)
       = Some (("sessionId=" +:+ sessionId)
                 +:+ "; HttpOnly; Secure; Path=/; Max-Age=" +:+ JS.decimal maxAge)
    /\ forall req',
        Http.headers_get "Cookie" (headers req') = Some ("sessionId=" +:+ sessionId) ->
        fst (checkAuth req' (snd (handleLogin req w))) = Ret true.
Proof.
  intros Hbody Hu Hp Hsu Hsp Hserved Hshape.
  pose proof (handleLogin_served fault randomUUID req w v Hbody
                (prop_some_not_null _ _ _ Hu) Hserved) as H.
  rewrite Hu, Hp, Hsu, Hsp in H.
  replace (Value.strict_eq (Some (JStr u)) (Some u)) with true in H
    by (symmetry; apply strict_eq_string; reflexivity).
  replace (Value.strict_eq (Some (JStr p)) (Some p)) with true in H
    by (symmetry; apply strict_eq_string; reflexivity).
  cbn [andb] in H. cbv zeta in H. rewrite H. cbn [fst snd].
  eexists _, _, _. split; [reflexivity|]. split.
  - cbn [resp_headers]. unfold Nav.login_cookie. rewrite <- append_assoc. reflexivity.
  - intros req' Hc.
    match goal with |- fst (Nav.checkAuth fault req' ?w1) = _ =>
      pose proof (checkAuth_cases fault req' w1) as Hk end.
    rewrite Hc, (cookie_of_uuid _ Hshape) in Hk. cbv zeta in Hk.
    cbn [Nav.trace Nav.NAV_AUTH] in Hk. rewrite Hserved in Hk. rewrite Hk.
    cbn [fst]. unfold KV.get. rewrite lookup_insert_eq. reflexivity.
Qed.

(** X4.  Login and logout are local: a login leaves every key of
    [NAV_AUTH] other than the key of the identifier it draws as it was,
    and a logout leaves every key other than the key of the session its
    cookie names as it was.  So the secrets and all other sessions
    survive both. *)
Theorem session_operations_are_local :
  (forall req (w : Nav.world Backend) key,
      key <> Nav.session_key (randomUUID (Nav.trace w ++ Trace.login_reads)) ->
      Nav.NAV_AUTH (snd (handleLogin req w)) !! key = Nav.NAV_AUTH w !! key)
  /\ (forall req (w : Nav.world Backend) key,
         (forall s, Trace.named_session req = Some s -> key <> Nav.session_key s) ->
         Nav.NAV_AUTH (snd (handleLogout req w)) !! key = Nav.NAV_AUTH w !! key)
  /\ (forall req (w : Nav.world Backend) s t,
         Trace.named_session req = Some s -> t <> s ->
         KV.get (Nav.session_key t) (Nav.NAV_AUTH (snd (handleLogout req w)))
         = KV.get (Nav.session_key t) (Nav.NAV_AUTH w)).
Proof.
  assert (Hout : forall req (w : Nav.world Backend) key,
             (forall s, Trace.named_session req = Some s -> key <> Nav.session_key s) ->
             Nav.NAV_AUTH (snd (handleLogout req w)) !! key = Nav.NAV_AUTH w !! key).
  { intros req w key Hkey.
    destruct (handleLogout_store req w) as [-> | (s & Hn & ->)]; [reflexivity|].
    apply lookup_delete_ne. intros Heq. exact (Hkey s Hn (eq_sym Heq)). }
  split; [|split; [exact Hout|]].
  - intros req w key Hkey.
    destruct (handleLogin_store req w) as [-> | (maxAge & _ & ->)]; [reflexivity|].
    apply lookup_insert_ne. congruence.
  - intros req w s t Hn Hne. unfold KV.get. rewrite Hout; [reflexivity|].
    intros s' Hs' Heq. rewrite Hn in Hs'. injection Hs' as <-.
    apply Hne. apply (inj (String.append "session:")). exact Heq.
Qed.

(** X5.  On a deployment whose two secrets are not set, a login is
    accepted exactly when the body gives JSON null for both username and
    password; a body that leaves them out, or gives strings, is
    refused. *)
Theorem login_with_unset_secrets req (w : Nav.world Backend) v :
  json_body req = inr v ->
  v <> JNull ->
  KV.get "admin_username" (Nav.NAV_AUTH w) = None ->
  KV.get "admin_password" (Nav.NAV_AUTH w) = None ->
  (forall calls c, fault (Nav.trace w ++ calls) c = None) ->
  exists resp,
    fst (handleLogin req w) = Ret resp
    /\ (status resp = 200%N \/ status resp = 401%N)
    /\ (status resp = 200%N <->
        Value.prop "username" v = Some JNull /\ Value.prop "password" v = Some JNull)
    /\ (status resp = 200%N ->
        KV.get (Nav.session_key (randomUUID (Nav.trace w ++ Trace.login_reads)))
          (Nav.NAV_AUTH (snd (handleLogin req w))) = Some "valid").
Proof.
  intros Hbody Hv Hsu Hsp Hserved.
  pose proof (handleLogin_served fault randomUUID req w v Hbody Hv Hserved) as H.
  rewrite Hsu, Hsp in H.
  assert (Hnull : forall x, Value.strict_eq x None = true <-> x = Some JNull).
  { intros [[]|]; simpl; split; congruence. }
  destruct (Value.strict_eq (Value.prop "username" v) None) eqn:Eu;
    destruct (Value.strict_eq (Value.prop "password" v) None) eqn:Ep;
    cbn [andb] in H; cbv zeta in H; rewrite H; cbn [fst snd status];
    eexists; (split; [reflexivity|]).
  - split; [left; reflexivity|]. split.
    + split; [intros _; split; apply Hnull; assumption | reflexivity].
    + intros _. cbn [Nav.NAV_AUTH]. unfold KV.get. rewrite lookup_insert_eq. reflexivity.
  - split; [right; reflexivity|]. split; [|discriminate].
    split; [discriminate|]. intros [_ Hp]. apply Hnull in Hp. congruence.
  - split; [right; reflexivity|]. split; [|discriminate].
    split; [discriminate|]. intros [Hu _]. apply Hnull in Hu. congruence.
  - split; [right; reflexivity|]. split; [|discriminate].
    split; [discriminate|]. intros [Hu _]. apply Hnull in Hu. congruence.
Qed.

(** X6.  Logout is idempotent: after a served logout, a second logout
    with the same cookie answers the same and leaves [NAV_AUTH] as the
    first left it. *)
Theorem handleLogout_twice req (w : Nav.world Backend) :
  (forall calls c, fault (Nav.trace w ++ calls) c = None) ->
  let w1 := snd (handleLogout req w) in
  fst (handleLogout req w) = Ret Trace.logged_out
  /\ fst (handleLogout req w1) = Ret Trace.logged_out
  /\ Nav.NAV_AUTH (snd (handleLogout req w1)) = Nav.NAV_AUTH w1.
Proof.
  intros Hserved w1. subst w1.
  assert (F0 : forall c, fault (Nav.trace w) c = None).
  { intros c. rewrite <- (app_nil_r (Nav.trace w)). apply Hserved. }
  pose proof (handleLogout_cases fault req w) as Hc.
  destruct (Trace.named_session req) as [s|] eqn:Hn.
  - cbv zeta in Hc. rewrite F0 in Hc. rewrite Hc. cbn [fst snd].
    match goal with |- _ /\ fst (Nav.handleLogout fault req ?w1) = _ /\ _ =>
      pose proof (handleLogout_cases fault req w1) as Hk end.
    rewrite Hn in Hk. cbv zeta in Hk. cbn [Nav.trace Nav.NAV_AUTH] in Hk.
    rewrite Hserved in Hk. rewrite Hk. cbn [fst snd Nav.NAV_AUTH].
    repeat split. apply delete_id. apply lookup_delete_eq.
  - rewrite Hc. cbn [fst snd].
    pose proof (handleLogout_cases fault req w) as Hk. rewrite Hn in Hk.
    rewrite Hk. repeat split.
Qed.


Lemma checkAuth_true_valid req (w : Nav.world Backend) :
  fst (checkAuth req w) = Ret true ->
  exists s,
    Trace.named_session req = Some s
    /\ KV.get (Nav.session_key s) (Nav.NAV_AUTH w) = Some "valid".
Proof.
  intros Ht. pose proof (checkAuth_cases fault req w) as Hc.
  unfold Trace.named_session.
  destruct (Http.headers_get "Cookie" (headers req)) as [h|];
    [|rewrite Hc in Ht; discriminate Ht].
  destruct (Nav.cookie_sessionId h) as [s|]; [|rewrite Hc in Ht; discriminate Ht].
  cbv zeta in Hc. destruct (fault _ _); rewrite Hc in Ht; [discriminate Ht|].
  cbn [fst] in Ht. injection Ht as Ht. apply bool_decide_eq_true in Ht.
  exists s. split; [reflexivity | exact Ht].
Qed.

Variable handleStatic : request -> response.
Variable renderAdminPage renderLoginPage : response.

(** X7.  The admin page is behind the session: whatever the method, a
    request for [/admin] is answered with the admin page only when its
    cookie names a session the store holds as valid, and with the login
    page otherwise; neither answer changes [NAV_AUTH]. *)
Theorem admin_page_needs_a_session req (w : Nav.world Backend) :
  pathname req = "/admin" ->
  let r := Nav.admin_handleRequest fault randomUUID handleStatic
             renderAdminPage renderLoginPage req w in
  (fst r = Ret renderAdminPage \/ fst r = Ret renderLoginPage)
  /\ (fst r = Ret renderAdminPage -> renderAdminPage <> renderLoginPage ->
      exists s,
        Trace.named_session req = Some s
        /\ KV.get (Nav.session_key s) (Nav.NAV_AUTH w) = Some "valid")
  /\ (fst (checkAuth req w) = Ret true -> fst r = Ret renderAdminPage)
  /\ Nav.NAV_AUTH (snd r) = Nav.NAV_AUTH w.
Proof.
  intros Hp r. subst r. unfold Nav.admin_handleRequest. cbv zeta. rewrite Hp.
  replace (String.prefix "/static" "/admin") with false by (vm_compute; reflexivity).
  cbn [String.eqb Ascii.eqb Bool.eqb andb].
  unfold Eff.bind.
  pose proof (checkAuth_true_valid req w) as Hvalid.
  pose proof (keeps_checkAuth fault req w) as Hkeep.
  destruct (checkAuth_answers fault req w) as (b & Hb).
  destruct (Nav.checkAuth fault req w) as [o w1]. cbn [fst snd] in *. subst o.
  destruct b; cbn [fst snd].
  - refine (conj (or_introl eq_refl) (conj _ (conj (fun _ => eq_refl) Hkeep))).
    intros _ _. apply Hvalid. reflexivity.
  - refine (conj (or_intror eq_refl) (conj _ (conj _ Hkeep))).
    + intros Heq Hne. injection Heq as Heq. congruence.
    + discriminate.
Qed.

End ComposeFacts.

(** ** Sessions and their expiry *)

Section ExpiryFacts.

Context {Backend : Type}.
Variable bind_fault : json -> option string.
Variable db_batch : list Nav.statement -> Backend -> string + Backend.
Variable fault : list Nav.event -> KV.call -> option string.
Variable randomUUID : list Nav.event -> string.
Variable crud : Nav.handler -> request -> list string -> Backend -> outcome response * Backend.
Variable handleStatic : request -> response.
Variable renderAdminPage renderLoginPage : response.
Variable publicPage : request -> Backend -> outcome response * Backend.

Local Abbreviation serve :=
  (Session.serve bind_fault db_batch fault randomUUID crud handleStatic
     renderAdminPage renderLoginPage publicPage).
Local Abbreviation step :=
  (Session.step bind_fault db_batch fault randomUUID crud handleStatic
     renderAdminPage renderLoginPage publicPage).
Local Abbreviation reachable :=
  (Session.reachable bind_fault db_batch fault randomUUID crud handleStatic
     renderAdminPage renderLoginPage publicPage).

(** What a request leaves in [NAV_AUTH]: what was there, with one
    session of one of the two lifetimes added, or with one key removed. *)
Lemma serve_store_effect req (w : Nav.world Backend) :
  Nav.NAV_AUTH (snd (serve req w)) = Nav.NAV_AUTH w
  \/ (exists sessionId maxAge,
        (maxAge = 2592000%N \/ maxAge = 86400%N)
        /\ Nav.NAV_AUTH (snd (serve req w)) =
           <[Nav.session_key sessionId := KV.Entry "valid" (Some maxAge)]> (Nav.NAV_AUTH w))
  \/ (exists key, Nav.NAV_AUTH (snd (serve req w)) = delete key (Nav.NAV_AUTH w)).
Proof.
  unfold Session.serve, Nav.fetch.
  destruct (String.prefix "/api" (pathname req)).
  { left. apply keeps_api_handleRequest. }
  destruct (_ || _).
  2:{ left. apply keeps_on_backend. }
  unfold Nav.admin_handleRequest. cbv zeta.
  destruct (String.prefix "/static" (pathname req)); [left; reflexivity|].
  destruct (_ && _).
  { destruct (handleLogin_store fault randomUUID req w) as [H | (maxAge & Hm & H)].
    - left. exact H.
    - right; left. eexists _, maxAge. split; [exact Hm | exact H]. }
  destruct (_ && _).
  { destruct (handleLogout_store fault req w) as [H | (s & _ & H)].
    - left. exact H.
    - right; right. eexists. exact H. }
  destruct (String.eqb _ _); [|left; reflexivity].
  left. apply keeps_bind; [apply keeps_checkAuth|].
  intros b. destruct b; apply keeps_ret.
Qed.

Lemma step_expiring a (w : Nav.world Backend) :
  Session.expiring w -> Session.expiring (step a w).
Proof.
  intros Hwf s e Hlook. destruct a as [req | key]; cbn [Session.step] in Hlook.
  - destruct (serve_store_effect req w)
      as [Hsame | [(sid & maxAge & Hm & Hstore) | (key & Hstore)]].
    + rewrite Hsame in Hlook. exact (Hwf s e Hlook).
    + rewrite Hstore in Hlook.
      destruct (decide (Nav.session_key sid = Nav.session_key s)) as [Heq | Hne].
      * rewrite Heq, lookup_insert_eq in Hlook. injection Hlook as <-.
        split; [reflexivity|]. cbn [KV.expirationTtl].
        destruct Hm as [-> | ->]; [right | left]; reflexivity.
      * rewrite lookup_insert_ne in Hlook by exact Hne. exact (Hwf s e Hlook).
    + rewrite Hstore in Hlook. apply lookup_delete_Some in Hlook.
      exact (Hwf s e (proj2 Hlook)).
  - destruct (expire_effect key w) as [Hsame | Hdel].
    + rewrite Hsame in Hlook. exact (Hwf s e Hlook).
    + rewrite Hdel in Hlook. apply lookup_delete_Some in Hlook.
      exact (Hwf s e (proj2 Hlook)).
Qed.

(** X8.  No session without an expiry: in every world the worker can
    reach from one without sessions, each session entry holds ["valid"]
    with a time to live of 86400 or 2592000 seconds, so the store's expiry
    of its key ends it. *)
Theorem sessions_always_expire (w : Nav.world Backend) :
  reachable w ->
  Session.expiring w
  /\ forall s,
      Session.state_of (Nav.NAV_AUTH w) s = Some Session.Valid ->
      Session.state_of (Nav.NAV_AUTH (Nav.expire (Nav.session_key s) w)) s
      = Some Session.Absent.
Proof.
  intros Hreach.
  assert (Hexp : Session.expiring w).
  { induction Hreach as [w Hfresh | a w _ IH].
    - intros s e Hlook. rewrite (Hfresh s) in Hlook. discriminate Hlook.
    - apply step_expiring, IH. }
  split; [exact Hexp|].
  intros s Hvalid. apply state_of_valid in Hvalid. unfold KV.get in Hvalid.
  destruct (Nav.NAV_AUTH w !! Nav.session_key s) as [e|] eqn:He; [|discriminate].
  destruct (Hexp s e He) as (_ & Httl).
  apply state_of_absent. unfold Nav.expire. rewrite He.
  destruct e as [val [ttl|]]; cbn [KV.expirationTtl] in Httl.
  - cbn [Nav.NAV_AUTH]. apply lookup_delete_eq.
  - destruct Httl; discriminate.
Qed.

End ExpiryFacts.

(** ** The notes worker: what is stored comes back *)

Section NotesStoreFacts.

Variable BB : option string.
Variable HTML_CONTENT : string.
Variable JSON_stringify : option json -> string.
Variable Number_toString : Z -> string.
Variable fault : list Notes.event -> KV.call -> option string.

Local Abbreviation fetch :=
  (Notes.fetch BB HTML_CONTENT JSON_stringify Number_toString fault).

(** A served [/api/saveNotes] for a [userId] that is a string. *)
Lemma saveNotes_served r (w : Notes.world) v (u : string) :
  pathname r = "/api/saveNotes" -> method r = "POST" ->
  json_body r = inr v ->
  Value.prop "userId" v = Some (JStr u) ->
  fault (Notes.trace w) (KV.Put u (JSON_stringify (Value.prop "notes" v)) None) = None ->
  fetch r w =
  (Ret (Response 200 [] (Json (JObj [("success", JBool true)]))),
   Notes.World
     (<[u := KV.Entry (JSON_stringify (Value.prop "notes" v)) None]> (Notes.AA w))
     (Notes.trace w ++
        [Notes.Store (KV.Put u (JSON_stringify (Value.prop "notes" v)) None)])).
Proof.
  intros Hp Hm Hb Hu Hf.
  rewrite (saveNotes_runs HTML_CONTENT JSON_stringify Number_toString fault BB r w v
             Hp Hm Hb (prop_some_not_null _ _ _ Hu)), Hu.
  apply put_served. exact Hf.
Qed.

(** A served [/api/saveStyles] for a [userId] and a [type] that are
    strings. *)
Lemma saveStyles_served r (w : Notes.world) v (u t : string) :
  pathname r = "/api/saveStyles" -> method r = "POST" ->
  json_body r = inr v ->
  Value.prop "userId" v = Some (JStr u) ->
  Value.prop "type" v = Some (JStr t) ->
  fault (Notes.trace w)
    (KV.Put (u +:+ "_" +:+ t) (JSON_stringify (Value.prop "styles" v)) None) = None ->
  fetch r w =
  (Ret (Response 200 [] (Json (JObj [("success", JBool true)]))),
   Notes.World
     (<[u +:+ "_" +:+ t := KV.Entry (JSON_stringify (Value.prop "styles" v)) None]>
        (Notes.AA w))
     (Notes.trace w ++
        [Notes.Store (KV.Put (u +:+ "_" +:+ t)
                        (JSON_stringify (Value.prop "styles" v)) None)])).
Proof.
  intros Hp Hm Hb Hu Ht Hf.
  rewrite (saveStyles_runs HTML_CONTENT JSON_stringify Number_toString fault BB r w v
             Hp Hm Hb (prop_some_not_null _ _ _ Hu)), Hu, Ht.
  apply put_served. exact Hf.
Qed.

(** A served read: the text stored under the key if there is one and
    it is not empty, else the fallback. *)
Lemma getNotes_served r (w : Notes.world) key :
  pathname r = "/api/getNotes" ->
  Http.params_get "userId" (searchParams r) = Some key ->
  fault (Notes.trace w) (KV.Get key) = None ->
  fetch r w =
  (Ret (Response 200 []
          match KV.value <$> (Notes.AA w !! key) with
          | Some (String c text) => Text (String c text)
          | _ => Json (JArr [])
          end),
   Notes.World (Notes.AA w) (Notes.trace w ++ [Notes.Store (KV.Get key)])).
Proof.
  intros Hp Hu Hf. unfold Notes.fetch. cbv zeta. rewrite Hp, Hu.
  cbn [String.eqb Ascii.eqb Bool.eqb orb andb Value.or_null default].
  unfold id, Eff.bind, Notes.aa_get, Eff.ret. rewrite Hf. reflexivity.
Qed.

Lemma getStyles_served r (w : Notes.world) u t :
  pathname r = "/api/getStyles" ->
  Http.params_get "userId" (searchParams r) = Some u ->
  Http.params_get "type" (searchParams r) = Some t ->
  fault (Notes.trace w) (KV.Get (u +:+ "_" +:+ t)) = None ->
  fetch r w =
  (Ret (Response 200 []
          match KV.value <$> (Notes.AA w !! (u +:+ "_" +:+ t)) with
          | Some (String c text) => Text (String c text)
          | _ => Json (JObj [])
          end),
   Notes.World (Notes.AA w) (Notes.trace w ++ [Notes.Store (KV.Get (u +:+ "_" +:+ t))])).
Proof.
  intros Hp Hu Ht Hf. unfold Notes.fetch. cbv zeta. rewrite Hp, Hu, Ht.
  cbn [String.eqb Ascii.eqb Bool.eqb orb andb Value.or_null default].
  unfold id, Eff.bind, Notes.aa_get, Eff.ret. rewrite Hf. reflexivity.
Qed.

(** X9.  Notes come back.  A served [/api/saveNotes] with the string
    [u] as [userId] answers [{"success":true}] and stores the JSON text
    of the notes under the key [u]; [/api/getNotes?userId=u] then
    answers 200 with that very text as its body (with [[]] if the text
    is empty); and the entry of every other key is as it was. *)
Theorem saved_notes_come_back save get (w : Notes.world) v (u : string) :
  pathname save = "/api/saveNotes" -> method save = "POST" ->
  json_body save = inr v ->
  Value.prop "userId" v = Some (JStr u) ->
  pathname get = "/api/getNotes" ->
  Http.params_get "userId" (searchParams get) = Some u ->
  (forall calls c, fault (Notes.trace w ++ calls) c = None) ->
  let text := JSON_stringify (Value.prop "notes" v) in
  let w1 := snd (fetch save w) in
  fst (fetch save w) = Ret (Response 200 [] (Json (JObj [("success", JBool true)])))
  /\ Notes.AA w1 !! u = Some (KV.Entry text None)
  /\ (text <> EmptyString -> fst (fetch get w1) = Ret (Response 200 [] (Text text)))
  /\ (text = EmptyString -> fst (fetch get w1) = Ret (Response 200 [] (Json (JArr []))))
  /\ forall key, key <> u -> Notes.AA w1 !! key = Notes.AA w !! key.
Proof.
  intros Hp Hm Hb Hu Hgp Hgu Hserved text w1. subst w1.
  assert (F0 : forall c, fault (Notes.trace w) c = None).
  { intros c. rewrite <- (app_nil_r (Notes.trace w)). apply Hserved. }
  rewrite (saveNotes_served save w v u Hp Hm Hb Hu (F0 _)). fold text.
  cbn [fst snd Notes.AA].
  rewrite (getNotes_served get _ u Hgp Hgu) by (cbn [Notes.trace]; apply Hserved).
  cbn [fst Notes.AA]. rewrite lookup_insert_eq. cbn [fmap option_fmap option_map KV.value].
  refine (conj eq_refl (conj eq_refl (conj _ (conj _ _)))).
  - intros Hne. destruct text; [congruence | reflexivity].
  - intros ->. reflexivity.
  - intros key Hne. apply lookup_insert_ne. congruence.
Qed.

(** X10.  Styles come back.  A served [/api/saveStyles] with the
    strings [u] and [t] as [userId] and [type] answers
    [{"success":true}] and stores the JSON text of the styles under the
    key [u_t]; [/api/getStyles?userId=u&type=t] then answers 200 with
    that very text as its body (with [{}] if the text is empty); and the
    entry of every other key is as it was. *)
Theorem saved_styles_come_back save get (w : Notes.world) v (u t : string) :
  pathname save = "/api/saveStyles" -> method save = "POST" ->
  json_body save = inr v ->
  Value.prop "userId" v = Some (JStr u) ->
  Value.prop "type" v = Some (JStr t) ->
  pathname get = "/api/getStyles" ->
  Http.params_get "userId" (searchParams get) = Some u ->
  Http.params_get "type" (searchParams get) = Some t ->
  (forall calls c, fault (Notes.trace w ++ calls) c = None) ->
  let text := JSON_stringify (Value.prop "styles" v) in
  let w1 := snd (fetch save w) in
  fst (fetch save w) = Ret (Response 200 [] (Json (JObj [("success", JBool true)])))
  /\ Notes.AA w1 !! (u +:+ "_" +:+ t) = Some (KV.Entry text None)
  /\ (text <> EmptyString -> fst (fetch get w1) = Ret (Response 200 [] (Text text)))
  /\ (text = EmptyString -> fst (fetch get w1) = Ret (Response 200 [] (Json (JObj []))))
  /\ forall key, key <> u +:+ "_" +:+ t -> Notes.AA w1 !! key = Notes.AA w !! key.
Proof.
  intros Hp Hm Hb Hu Ht Hgp Hgu Hgt Hserved text w1. subst w1.
  assert (F0 : forall c, fault (Notes.trace w) c = None).
  { intros c. rewrite <- (app_nil_r (Notes.trace w)). apply Hserved. }
  rewrite (saveStyles_served save w v u t Hp Hm Hb Hu Ht (F0 _)). fold text.
  cbn [fst snd Notes.AA].
  rewrite (getStyles_served get _ u t Hgp Hgu Hgt) by (cbn [Notes.trace]; apply Hserved).
  cbn [fst Notes.AA]. rewrite lookup_insert_eq. cbn [fmap option_fmap option_map KV.value].
  refine (conj eq_refl (conj eq_refl (conj _ (conj _ _)))).
  - intros Hne. destruct text; [congruence | reflexivity].
  - intros ->. reflexivity.
  - intros key Hne. apply lookup_insert_ne. congruence.
Qed.

(** X11.  Notes and styles share one key space.  The styles saved for
    the user [u] and the type [t] are stored under the key [u_t], the
    key of the notes of a user named [u_t]: [/api/getNotes?userId=u_t]
    then answers 200 with the text of those styles as its body, in place
    of whatever notes that user had. *)
Theorem styles_overwrite_notes save get (w : Notes.world) v (u t : string) :
  pathname save = "/api/saveStyles" -> method save = "POST" ->
  json_body save = inr v ->
  Value.prop "userId" v = Some (JStr u) ->
  Value.prop "type" v = Some (JStr t) ->
  pathname get = "/api/getNotes" ->
  Http.params_get "userId" (searchParams get) = Some (u +:+ "_" +:+ t) ->
  (forall calls c, fault (Notes.trace w ++ calls) c = None) ->
  let text := JSON_stringify (Value.prop "styles" v) in
  let w1 := snd (fetch save w) in
  Notes.AA w1 !! (u +:+ "_" +:+ t) = Some (KV.Entry text None)
  /\ (text <> EmptyString -> fst (fetch get w1) = Ret (Response 200 [] (Text text)))
  /\ (text = EmptyString -> fst (fetch get w1) = Ret (Response 200 [] (Json (JArr [])))).
Proof.
  intros Hp Hm Hb Hu Ht Hgp Hgu Hserved text w1. subst w1.
  assert (F0 : forall c, fault (Notes.trace w) c = None).
  { intros c. rewrite <- (app_nil_r (Notes.trace w)). apply Hserved. }
  rewrite (saveStyles_served save w v u t Hp Hm Hb Hu Ht (F0 _)). fold text.
  cbn [fst snd Notes.AA].
  rewrite (getNotes_served get _ _ Hgp Hgu) by (cbn [Notes.trace]; apply Hserved).
  cbn [fst Notes.AA]. rewrite lookup_insert_eq. cbn [fmap option_fmap option_map KV.value].
  refine (conj eq_refl (conj _ _)).
  - intros Hne. destruct text; [congruence | reflexivity].
  - intros ->. reflexivity.
Qed.

End NotesStoreFacts.

(** ** The notes worker: what can go wrong *)

Section NotesEdgeFacts.

Variable BB : option string.
Variable HTML_CONTENT : string.
Variable JSON_stringify : option json -> string.
Variable Number_toString : Z -> string.
Variable fault : list Notes.event -> KV.call -> option string.

Local Abbreviation fetch :=
  (Notes.fetch BB HTML_CONTENT JSON_stringify Number_toString fault).

(** What one request does to the store: nothing, or one entry written
    by a POST to one of the two saving endpoints. *)
Lemma fetch_store_effect r (w : Notes.world) :
  Notes.AA (snd (fetch r w)) = Notes.AA w
  \/ exists key text,
       Notes.AA (snd (fetch r w)) = <[key := KV.Entry text None]> (Notes.AA w)
       /\ fst (fetch r w) = Ret Notes.success
       /\ method r = "POST"
       /\ (pathname r = "/api/saveNotes" \/ pathname r = "/api/saveStyles").
Proof.
  assert (Hread : forall key (k : option string -> Eff.M Notes.world response),
    (forall o w', Notes.AA (snd (k o w')) = Notes.AA w') ->
    Notes.AA (snd (Eff.bind (Notes.aa_get fault key) k w)) = Notes.AA w).
  { intros key k Hk. unfold Eff.bind, Notes.aa_get.
    destruct (fault _ _); [reflexivity|]. rewrite Hk. reflexivity. }
  assert (Hbody : forall (k : json -> Eff.M Notes.world response),
    (forall v, json_body r = inr v -> v <> JNull -> snd (k v w) = w) ->
    snd (Eff.bind (Eff.request_json r) (fun v => Eff.bind (Eff.destructure v) k) w) = w).
  { intros k Hk. unfold Eff.bind at 1, Eff.request_json.
    destruct (json_body r) as [msg|v]; [reflexivity|].
    unfold Eff.ret at 1. unfold Eff.bind, Eff.destructure.
    destruct v; try (apply Hk; [reflexivity|discriminate]). reflexivity. }
  assert (Hsave : forall (key text : json -> string),
    method r = "POST" ->
    pathname r = "/api/saveNotes" \/ pathname r = "/api/saveStyles" ->
    let m := Eff.bind (Eff.request_json r) (fun v => Eff.bind (Eff.destructure v)
               (fun v => Eff.bind (Notes.aa_put fault (key v) (text v))
                           (fun _ => Eff.ret Notes.success))) in
    Notes.AA (snd (m w)) = Notes.AA w
    \/ exists key text,
         Notes.AA (snd (m w)) = <[key := KV.Entry text None]> (Notes.AA w)
         /\ fst (m w) = Ret Notes.success
         /\ method r = "POST"
         /\ (pathname r = "/api/saveNotes" \/ pathname r = "/api/saveStyles")).
  { intros key text Hm Hp m. destruct (m w) as [o w1] eqn:Hr. cbn [fst snd].
    subst m. unfold Eff.bind at 1, Eff.request_json in Hr.
    destruct (json_body r) as [msg|v]; [inversion Hr; left; reflexivity|].
    unfold Eff.ret at 1 in Hr. unfold Eff.bind at 1, Eff.destructure in Hr.
    destruct (Value.destructurable v); [|inversion Hr; left; reflexivity].
    unfold Eff.ret at 1 in Hr. unfold Eff.bind, Notes.aa_put in Hr.
    destruct (fault _ _); [inversion Hr; left; reflexivity|].
    unfold Eff.ret, KV.put in Hr. inversion Hr.
    right. exists (key v), (text v). cbn [Notes.AA]. auto. }
  unfold Notes.fetch. cbv zeta.
  destruct (String.eqb (pathname r) "/" || String.eqb (pathname r) "/admin");
    [left; reflexivity|].
  destruct (String.eqb (pathname r) "/api/getNotes");
    [left; apply Hread; reflexivity|].
  destruct (String.eqb (pathname r) "/api/saveNotes" && String.eqb (method r) "POST") eqn:E1.
  { apply andb_true_iff in E1 as [E1 Em]. apply String.eqb_eq in E1, Em.
    apply (Hsave (fun v => Value.to_string Number_toString (Value.prop "userId" v))
                 (fun v => JSON_stringify (Value.prop "notes" v))); auto. }
  destruct (String.eqb (pathname r) "/api/verifyPassword" && String.eqb (method r) "POST").
  { left. f_equal. apply Hbody. reflexivity. }
  destruct (String.eqb (pathname r) "/api/getStyles");
    [left; apply Hread; reflexivity|].
  destruct (String.eqb (pathname r) "/api/saveStyles" && String.eqb (method r) "POST") eqn:E2.
  { apply andb_true_iff in E2 as [E2 Em]. apply String.eqb_eq in E2, Em.
    apply (Hsave (fun v => Value.to_string Number_toString (Value.prop "userId" v) +:+ "_"
                             +:+ Value.to_string Number_toString (Value.prop "type" v))
                 (fun v => JSON_stringify (Value.prop "styles" v))); auto. }
  left. reflexivity.
Qed.

(** X12.  The notes store only grows: whatever the request, a key that
    holds a value holds one afterwards, and the store differs from what
    it was only after a POST to [/api/saveNotes] or [/api/saveStyles]
    that answered with success. *)
Theorem notes_store_only_grows r (w : Notes.world) :
  (forall key, is_Some (Notes.AA w !! key) ->
               is_Some (Notes.AA (snd (fetch r w)) !! key))
  /\ (Notes.AA (snd (fetch r w)) <> Notes.AA w ->
      method r = "POST"
      /\ (pathname r = "/api/saveNotes" \/ pathname r = "/api/saveStyles")
      /\ fst (fetch r w) = Ret Notes.success).
Proof.
  destruct (fetch_store_effect r w) as [Hs | (key & text & Hs & Hr & Hm & Hp)].
  - split; [intros key; rewrite Hs; trivial | intros Hne; contradiction].
  - split; [|intros _; auto].
    intros k Hk. rewrite Hs.
    destruct (decide (key = k)) as [->|Hne].
    + rewrite lookup_insert_eq. eauto.
    + rewrite lookup_insert_ne by exact Hne. exact Hk.
Qed.

(** X13.  With the secret [env.BB] not bound, [/api/verifyPassword]
    accepts exactly the bodies that carry no [password] member, and it
    never touches the store. *)
Theorem verifyPassword_without_secret r (w : Notes.world) v :
  BB = None ->
  pathname r = "/api/verifyPassword" -> method r = "POST" ->
  json_body r = inr v -> v <> JNull ->
  snd (fetch r w) = w
  /\ exists valid : bool,
       fst (fetch r w)
       = Ret (Response (if valid then 200 else 403) Http.json_headers
                (Json (JObj [("valid", JBool valid)])))
       /\ (valid = true <-> Value.prop "password" v = None).
Proof.
  intros HB Hp Hm Hb Hv.
  assert (E : fetch r w
    = (Ret (Response (if Notes.password_matches BB (Value.prop "password" v)
                      then 200 else 403) Http.json_headers
              (Json (JObj [("valid",
                 JBool (Notes.password_matches BB (Value.prop "password" v)))]))), w)).
  { unfold Notes.fetch. cbv zeta. rewrite Hp, Hm.
    cbn [String.eqb Ascii.eqb Bool.eqb orb andb].
    unfold Eff.bind at 1, Eff.request_json. rewrite Hb.
    unfold Eff.ret at 1. unfold Eff.bind at 1. rewrite (destructure_ok _ v w Hv).
    reflexivity. }
  rewrite E. cbn [fst snd]. split; [reflexivity|].
  eexists. split; [reflexivity|].
  unfold Notes.password_matches. rewrite HB.
  destruct (Value.prop "password" v) as [p|]; [destruct p|]; split; congruence.
Qed.

(** X14.  Nothing is caught.  On the three endpoints that read a body,
    a body that is not JSON leaves [fetch] as the parser's error and a
    [null] body as a thrown error, in both cases before any store call;
    on the four storage endpoints a refused store call leaves [fetch] as
    a thrown error too, the store being as it was. *)
Theorem notes_errors_escape r (w : Notes.world) :
  (method r = "POST" ->
   pathname r = "/api/saveNotes" \/ pathname r = "/api/verifyPassword"
     \/ pathname r = "/api/saveStyles" ->
   (forall msg, json_body r = inl msg -> fetch r w = (Throw (Error msg), w))
   /\ (json_body r = inr JNull -> exists e, fetch r w = (Throw e, w)))
  /\ ((forall c, fault (Notes.trace w) c <> None) ->
      pathname r = "/api/getNotes" \/ pathname r = "/api/getStyles"
        \/ (method r = "POST"
            /\ (pathname r = "/api/saveNotes" \/ pathname r = "/api/saveStyles")
            /\ exists v, json_body r = inr v /\ v <> JNull) ->
      exists e, fst (fetch r w) = Throw e
                /\ Notes.AA (snd (fetch r w)) = Notes.AA w).
Proof.
  split.
  - intros Hm Hp. unfold Notes.fetch. cbv zeta. rewrite Hm.
    destruct Hp as [Hp | [Hp | Hp]]; rewrite Hp;
      cbn [String.eqb Ascii.eqb Bool.eqb orb andb];
      unfold Eff.bind at 1, Eff.request_json;
      (split; [intros msg Hb | intros Hb]); rewrite Hb;
      try reflexivity; eexists; reflexivity.
  - intros Hf Hp. destruct (fetch r w) as [o w1] eqn:Hr. cbn [fst snd].
    unfold Notes.fetch in Hr. cbv zeta in Hr.
    destruct Hp as [Hp | [Hp | (Hm & Hp & v & Hb & Hv)]].
    + rewrite Hp in Hr. cbn [String.eqb Ascii.eqb Bool.eqb orb andb] in Hr.
      unfold Eff.bind, Notes.aa_get in Hr.
      destruct (fault (Notes.trace w) _) eqn:E; [|elim (Hf _ E)].
      inversion Hr. eexists. split; reflexivity.
    + rewrite Hp in Hr. cbn [String.eqb Ascii.eqb Bool.eqb orb andb] in Hr.
      unfold Eff.bind, Notes.aa_get in Hr.
      destruct (String.eqb (method r) "POST");
      (destruct (fault (Notes.trace w) _) eqn:E; [|elim (Hf _ E)]);
      inversion Hr; eexists; split; reflexivity.
    + rewrite Hm in Hr. destruct Hp as [Hp | Hp]; rewrite Hp in Hr;
      cbn [String.eqb Ascii.eqb Bool.eqb orb andb] in Hr;
      unfold Eff.bind at 1, Eff.request_json in Hr; rewrite Hb in Hr;
      unfold Eff.ret at 1 in Hr; unfold Eff.bind at 1 in Hr;
      rewrite (destructure_ok _ v w Hv) in Hr;
      unfold Eff.bind, Notes.aa_put in Hr;
      (destruct (fault (Notes.trace w) _) eqn:E; [|elim (Hf _ E)]);
      inversion Hr; eexists; split; reflexivity.
Qed.

End NotesEdgeFacts.

(** ** Methods the API does not route *)

Section MethodFacts.

Context {Backend : Type}.
Variable bind_fault : json -> option string.
Variable db_batch : list Nav.statement -> Backend -> string + Backend.
Variable fault : list Nav.event -> KV.call -> option string.
Variable crud : Nav.handler -> request -> list string -> Backend -> outcome response * Backend.

(** No protected route is written for a method other than the four. *)
Lemma protected_methods method path :
  Nav.isProtected method path = true ->
  method = "GET" \/ method = "POST" \/ method = "PUT" \/ method = "DELETE".
Proof.
  intros H. apply isProtected_spec in H. destruct H as (r & Hin & Hm & _).
  rewrite <- Hm. clear Hm.
  unfold RouteSpec.protected_rules in Hin. cbn [In] in Hin.
  repeat (destruct Hin as [<- | Hin]; [cbn [RouteSpec.rule_method]; tauto|]).
  contradiction.
Qed.

(** X18.  Only GET, POST, PUT and DELETE reach the API's handlers: a
    request to [/api...] with any other method (HEAD, OPTIONS, PATCH, ...)
    is answered 405 or 404 without an auth check and without a call on
    any store, and 405 on [/settings], [/catalogs] and [/config]. *)
Theorem other_methods_are_refused req (w : Nav.world Backend) :
  method req <> "GET" -> method req <> "POST" ->
  method req <> "PUT" -> method req <> "DELETE" ->
  exists resp,
    Nav.api_handleRequest bind_fault db_batch fault crud req w = (Ret resp, w)
    /\ (resp = Nav.errorResponse "Method Not Allowed" 405
        \/ resp = Nav.errorResponse "Not Found" 404)
    /\ (Nav.api_path req = "/settings" \/ Nav.api_path req = "/catalogs"
          \/ Nav.api_path req = "/config" ->
        resp = Nav.errorResponse "Method Not Allowed" 405).
Proof.
  intros Hg Hpo Hpu Hd.
  assert (Hprot : Nav.isProtected (method req) (Nav.api_path req) = false).
  { destruct (Nav.isProtected _ _) eqn:E; [|reflexivity].
    apply protected_methods in E. tauto. }
  apply String.eqb_neq in Hg, Hpo, Hpu, Hd.
  unfold Nav.api_handleRequest. cbv zeta. rewrite Hprot.
  unfold Eff.bind at 1. unfold Eff.ret at 1. cbn [negb].
  unfold Nav.dispatch, Nav.method_not_allowed. cbv zeta.
  rewrite Hg, Hpo, Hpu, Hd. rewrite ?andb_false_r.
  unfold Eff.try_catch.
  destruct (String.eqb (Nav.api_path req) "/settings") eqn:E1.
  { eexists. split; [reflexivity|]. split; [left; reflexivity|reflexivity]. }
  destruct (String.eqb (Nav.api_path req) "/catalogs") eqn:E2.
  { eexists. split; [reflexivity|]. split; [left; reflexivity|reflexivity]. }
  destruct (String.eqb (Nav.api_path req) "/config") eqn:E3.
  { eexists. split; [reflexivity|]. split; [left; reflexivity|reflexivity]. }
  apply String.eqb_neq in E1, E2, E3.
  repeat match goal with
         | |- context [if ?c then _ else _] => destruct c
         end;
    eexists; (split; [reflexivity|]); (split; [auto|tauto]).
Qed.

End MethodFacts.

(** ** The settings handlers *)

Section SettingsFacts.

Context {DB : Type}.
Variable get_fault : list Settings.call -> string -> option string.
Variable put_outcome : list Settings.call -> string -> json -> Settings.put_result.
Variable first_rejection : list string -> string.

Local Abbreviation getSettings := (Settings.getSettings (DB:=DB) get_fault).
Local Abbreviation updateSettings := (Settings.updateSettings (DB:=DB) put_outcome first_rejection).
Local Abbreviation issue := (Settings.issue (DB:=DB) put_outcome).
Local Abbreviation for_in := (Settings.for_in (DB:=DB) get_fault).

(** [assign] on a key the object has. *)
Lemma assign_own key v d (pre rest : list (string * string)) :
  key ∉ map fst pre ->
  Settings.assign key v (pre ++ (key, d) :: rest) = pre ++ (key, v) :: rest.
Proof.
  induction pre as [|[k x] pre IH]; intros Hn; cbn [app Settings.assign].
  - rewrite String.eqb_refl. reflexivity.
  - cbn [map fst] in Hn. apply not_elem_of_cons in Hn as [Hne Hn].
    destruct (String.eqb k key) eqn:E; [apply String.eqb_eq in E; congruence|].
    rewrite IH by exact Hn. reflexivity.
Qed.

(** Assigning along a key table that lists the defaults' keys in their
    order replaces each default by what was read for it. *)
Lemma fold_assign (f : string -> option string) keys :
  forall defaults pre,
    map fst keys = map fst defaults ->
    NoDup (map fst pre ++ map fst keys) ->
    fold_left (fun acc kk => match f (snd kk) with
                             | Some v => Settings.assign (fst kk) v acc
                             | None => acc
                             end) keys (pre ++ defaults)
    = pre ++ zip_with (fun kk d => (fst kk, default (snd d) (f (snd kk)))) keys defaults.
Proof.
  induction keys as [|[key kk] keys IH]; intros defaults pre Hk Hd.
  - destruct defaults; [reflexivity|discriminate].
  - destruct defaults as [|[k d] defaults]; [discriminate|].
    cbn [map fst] in Hk. injection Hk as <- Hk.
    cbn [fold_left zip_with fst snd].
    assert (Hpre : key ∉ map fst pre).
    { intros Hin. apply NoDup_app in Hd as (_ & Hd & _).
      apply (Hd key Hin). cbn [map fst]. left. }
    assert (Hd' : NoDup (map fst (pre ++ [(key, default d (f kk))]) ++ map fst keys)).
    { rewrite map_app. cbn [map fst]. rewrite <- app_assoc. exact Hd. }
    specialize (IH defaults (pre ++ [(key, default d (f kk))]) Hk Hd').
    rewrite <- !app_assoc in IH. cbn [app] in IH.
    destruct (f kk) as [v|].
    + rewrite assign_own by exact Hpre. exact IH.
    + exact IH.
Qed.

(** The loop of [getSettings] on a namespace that serves its reads. *)
Lemma for_in_served keys :
  (forall log key, get_fault log key = None) ->
  forall settings (s : Settings.store DB),
    for_in keys settings s
    = (Ret (fold_left (fun acc kk =>
                         match Settings.NAV_SETTINGS s ≫= lookup (snd kk) with
                         | Some v => Settings.assign (fst kk) v acc
                         | None => acc
                         end) keys settings),
       Settings.Store (Settings.NAV_SETTINGS s)
         (Settings.calls s ++ map (fun kk => Settings.Get (snd kk)) keys)
         (Settings.NAV_DB s)).
Proof.
  intros Hg. induction keys as [|[key kk] keys IH]; intros settings s.
  - cbn [Settings.for_in fold_left map]. rewrite app_nil_r. destruct s; reflexivity.
  - cbn [Settings.for_in fold_left map fst snd].
    unfold Eff.bind at 1, Settings.kv_get. rewrite Hg.
    rewrite IH. cbn [Settings.NAV_SETTINGS Settings.calls Settings.NAV_DB].
    rewrite <- app_assoc. reflexivity.
Qed.

(** One step of the [map] of [updateSettings] over a body that is not
    [null]. *)
Lemma issue_cons key kk keys settings (s : Settings.store DB) :
  settings <> JNull ->
  issue ((key, kk) :: keys) settings s
  = match Value.prop key settings with
    | None => issue keys settings s
    | Some value =>
        match Settings.kv_put put_outcome kk value s with
        | (Ret rejection, s1) =>
            match issue keys settings s1 with
            | (Ret rejections, s2) =>
                (Ret (match rejection with
                      | Some msg => msg :: rejections
                      | None => rejections
                      end), s2)
            | (Throw e, s2) => (Throw e, s2)
            end
        | (Throw e, s1) => (Throw e, s1)
        end
    end.
Proof.
  intros Hn. cbn [Settings.issue].
  replace (Settings.member (DB:=DB) key settings) with
    (Eff.ret (W:=Settings.store DB) (Value.prop key settings))
    by (destruct settings; try reflexivity; congruence).
  unfold Eff.bind at 1. unfold Eff.ret at 1.
  destruct (Value.prop key settings) as [v|].
  - unfold Eff.bind at 1. destruct (Settings.kv_put put_outcome kk v s) as [[r|e] s1];
      [|reflexivity].
    unfold Eff.bind. destruct (Settings.issue put_outcome keys settings s1) as [[rs|e] s2];
      reflexivity.
  - unfold Eff.bind at 1. unfold Eff.ret at 1.
    unfold Eff.bind. destruct (Settings.issue put_outcome keys settings s) as [[rs|e] s2];
      reflexivity.
Qed.

(** Writing strings into a namespace that keeps them: every member that
    is present is stored under its key, nothing else changes. *)
Lemma issue_served keys fields :
  (forall log key text, put_outcome log key (JStr text) = Settings.Stored text) ->
  (forall k v, k ∈ map fst keys -> Value.field k fields = Some v -> exists text, v = JStr text) ->
  NoDup (map snd keys) ->
  forall kv log (db : DB),
  exists kv' log',
    issue keys (JObj fields) (Settings.Store (Some kv) log db)
    = (Ret [], Settings.Store (Some kv') log' db)
    /\ (forall k kk, (k, kk) ∈ keys ->
          kv' !! kk = match Value.field k fields with
                      | Some (JStr text) => Some text
                      | _ => kv !! kk
                      end)
    /\ (forall kk, kk ∉ map snd keys -> kv' !! kk = kv !! kk).
Proof.
  intros Hp. induction keys as [|[key kk] keys IH]; intros Hs Hd kv log db.
  - exists kv, log. split; [reflexivity|]. split; [|reflexivity].
    intros k kk Hin. inversion Hin.
  - cbn [map snd fst] in Hs, Hd. apply NoDup_cons in Hd as [Hkk Hd].
    assert (Hs' : forall k v, k ∈ map fst keys -> Value.field k fields = Some v ->
                              exists text, v = JStr text).
    { intros k v Hin. apply Hs. right. exact Hin. }
    rewrite issue_cons by discriminate. cbn [Value.prop].
    destruct (Value.field key fields) as [value|] eqn:Ef.
    + destruct (Hs key value ltac:(left) Ef) as [text ->].
      unfold Settings.kv_put. rewrite Hp.
      cbn [Settings.NAV_SETTINGS Settings.calls Settings.NAV_DB fmap option_fmap option_map].
      destruct (IH Hs' Hd (<[kk := text]> kv) (log ++ [Settings.Put kk (JStr text)]) db)
        as (kv' & log' & -> & Hin & Hout).
      exists kv', log'. split; [reflexivity|]. split.
      * intros k kk0 Hel. apply elem_of_cons in Hel as [Heq | Hel].
        -- injection Heq as -> ->. rewrite Ef. rewrite Hout by exact Hkk.
           apply lookup_insert_eq.
        -- rewrite (Hin k kk0 Hel).
           assert (kk <> kk0).
           { intros ->. apply Hkk. apply list_elem_of_In, in_map_iff. exists (k, kk0).
             split; [reflexivity | apply list_elem_of_In; exact Hel]. }
           rewrite lookup_insert_ne by assumption. reflexivity.
      * intros kk0 Hn. cbn [map snd] in Hn. apply not_elem_of_cons in Hn as [Hne Hn].
        rewrite Hout by exact Hn. apply lookup_insert_ne. congruence.
    + destruct (IH Hs' Hd kv log db) as (kv' & log' & -> & Hin & Hout).
      exists kv', log'. split; [reflexivity|]. split.
      * intros k kk0 Hel. apply elem_of_cons in Hel as [Heq | Hel].
        -- injection Heq as -> ->. rewrite Ef. apply Hout. exact Hkk.
        -- apply Hin. exact Hel.
      * intros kk0 Hn. cbn [map snd] in Hn. apply not_elem_of_cons in Hn as [Hne Hn].
        apply Hout. exact Hn.
Qed.

Lemma default_member (d : string) (o : option json) (x : option string) :
  default d (match o with Some (JStr text) => Some text | _ => x end)
  = match o with Some (JStr text) => text | _ => default d x end.
Proof. destruct o as [[]|]; reflexivity. Qed.

(** The round trip on the two handlers, shared by what follows. *)
Lemma settings_round_trip req fields kv log (db : DB) :
  json_body req = inr (JObj fields) ->
  (forall k v, k ∈ map fst Settings.defaultSettings ->
               Value.field k fields = Some v -> exists text, v = JStr text) ->
  (forall log key text, put_outcome log key (JStr text) = Settings.Stored text) ->
  (forall log key, get_fault log key = None) ->
  let s := Settings.Store (Some kv) log db in
  fst (updateSettings req s) = Ret (Nav.ok_response 200 "Settings updated successfully")
  /\ Settings.NAV_DB (snd (updateSettings req s)) = db
  /\ fst (getSettings (snd (updateSettings req s)))
     = Ret (Settings.settings_response
              (map (fun kd =>
                      (fst kd,
                       match Value.field (fst kd) fields with
                       | Some (JStr text) => text
                       | _ => default (snd kd) (kv !! ("frontend_" +:+ fst kd))
                       end))
                 Settings.defaultSettings)).
Proof.
  intros Hb Hs Hp Hg s.
  assert (Hd : NoDup (map snd Settings.updateSettings_settingKeys))
    by (refine (bool_decide_unpack _ _); vm_compute; exact I).
  destruct (issue_served Settings.updateSettings_settingKeys fields Hp Hs Hd kv log db)
    as (kv' & log' & Hi & Hin & _).
  assert (Hu : updateSettings req s
    = (Ret (Nav.ok_response 200 "Settings updated successfully"),
       Settings.Store (Some kv') log' db)).
  { unfold Settings.updateSettings, s. cbn [Settings.NAV_SETTINGS].
    unfold Eff.try_catch, Eff.bind at 1, Eff.request_json. rewrite Hb.
    unfold Eff.ret at 1. unfold Eff.bind. rewrite Hi. reflexivity. }
  rewrite Hu. cbn [fst snd Settings.NAV_DB]. split; [reflexivity|]. split; [reflexivity|].
  unfold Settings.getSettings. cbn [Settings.NAV_SETTINGS].
  unfold Eff.try_catch, Eff.bind. rewrite (for_in_served _ Hg).
  unfold Eff.ret. cbn [fst Settings.NAV_SETTINGS mbind option_bind].
  do 2 f_equal.
  rewrite (fold_assign (fun kk => kv' !! kk) Settings.getSettings_settingKeys
             Settings.defaultSettings [])
    by (try reflexivity; refine (bool_decide_unpack _ _); vm_compute; exact I).
  cbn [app].
  assert (Hall : Forall (fun kkk => kv' !! snd kkk
                   = match Value.field (fst kkk) fields with
                     | Some (JStr text) => Some text
                     | _ => kv !! snd kkk
                     end) Settings.updateSettings_settingKeys).
  { apply Forall_forall. intros [k kk] Hel. apply Hin. exact Hel. }
  unfold Settings.updateSettings_settingKeys in Hall.
  repeat (apply Forall_cons_1 in Hall as [? Hall]).
  cbn [fst snd] in *.
  unfold Settings.getSettings_settingKeys, Settings.defaultSettings.
  cbn [zip_with map fst snd].
  repeat match goal with H : kv' !! _ = _ |- _ => rewrite H; clear H end.
  rewrite !default_member.
  reflexivity.
Qed.

(** X15.  Settings round trip.  After [updateSettings] has stored the
    string members of its body, [getSettings] answers, for each of the
    thirteen settings, the member of the body if it has one, else the
    text already stored under [frontend_<name>], else the default. *)
Theorem updated_settings_are_read_back req fields kv log (db : DB) :
  json_body req = inr (JObj fields) ->
  (forall k v, k ∈ map fst Settings.defaultSettings ->
               Value.field k fields = Some v -> exists text, v = JStr text) ->
  (forall log key text, put_outcome log key (JStr text) = Settings.Stored text) ->
  (forall log key, get_fault log key = None) ->
  let s := Settings.Store (Some kv) log db in
  fst (updateSettings req s) = Ret (Nav.ok_response 200 "Settings updated successfully")
  /\ fst (getSettings (snd (updateSettings req s)))
     = Ret (Settings.settings_response
              (map (fun kd =>
                      (fst kd,
                       match Value.field (fst kd) fields with
                       | Some (JStr text) => text
                       | _ => default (snd kd) (kv !! ("frontend_" +:+ fst kd))
                       end))
                 Settings.defaultSettings)).
Proof.
  intros Hb Hs Hp Hg s.
  destruct (settings_round_trip req fields kv log db Hb Hs Hp Hg) as (H1 & _ & H2).
  split; assumption.
Qed.

(** The two loops leave alone what they do not name. *)
Lemma for_in_frame keys :
  forall settings (s : Settings.store DB),
    Settings.NAV_SETTINGS (snd (for_in keys settings s)) = Settings.NAV_SETTINGS s
    /\ Settings.NAV_DB (snd (for_in keys settings s)) = Settings.NAV_DB s.
Proof.
  induction keys as [|[key kk] keys IH]; intros settings s; [split; reflexivity|].
  cbn [Settings.for_in]. unfold Eff.bind, Settings.kv_get.
  destruct (get_fault (Settings.calls s) kk); [split; reflexivity|].
  match goal with
  | |- context [Settings.for_in get_fault keys ?st ?s1] => destruct (IH st s1) as [H1 H2]
  end.
  split; [rewrite H1 | rewrite H2]; reflexivity.
Qed.

Lemma issue_frame keys settings :
  forall (s : Settings.store DB),
    Settings.NAV_DB (snd (issue keys settings s)) = Settings.NAV_DB s
    /\ (is_Some (Settings.NAV_SETTINGS (snd (issue keys settings s)))
        <-> is_Some (Settings.NAV_SETTINGS s))
    /\ forall key, key ∉ map snd keys ->
         Settings.NAV_SETTINGS (snd (issue keys settings s)) ≫= lookup key
         = Settings.NAV_SETTINGS s ≫= lookup key.
Proof.
  induction keys as [|[key kk] keys IH]; intros s; [repeat split; auto|].
  assert (Hnull : settings = JNull \/ settings <> JNull)
    by (destruct settings; auto; right; discriminate).
  destruct Hnull as [-> | Hn]; [repeat split; auto|].
  rewrite issue_cons by exact Hn.
  assert (Hrest : forall k, k ∉ map snd ((key, kk) :: keys) -> k <> kk /\ k ∉ map snd keys).
  { intros k Hk. cbn [map snd] in Hk. apply not_elem_of_cons in Hk. exact Hk. }
  destruct (Value.prop key settings) as [v|].
  2:{ destruct (IH s) as (Hd & Hb & Hk). refine (conj Hd (conj Hb _)).
      intros k Hin. apply Hk. apply Hrest. exact Hin. }
  unfold Settings.kv_put.
  destruct (put_outcome (Settings.calls s) kk v) as [text|msg|msg];
    [| |repeat split; auto].
  - match goal with
    | |- context [Settings.issue put_outcome keys settings ?s1] =>
        destruct (IH s1) as (Hd & Hb & Hk);
        destruct (Settings.issue put_outcome keys settings s1) as [[rs|e] s2]
    end;
    cbn [fst snd Settings.NAV_SETTINGS Settings.NAV_DB] in *;
    (refine (conj Hd (conj _ _));
     [rewrite Hb, fmap_is_Some; reflexivity|]);
    intros k Hin; destruct (Hrest k Hin) as [Hne Hnin]; rewrite (Hk k Hnin);
    (destruct (Settings.NAV_SETTINGS s) as [kv|]; [|reflexivity]);
    cbn [fmap option_fmap option_map mbind option_bind];
    apply lookup_insert_ne; congruence.
  - match goal with
    | |- context [Settings.issue put_outcome keys settings ?s1] =>
        destruct (IH s1) as (Hd & Hb & Hk);
        destruct (Settings.issue put_outcome keys settings s1) as [[rs|e] s2]
    end;
    cbn [fst snd Settings.NAV_SETTINGS Settings.NAV_DB] in *;
    (refine (conj Hd (conj Hb _)));
    intros k Hin; apply Hk; apply Hrest; exact Hin.
Qed.

(** [updateSettings], case by case. *)
Lemma updateSettings_cases req (s : Settings.store DB) :
  updateSettings req s
  = match Settings.NAV_SETTINGS s with
    | None => (Ret Settings.unbound, s)
    | Some _ =>
        match json_body req with
        | inl msg =>
            (Ret (Nav.errorResponse ("Failed to update settings: " +:+ msg) 500), s)
        | inr settings =>
            match issue Settings.updateSettings_settingKeys settings s with
            | (Ret [], s1) =>
                (Ret (Nav.ok_response 200 "Settings updated successfully"), s1)
            | (Ret (r :: rs), s1) =>
                (Ret (Nav.errorResponse
                        ("Failed to update settings: " +:+ first_rejection (r :: rs)) 500),
                 s1)
            | (Throw e, s1) =>
                (Ret (Nav.errorResponse ("Failed to update settings: " +:+ message e) 500),
                 s1)
            end
        end
    end.
Proof.
  unfold Settings.updateSettings.
  destruct (Settings.NAV_SETTINGS s); [|reflexivity].
  unfold Eff.try_catch, Eff.bind at 1, Eff.request_json.
  destruct (json_body req) as [msg|settings]; [reflexivity|].
  unfold Eff.ret at 1. unfold Eff.bind.
  destruct (Settings.issue put_outcome Settings.updateSettings_settingKeys settings s)
    as [[[|r rs]|e] s1]; reflexivity.
Qed.

(** Both handlers catch what is thrown inside them. *)
Lemma getSettings_answers (s : Settings.store DB) :
  exists resp, fst (getSettings s) = Ret resp.
Proof.
  unfold Settings.getSettings.
  destruct (Settings.NAV_SETTINGS s); [|eexists; reflexivity].
  unfold Eff.try_catch, Eff.bind.
  destruct (Settings.for_in get_fault Settings.getSettings_settingKeys
              Settings.defaultSettings s) as [[settings|e] s1];
    eexists; reflexivity.
Qed.

Lemma updateSettings_answers req (s : Settings.store DB) :
  exists resp, fst (updateSettings req s) = Ret resp.
Proof.
  rewrite updateSettings_cases.
  destruct (Settings.NAV_SETTINGS s); [|eexists; reflexivity].
  destruct (json_body req) as [msg|settings]; [eexists; reflexivity|].
  destruct (Settings.issue put_outcome Settings.updateSettings_settingKeys settings s)
    as [[[|r rs]|e] s1]; eexists; reflexivity.
Qed.

(** X16.  The settings handlers keep to their keys.  Whatever the
    namespace and the body do, both handlers answer (they never throw)
    and leave the relational store alone; [getSettings] leaves the
    settings as they are; [updateSettings] answers 200 or 500, keeps the
    namespace bound or unbound as it was, and changes no key other than
    the thirteen [frontend_] keys of its table. *)
Theorem settings_handlers_keep_to_their_keys req (s : Settings.store DB) :
  ((exists resp, fst (getSettings s) = Ret resp)
   /\ Settings.NAV_SETTINGS (snd (getSettings s)) = Settings.NAV_SETTINGS s
   /\ Settings.NAV_DB (snd (getSettings s)) = Settings.NAV_DB s)
  /\ ((exists resp, fst (updateSettings req s) = Ret resp
                    /\ (status resp = 200%N \/ status resp = 500%N))
      /\ Settings.NAV_DB (snd (updateSettings req s)) = Settings.NAV_DB s
      /\ (is_Some (Settings.NAV_SETTINGS (snd (updateSettings req s)))
          <-> is_Some (Settings.NAV_SETTINGS s))
      /\ forall key,
           key ∉ map snd Settings.updateSettings_settingKeys ->
           Settings.NAV_SETTINGS (snd (updateSettings req s)) ≫= lookup key
           = Settings.NAV_SETTINGS s ≫= lookup key).
Proof.
  split.
  - unfold Settings.getSettings.
    destruct (Settings.NAV_SETTINGS s) as [kv|] eqn:Eb;
      [|refine (conj _ (conj _ _)); [eexists; reflexivity|exact Eb|reflexivity]].
    unfold Eff.try_catch, Eff.bind.
    destruct (for_in_frame Settings.getSettings_settingKeys Settings.defaultSettings s)
      as (Hs & Hd).
    destruct (Settings.for_in get_fault Settings.getSettings_settingKeys
                Settings.defaultSettings s) as [[settings|e] s1];
      unfold Eff.ret; cbn [fst snd] in *; rewrite Hs, Hd;
      (refine (conj _ (conj _ _)); [eexists; reflexivity|exact Eb|reflexivity]).
  - rewrite updateSettings_cases.
    destruct (Settings.NAV_SETTINGS s) as [kv|] eqn:Eb.
    2:{ cbn [fst snd]. rewrite Eb.
        refine (conj _ (conj eq_refl (conj (reflexivity _) (fun _ _ => eq_refl)))).
        eexists. split; [reflexivity|right; reflexivity]. }
    destruct (json_body req) as [msg|settings].
    { cbn [fst snd]. rewrite Eb.
      refine (conj _ (conj eq_refl (conj (reflexivity _) (fun _ _ => eq_refl)))).
      eexists. split; [reflexivity|right; reflexivity]. }
    destruct (issue_frame Settings.updateSettings_settingKeys settings s) as (Hd & Hb & Hk).
    rewrite Eb in Hb, Hk.
    destruct (Settings.issue put_outcome Settings.updateSettings_settingKeys settings s)
      as [[[|r rs]|e] s1];
      cbn [fst snd] in *;
      (refine (conj _ (conj Hd (conj Hb Hk)));
       eexists; split; [reflexivity|]; (left; reflexivity) || (right; reflexivity)).
Qed.

End SettingsFacts.


(** ** Settings through the gate *)

Section SettingsThroughTheGate.

Context {DB : Type}.
Variable bind_fault : json -> option string.
Variable db_batch : list Nav.statement -> Settings.store DB -> string + Settings.store DB.
Variable fault : list Nav.event -> KV.call -> option string.
Variable randomUUID : list Nav.event -> string.
Variable others : Nav.handler -> request -> list string -> Settings.store DB
                  -> outcome response * Settings.store DB.
Variable handleStatic : request -> response.
Variable renderAdminPage renderLoginPage : response.
Variable publicPage : request -> Settings.store DB -> outcome response * Settings.store DB.
Variable get_fault : list Settings.call -> string -> option string.
Variable put_outcome : list Settings.call -> string -> json -> Settings.put_result.
Variable first_rejection : list string -> string.

Local Abbreviation crud := (Settings.crud get_fault put_outcome first_rejection others).
Local Abbreviation serve :=
  (Nav.fetch bind_fault db_batch fault randomUUID crud handleStatic
     renderAdminPage renderLoginPage publicPage).

Lemma checkAuth_backend req (w : Nav.world (Settings.store DB)) :
  Nav.backend (snd (Nav.checkAuth fault req w)) = Nav.backend w.
Proof.
  pose proof (checkAuth_cases fault req w) as Hc.
  destruct (Http.headers_get "Cookie" (headers req)) as [h|];
    [|rewrite Hc; reflexivity].
  destruct (Nav.cookie_sessionId h); [|rewrite Hc; reflexivity].
  cbv zeta in Hc. destruct (fault _ _); rewrite Hc; reflexivity.
Qed.

(** [/api/settings] through [fetch]: the gate, then the handler on the
    backend. *)
Lemma serve_settings req (w : Nav.world (Settings.store DB)) :
  pathname req = "/api/settings" ->
  (method req = "GET" ->
   serve req w
   = (fst (Settings.getSettings get_fault (Nav.backend w)),
      Nav.World (Nav.NAV_AUTH w)
        (snd (Settings.getSettings get_fault (Nav.backend w)))
        (Nav.trace w ++ [Nav.Invoke Nav.h_getSettings])))
  /\ (method req = "POST" ->
      fst (Nav.checkAuth fault req w) = Ret true ->
      let w1 := snd (Nav.checkAuth fault req w) in
      let r := Settings.updateSettings put_outcome first_rejection req (Nav.backend w) in
      serve req w
      = (fst r, Nav.World (Nav.NAV_AUTH w1) (snd r)
                  (Nav.trace w1 ++ [Nav.Invoke Nav.h_updateSettings]))).
Proof.
  intros Hp.
  assert (Hapi : Nav.api_path req = "/settings")
    by (apply api_path_of; exact Hp).
  split.
  - intros Hm. unfold Nav.fetch. rewrite Hp.
    replace (String.prefix "/api" "/api/settings") with true by (vm_compute; reflexivity).
    unfold Nav.api_handleRequest. cbv zeta. rewrite Hapi, Hm.
    replace (Nav.isProtected "GET" "/settings") with false by (vm_compute; reflexivity).
    unfold Eff.bind at 1. unfold Eff.ret at 1. cbn [negb].
    unfold Nav.dispatch. cbv zeta.
    cbn [String.eqb Ascii.eqb Bool.eqb andb].
    pose proof (getSettings_answers get_fault (Nav.backend w)) as [resp Hr].
    unfold Eff.try_catch, Nav.run, Eff.bind, Nav.emit, Nav.on_backend, Settings.crud.
    cbn [Nav.backend Nav.NAV_AUTH Nav.trace].
    destruct (Settings.getSettings get_fault (Nav.backend w)) as [o b].
    cbn [fst snd] in *. subst o. reflexivity.
  - intros Hm Hauth w1 r. subst w1 r. unfold Nav.fetch. rewrite Hp.
    replace (String.prefix "/api" "/api/settings") with true by (vm_compute; reflexivity).
    unfold Nav.api_handleRequest. cbv zeta. rewrite Hapi, Hm.
    replace (Nav.isProtected "POST" "/settings") with true by (vm_compute; reflexivity).
    unfold Eff.bind at 1.
    pose proof (checkAuth_backend req w) as Hb.
    destruct (Nav.checkAuth fault req w) as [o w1]. cbn [fst snd] in *. subst o.
    cbn [negb].
    unfold Nav.dispatch. cbv zeta.
    cbn [String.eqb Ascii.eqb Bool.eqb andb].
    pose proof (updateSettings_answers put_outcome first_rejection req (Nav.backend w))
      as [resp Hr].
    unfold Eff.try_catch, Nav.run, Eff.bind, Nav.emit, Nav.on_backend, Settings.crud.
    cbn [Nav.backend Nav.NAV_AUTH Nav.trace]. rewrite Hb.
    destruct (Settings.updateSettings put_outcome first_rejection req (Nav.backend w))
      as [o b].
    cbn [fst snd] in *. subst o. reflexivity.
Qed.

(** X17.  What an administrator saves, every visitor reads.  A POST to
    [/api/settings] that passes the auth check stores the string members
    of its body; a GET to [/api/settings] afterwards, with or without a
    cookie, answers each of the thirteen settings with the member of
    that body if it had one, else the text already stored, else the
    default. *)
Theorem saved_settings_reach_visitors post get (w : Nav.world (Settings.store DB)) fields kv :
  pathname post = "/api/settings" -> method post = "POST" ->
  pathname get = "/api/settings" -> method get = "GET" ->
  fst (Nav.checkAuth fault post w) = Ret true ->
  json_body post = inr (JObj fields) ->
  (forall k v, k ∈ map fst Settings.defaultSettings ->
               Value.field k fields = Some v -> exists text, v = JStr text) ->
  Settings.NAV_SETTINGS (Nav.backend w) = Some kv ->
  (forall log key text, put_outcome log key (JStr text) = Settings.Stored text) ->
  (forall log key, get_fault log key = None) ->
  fst (serve post w) = Ret (Nav.ok_response 200 "Settings updated successfully")
  /\ fst (serve get (snd (serve post w)))
     = Ret (Settings.settings_response
              (map (fun kd =>
                      (fst kd,
                       match Value.field (fst kd) fields with
                       | Some (JStr text) => text
                       | _ => default (snd kd) (kv !! ("frontend_" +:+ fst kd))
                       end))
                 Settings.defaultSettings)).
Proof.
  intros Hpp Hpm Hgp Hgm Hauth Hb Hs Hkv Hp Hg.
  rewrite (proj2 (serve_settings post w Hpp) Hpm Hauth). cbv zeta. cbn [fst snd].
  rewrite (proj1 (serve_settings get _ Hgp) Hgm). cbn [fst snd Nav.backend].
  destruct (Nav.backend w) as [ns log db] eqn:Ew. cbn [Settings.NAV_SETTINGS] in Hkv.
  subst ns.
  destruct (settings_round_trip get_fault put_outcome first_rejection post fields kv log db
              Hb Hs Hp Hg) as (H1 & _ & H2).
  split; assumption.
Qed.

End SettingsThroughTheGate.

(** ** The properties above on the sample deployments *)

Lemma guarded_handlers_need_a_session_witness :
  let req := Sample.with_cookie "PUT" "/api/config/42" "sessionId=abc" in
  exists calls,
    Nav.trace (snd (Session.serve Sample.bind_ok Sample.batch_ok Sample.served Sample.uuid
                      Sample.crud (fun _ => Sample.page) Sample.page Sample.page
                      Sample.publicPage req Sample.one_session))
    = Nav.trace Sample.one_session ++ calls
    /\ forall h, In (Nav.Invoke h) calls ->
         String.prefix "/api" (pathname req) = true
         /\ (Gate.public_handler h = true
             \/ fst (Nav.checkAuth Sample.served req Sample.one_session) = Ret true).
Proof.
  intros req.
  exact (guarded_handlers_need_a_session Sample.bind_ok Sample.batch_ok Sample.served
           Sample.uuid Sample.crud (fun _ => Sample.page) Sample.page Sample.page
           Sample.publicPage req Sample.one_session).
Defined.

Lemma protected_routes_reach_their_handlers_witness :
  let req := Sample.with_cookie "PUT" "/api/config/42" "sessionId=abc" in
  let r := RouteSpec.Rule "PUT" (RouteSpec.WithNumericId "/config/" "") in
  In (r, Nav.h_updateConfig) Gate.targets
  /\ RouteSpec.accepts (RouteSpec.rule_path r) "/config/42"
  /\ fst (Nav.checkAuth Sample.served req Sample.one_session) = Ret true
  /\ Gate.public_handler Nav.h_updateConfig = false
  /\ exists args,
       Nav.api_handleRequest Sample.bind_ok Sample.batch_ok Sample.served Sample.crud
         req Sample.one_session
       = Eff.try_catch
           (Nav.run Sample.bind_ok Sample.batch_ok Sample.crud Nav.h_updateConfig req args)
           (fun error =>
              Eff.ret (Nav.errorResponse
                         ("Internal Server Error: " +:+ message error) 500))
           (snd (Nav.checkAuth Sample.served req Sample.one_session)).
Proof.
  intros req r.
  assert (H1 : In (r, Nav.h_updateConfig) Gate.targets) by (cbn; tauto).
  assert (H2 : RouteSpec.accepts (RouteSpec.rule_path r) "/config/42").
  { exists "42". split; [|reflexivity]. split; [discriminate|].
    repeat constructor; vm_compute; intuition discriminate. }
  assert (H3 : fst (Nav.checkAuth Sample.served req Sample.one_session) = Ret true)
    by (vm_compute; reflexivity).
  repeat (split; [assumption|]).
  exact (proj2 (protected_routes_reach_their_handlers Sample.bind_ok Sample.batch_ok
                  Sample.served Sample.crud req Sample.one_session r Nav.h_updateConfig
                  "/config/42" H1 eq_refl H2 eq_refl H3)).
Defined.

Lemma login_cookie_authenticates_witness :
  let req := Sample.login "admin" "s3cret" true in
  exists resp sessionId maxAge,
    fst (Nav.handleLogin Sample.served Sample.uuid req Sample.world0) = Ret resp
    /\ Http.headers_get "Set-Cookie" (resp_headers resp)
       = Some (("sessionId=" +:+ sessionId)
                 +:+ "; HttpOnly; Secure; Path=/; Max-Age=" +:+ JS.decimal maxAge)
    /\ forall req',
        Http.headers_get "Cookie" (headers req') = Some ("sessionId=" +:+ sessionId) ->
        fst (Nav.checkAuth Sample.served req'
               (snd (Nav.handleLogin Sample.served Sample.uuid req Sample.world0))) = Ret true.
Proof.
  intros req.
  apply (login_cookie_authenticates Sample.served Sample.uuid req Sample.world0
           (JObj [("username", JStr "admin"); ("password", JStr "s3cret");
                  ("remember", JBool true)]) "admin" "s3cret").
  - reflexivity.
  - reflexivity.
  - reflexivity.
  - vm_compute. reflexivity.
  - vm_compute. reflexivity.
  - intros calls c. reflexivity.
  - apply sample_uuid_shape.
Defined.

Lemma session_operations_are_local_witness :
  let login := Sample.login "admin" "s3cret" false in
  let logout := Sample.with_cookie "POST" "/admin/logout" "sessionId=abc" in
  Nav.NAV_AUTH (snd (Nav.handleLogin Sample.served Sample.uuid login Sample.one_session))
    !! "session:abc" = Nav.NAV_AUTH Sample.one_session !! "session:abc"
  /\ Nav.NAV_AUTH (snd (Nav.handleLogout Sample.served logout Sample.one_session))
       !! "admin_password" = Nav.NAV_AUTH Sample.one_session !! "admin_password".
Proof.
  intros login logout.
  destruct (session_operations_are_local (Backend:=unit) Sample.served Sample.uuid)
    as (Hin & Hout & _).
  split.
  - apply Hin. vm_compute. discriminate.
  - apply Hout. intros s Hs. vm_compute in Hs. injection Hs as <-. vm_compute. discriminate.
Defined.

Lemma login_with_unset_secrets_witness :
  let req := Request "POST" "/admin/login" [] []
               (inr (JObj [("username", JNull); ("password", JNull)])) in
  let w : Nav.world unit := Nav.World ∅ tt [] in
  exists resp,
    fst (Nav.handleLogin Sample.served Sample.uuid req w) = Ret resp
    /\ status resp = 200%N.
Proof.
  intros req w.
  destruct (login_with_unset_secrets Sample.served Sample.uuid req w
              (JObj [("username", JNull); ("password", JNull)]))
    as (resp & Hr & _ & Hiff & _).
  - reflexivity.
  - discriminate.
  - reflexivity.
  - reflexivity.
  - intros calls c. reflexivity.
  - exists resp. split; [exact Hr|]. apply Hiff. split; reflexivity.
Defined.

Lemma handleLogout_twice_witness :
  let req := Sample.with_cookie "POST" "/admin/logout" "sessionId=abc" in
  let w1 := snd (Nav.handleLogout Sample.served req Sample.one_session) in
  fst (Nav.handleLogout Sample.served req Sample.one_session) = Ret Trace.logged_out
  /\ fst (Nav.handleLogout Sample.served req w1) = Ret Trace.logged_out
  /\ Nav.NAV_AUTH (snd (Nav.handleLogout Sample.served req w1)) = Nav.NAV_AUTH w1.
Proof.
  intros req.
  apply (handleLogout_twice Sample.served req Sample.one_session).
  intros calls c. reflexivity.
Defined.

Lemma admin_page_needs_a_session_witness :
  let req := Sample.with_cookie "GET" "/admin" "sessionId=abc" in
  let admin := Response 200 [] (Text "admin") in
  let login := Response 200 [] (Text "login") in
  let r := Nav.admin_handleRequest Sample.served Sample.uuid (fun _ => Sample.page)
             admin login req Sample.one_session in
  fst r = Ret admin /\ Nav.NAV_AUTH (snd r) = Nav.NAV_AUTH Sample.one_session.
Proof.
  intros req admin login r.
  destruct (admin_page_needs_a_session Sample.served Sample.uuid (fun _ => Sample.page)
              admin login req Sample.one_session eq_refl) as (_ & _ & Hauth & Hkeep).
  split; [apply Hauth; vm_compute; reflexivity | exact Hkeep].
Defined.

Lemma sessions_always_expire_witness :
  let w1 := Sample.step (Session.Fetch (Sample.login "admin" "s3cret" false)) Sample.world0 in
  let s := "3f2b8c1e-5d4a-4e6f-9a7b-0c1d2e3f4a5b" in
  Session.state_of (Nav.NAV_AUTH w1) s = Some Session.Valid
  /\ Session.expiring w1
  /\ Session.state_of (Nav.NAV_AUTH (Nav.expire (Nav.session_key s) w1)) s
     = Some Session.Absent.
Proof.
  intros w1 s.
  assert (Hvalid : Session.state_of (Nav.NAV_AUTH w1) s = Some Session.Valid)
    by (vm_compute; reflexivity).
  assert (Hreach : Session.reachable Sample.bind_ok Sample.batch_ok Sample.served
                     Sample.uuid Sample.crud (fun _ => Sample.page) Sample.page
                     Sample.page Sample.publicPage w1).
  { apply Session.reachable_step, Session.reachable_fresh, sample_world_fresh. }
  destruct (sessions_always_expire Sample.bind_ok Sample.batch_ok Sample.served
              Sample.uuid Sample.crud (fun _ => Sample.page) Sample.page
              Sample.page Sample.publicPage w1 Hreach) as (Hexp & Hend).
  split; [exact Hvalid|]. split; [exact Hexp | exact (Hend s Hvalid)].
Defined.

Lemma saved_notes_come_back_witness :
  let save := Deployed.saveNotes "alice" "milk" in
  let get := Deployed.getNotes "alice" in
  let fetch := Notes.fetch (Some "hunter2") "" Deployed.stringify Deployed.number_text
                 Deployed.notes_served in
  let text := Deployed.quote +:+ "milk" +:+ Deployed.quote in
  fst (fetch save Deployed.notes0)
  = Ret (Response 200 [] (Json (JObj [("success", JBool true)])))
  /\ Notes.AA (snd (fetch save Deployed.notes0)) !! "alice" = Some (KV.Entry text None)
  /\ fst (fetch get (snd (fetch save Deployed.notes0))) = Ret (Response 200 [] (Text text)).
Proof.
  intros save get fetch text.
  destruct (saved_notes_come_back (Some "hunter2") "" Deployed.stringify
              Deployed.number_text Deployed.notes_served save get Deployed.notes0
              (JObj [("userId", JStr "alice"); ("notes", JStr "milk")]) "alice"
              eq_refl eq_refl eq_refl eq_refl eq_refl eq_refl (fun _ _ => eq_refl))
    as (Hok & Hkey & Hget & _).
  refine (conj Hok (conj Hkey (Hget _))). discriminate.
Defined.

Lemma saved_styles_come_back_witness :
  let save := Deployed.saveStyles "alice" "title" "bold" in
  let get := Deployed.getStyles "alice" "title" in
  let fetch := Notes.fetch (Some "hunter2") "" Deployed.stringify Deployed.number_text
                 Deployed.notes_served in
  let text := Deployed.quote +:+ "bold" +:+ Deployed.quote in
  fst (fetch save Deployed.notes0)
  = Ret (Response 200 [] (Json (JObj [("success", JBool true)])))
  /\ Notes.AA (snd (fetch save Deployed.notes0)) !! "alice_title"
     = Some (KV.Entry text None)
  /\ fst (fetch get (snd (fetch save Deployed.notes0))) = Ret (Response 200 [] (Text text)).
Proof.
  intros save get fetch text.
  destruct (saved_styles_come_back (Some "hunter2") "" Deployed.stringify
              Deployed.number_text Deployed.notes_served save get Deployed.notes0
              (JObj [("userId", JStr "alice"); ("type", JStr "title");
                     ("styles", JStr "bold")]) "alice" "title"
              eq_refl eq_refl eq_refl eq_refl eq_refl eq_refl eq_refl eq_refl
              (fun _ _ => eq_refl))
    as (Hok & Hkey & Hget & _).
  refine (conj Hok (conj Hkey (Hget _))). discriminate.
Defined.

Lemma styles_overwrite_notes_witness :
  let save := Deployed.saveStyles "alice" "title" "bold" in
  let get := Deployed.getNotes "alice_title" in
  let fetch := Notes.fetch (Some "hunter2") "" Deployed.stringify Deployed.number_text
                 Deployed.notes_served in
  let text := Deployed.quote +:+ "bold" +:+ Deployed.quote in
  Notes.AA (snd (fetch save Deployed.notes0)) !! "alice_title" = Some (KV.Entry text None)
  /\ fst (fetch get (snd (fetch save Deployed.notes0))) = Ret (Response 200 [] (Text text)).
Proof.
  intros save get fetch text.
  destruct (styles_overwrite_notes (Some "hunter2") "" Deployed.stringify
              Deployed.number_text Deployed.notes_served save get Deployed.notes0
              (JObj [("userId", JStr "alice"); ("type", JStr "title");
                     ("styles", JStr "bold")]) "alice" "title"
              eq_refl eq_refl eq_refl eq_refl eq_refl eq_refl eq_refl
              (fun _ _ => eq_refl))
    as (Hkey & Hget & _).
  refine (conj Hkey (Hget _)). discriminate.
Defined.

Lemma notes_store_only_grows_witness :
  let save := Deployed.saveNotes "bob" "eggs" in
  let fetch := Notes.fetch (Some "hunter2") "" Deployed.stringify Deployed.number_text Deployed.notes_served in
  let w1 := snd (fetch (Deployed.saveNotes "alice" "milk") Deployed.notes0) in
  is_Some (Notes.AA w1 !! "alice")
  /\ is_Some (Notes.AA (snd (fetch save w1)) !! "alice").
Proof.
  intros save fetch w1.
  assert (H : is_Some (Notes.AA w1 !! "alice")) by (vm_compute; eauto).
  split; [exact H|].
  exact (proj1 (notes_store_only_grows (Some "hunter2") "" Deployed.stringify
                  Deployed.number_text Deployed.notes_served save w1) "alice" H).
Defined.

Lemma verifyPassword_without_secret_witness :
  let r := Deployed.verifyPassword (JObj []) in
  let fetch := Notes.fetch None "" Deployed.stringify Deployed.number_text Deployed.notes_served in
  snd (fetch r Deployed.notes0) = Deployed.notes0
  /\ exists valid : bool,
       fst (fetch r Deployed.notes0)
       = Ret (Response (if valid then 200 else 403) Http.json_headers
                (Json (JObj [("valid", JBool valid)])))
       /\ (valid = true <-> Value.prop "password" (JObj []) = None).
Proof.
  intros r fetch.
  apply (verifyPassword_without_secret None "" Deployed.stringify Deployed.number_text Deployed.notes_served
           r Deployed.notes0 (JObj [])); try reflexivity.
  discriminate.
Defined.

Lemma notes_errors_escape_witness :
  let r := Deployed.getNotes "alice" in
  exists e,
    fst (Notes.fetch (Some "hunter2") "" Deployed.stringify Deployed.number_text Deployed.notes_down
           r Deployed.notes0) = Throw e
    /\ Notes.AA (snd (Notes.fetch (Some "hunter2") "" Deployed.stringify
                        Deployed.number_text Deployed.notes_down r Deployed.notes0))
       = Notes.AA Deployed.notes0.
Proof.
  intros r.
  apply (proj2 (notes_errors_escape (Some "hunter2") "" Deployed.stringify
                  Deployed.number_text Deployed.notes_down r Deployed.notes0)).
  - intros c. discriminate.
  - left. reflexivity.
Defined.

Lemma other_methods_are_refused_witness :
  let req := Sample.bare "OPTIONS" "/api/config" in
  exists resp,
    Nav.api_handleRequest Sample.bind_ok Sample.batch_ok Sample.served Sample.crud
      req Sample.world0 = (Ret resp, Sample.world0)
    /\ resp = Nav.errorResponse "Method Not Allowed" 405.
Proof.
  intros req.
  destruct (other_methods_are_refused Sample.bind_ok Sample.batch_ok Sample.served
              Sample.crud req Sample.world0) as (resp & Hr & _ & H405);
    try discriminate.
  exists resp. split; [exact Hr|]. apply H405. right. right. vm_compute. reflexivity.
Defined.

Lemma updated_settings_are_read_back_witness :
  let fields := [("dark_mode", JStr "1"); ("unknown", JNum 7)] in
  let s := Deployed.settings0 in
  let update := Settings.updateSettings Deployed.put_strings Deployed.first_of
                  Deployed.updateSettings_request in
  fst (update s) = Ret (Nav.ok_response 200 "Settings updated successfully")
  /\ fst (Settings.getSettings Deployed.get_served (snd (update s)))
     = Ret (Settings.settings_response
              (map (fun kd =>
                      (fst kd,
                       match Value.field (fst kd) fields with
                       | Some (JStr text) => text
                       | _ => default (snd kd)
                                (Deployed.stored !! ("frontend_" +:+ fst kd))
                       end))
                 Settings.defaultSettings)).
Proof.
  intros fields s update.
  apply (updated_settings_are_read_back Deployed.get_served Deployed.put_strings
           Deployed.first_of Deployed.updateSettings_request fields
           Deployed.stored [] tt).
  - reflexivity.
  - intros k v Hk Hf. apply list_elem_of_In in Hk. cbn in Hk.
    repeat (destruct Hk as [<- | Hk];
            [vm_compute in Hf; first [discriminate | injection Hf as <-; eexists; reflexivity]|]).
    contradiction.
  - reflexivity.
  - reflexivity.
Defined.

Lemma settings_handlers_keep_to_their_keys_witness :
  let update := Settings.updateSettings Deployed.put_strings Deployed.first_of
                  Deployed.updateSettings_request in
  Settings.NAV_DB (snd (update Deployed.settings0)) = tt
  /\ Settings.NAV_SETTINGS (snd (update Deployed.settings0)) ≫= lookup "session:abc"
     = Settings.NAV_SETTINGS Deployed.settings0 ≫= lookup "session:abc".
Proof.
  intros update.
  destruct (settings_handlers_keep_to_their_keys Deployed.get_served Deployed.put_strings
              Deployed.first_of Deployed.updateSettings_request Deployed.settings0)
    as (_ & _ & Hdb & _ & Hkeys).
  split; [exact Hdb|]. apply Hkeys.
  intros Hin. apply list_elem_of_In in Hin. cbn in Hin.
  repeat (destruct Hin as [Hin | Hin]; [discriminate|]). contradiction.
Defined.

Lemma saved_settings_reach_visitors_witness :
  let fields := [("dark_mode", JStr "1"); ("unknown", JNum 7)] in
  let serve := Nav.fetch Sample.bind_ok Deployed.batch_ok Sample.served Sample.uuid
                 (Settings.crud Deployed.get_served Deployed.put_strings Deployed.first_of
                    Deployed.others)
                 (fun _ => Sample.page) Sample.page Sample.page Deployed.publicPage in
  fst (Nav.checkAuth Sample.served Deployed.updateSettings_request Deployed.world) = Ret true
  /\ fst (serve Deployed.updateSettings_request Deployed.world)
     = Ret (Nav.ok_response 200 "Settings updated successfully")
  /\ fst (serve Deployed.getSettings_request
            (snd (serve Deployed.updateSettings_request Deployed.world)))
     = Ret (Settings.settings_response
              (map (fun kd =>
                      (fst kd,
                       match Value.field (fst kd) fields with
                       | Some (JStr text) => text
                       | _ => default (snd kd)
                                (Deployed.stored !! ("frontend_" +:+ fst kd))
                       end))
                 Settings.defaultSettings)).
Proof.
  intros fields serve.
  assert (Hauth : fst (Nav.checkAuth Sample.served Deployed.updateSettings_request
                         Deployed.world) = Ret true) by (vm_compute; reflexivity).
  split; [exact Hauth|].
  apply (saved_settings_reach_visitors Sample.bind_ok Deployed.batch_ok Sample.served
           Sample.uuid Deployed.others (fun _ => Sample.page) Sample.page Sample.page
           Deployed.publicPage Deployed.get_served Deployed.put_strings Deployed.first_of
           Deployed.updateSettings_request Deployed.getSettings_request Deployed.world
           fields Deployed.stored);
    try reflexivity; try exact Hauth.
  intros k v Hk Hf. apply list_elem_of_In in Hk. cbn in Hk.
  repeat (destruct Hk as [<- | Hk];
          [vm_compute in Hf; first [discriminate | injection Hf as <-; eexists; reflexivity]|]).
  contradiction.
Defined.
